(** * CryptoStake platform: ledger, staking, withdrawal and auth core

    A shallow embedding of the server-side core of the platform
    (apps/api services and apps/workers processors) and the properties
    its specification states about it.

    Modelling conventions.
    - [Decimal] (Prisma's decimal.js wrapper) is an exact rational [Q];
      results are compared with [==].  The rounding decimal.js applies
      beyond its working precision is not modelled.
    - A [Date] is its [getTime()] value: an integer number of
      milliseconds.  Every [new Date()] / [Date.now()] of one call is the
      same instant [now], passed explicitly.
    - Identifiers are strings.  They are database generated UUIDs, hence
      never empty: the JavaScript truthiness test [if (params.userId)] is
      the null test on [option string].
    - The Prisma client is a record of tables (lists of rows, oldest
      first).  Service methods are computations in a state-and-exception
      monad over it; an interactive transaction rolls the tables back when
      its callback throws. *)

From Stdlib Require Import ZArith QArith Qround List String Bool Lia Lqa.
Import ListNotations.

Open Scope string_scope.
Open Scope Z_scope.
Open Scope list_scope.

(* ================================================================= *)
(** ** Decimals and dates *)

Abbreviation Decimal := Q.

Abbreviation Date := Z.

Module Dec.
Definition add (a b : Decimal) : Decimal := (a + b)%Q.
Definition sub (a b : Decimal) : Decimal := (a - b)%Q.
Definition mul (a b : Decimal) : Decimal := (a * b)%Q.
Definition div (a b : Decimal) : Decimal := (a / b)%Q.
Definition lessThanOrEqualTo (a b : Decimal) : bool := Qle_bool a b.
Definition lessThan (a b : Decimal) : bool := negb (Qle_bool b a).
Definition greaterThan (a b : Decimal) : bool := negb (Qle_bool a b).
Definition equals (a b : Decimal) : bool := Qeq_bool a b.
Definition ofZ (z : Z) : Decimal := inject_Z z.
End Dec.

(* ================================================================= *)
(** ** Exceptions *)

Inductive Exception : Type :=
| BadRequestException (msg : string)
| NotFoundException (msg : string)
| ForbiddenException (msg : string)
| UnauthorizedException (msg : string)
| ConflictException (msg : string)
| Error (msg : string).

Inductive Result (A : Type) : Type :=
| Ok (a : A)
| Throw (e : Exception).
Arguments Ok {A} a.
Arguments Throw {A} e.

(* ================================================================= *)
(** ** Schema: enumerations *)

Inductive LedgerEntryType : Type :=
| DEPOSIT_CONFIRMED | STAKE_CREATED | UNSTAKE_COMPLETED | REWARD_ACCRUED
| REWARD_CLAIMED | WITHDRAWAL_REQUESTED | WITHDRAWAL_REJECTED
| WITHDRAWAL_PAID | ADJUSTMENT | STAKE_CANCELLED.

Inductive LedgerDirection : Type := CREDIT | DEBIT.

Inductive WithdrawalStatus : Type :=
| PENDING_REVIEW | APPROVED | REJECTED | PROCESSING | SENT | CONFIRMING
| CONFIRMED | COMPLETED | PAID_MANUALLY | FAILED.

Inductive PayoutStatus : Type :=
| PayoutPENDING | PayoutSENT | PayoutCONFIRMING | PayoutCONFIRMED
| PayoutFAILED.

Inductive StakeStatus : Type :=
| StakeACTIVE | StakeUNSTAKING | StakeCOMPLETED | StakeCANCELLED.

Inductive DepositStatus : Type :=
| DepositAWAITING | DepositCONFIRMING | DepositCONFIRMED | DepositFAILED.

Inductive Role : Type := USER | SUPPORT | ADMIN | SUPER_ADMIN.

Inductive Severity : Type := LOW | MEDIUM | HIGH.

Inductive IndicatorType : Type :=
| NEW_ADDRESS | HIGH_AMOUNT | VELOCITY | SUSPICIOUS_PATTERN.

Definition LedgerEntryType_eqb (a b : LedgerEntryType) : bool :=
  match a, b with
  | DEPOSIT_CONFIRMED, DEPOSIT_CONFIRMED
  | STAKE_CREATED, STAKE_CREATED
  | UNSTAKE_COMPLETED, UNSTAKE_COMPLETED
  | REWARD_ACCRUED, REWARD_ACCRUED
  | REWARD_CLAIMED, REWARD_CLAIMED
  | WITHDRAWAL_REQUESTED, WITHDRAWAL_REQUESTED
  | WITHDRAWAL_REJECTED, WITHDRAWAL_REJECTED
  | WITHDRAWAL_PAID, WITHDRAWAL_PAID
  | ADJUSTMENT, ADJUSTMENT
  | STAKE_CANCELLED, STAKE_CANCELLED => true
  | _, _ => false
  end.

Definition LedgerDirection_eqb (a b : LedgerDirection) : bool :=
  match a, b with
  | CREDIT, CREDIT | DEBIT, DEBIT => true
  | _, _ => false
  end.

Definition WithdrawalStatus_eqb (a b : WithdrawalStatus) : bool :=
  match a, b with
  | PENDING_REVIEW, PENDING_REVIEW | APPROVED, APPROVED
  | REJECTED, REJECTED | PROCESSING, PROCESSING | SENT, SENT
  | CONFIRMING, CONFIRMING | CONFIRMED, CONFIRMED
  | COMPLETED, COMPLETED | PAID_MANUALLY, PAID_MANUALLY
  | FAILED, FAILED => true
  | _, _ => false
  end.

Definition StakeStatus_eqb (a b : StakeStatus) : bool :=
  match a, b with
  | StakeACTIVE, StakeACTIVE | StakeUNSTAKING, StakeUNSTAKING
  | StakeCOMPLETED, StakeCOMPLETED | StakeCANCELLED, StakeCANCELLED => true
  | _, _ => false
  end.

Definition DepositStatus_eqb (a b : DepositStatus) : bool :=
  match a, b with
  | DepositAWAITING, DepositAWAITING | DepositCONFIRMING, DepositCONFIRMING
  | DepositCONFIRMED, DepositCONFIRMED | DepositFAILED, DepositFAILED => true
  | _, _ => false
  end.

Definition option_eqb {A} (eqb : A -> A -> bool) (a b : option A) : bool :=
  match a, b with
  | Some x, Some y => eqb x y
  | None, None => true
  | _, _ => false
  end.

(* ================================================================= *)
(** ** Schema: rows

    One module per Prisma model, so that fields keep their names.  Free
    text that no operation reads back (indicator descriptions,
    notification messages) is left out of the rows. *)

(** JSON objects ([metadata], notification [data]): string, number and
    decimal-rendered-as-string members; an [undefined] member is absent. *)
Inductive JsonValue : Type :=
| JString (s : string)
| JNumber (n : Q)
| JDecimal (d : Decimal).

Definition Json := list (string * JsonValue).

Module LedgerEntry.
Record t : Type := mk {
    userId : option string;
    assetId : string;
    chainId : string;
    entryType : LedgerEntryType;
    direction : LedgerDirection;
    amount : Decimal;
    balanceAfter : option Decimal;
    referenceType : string;
    referenceId : string;
    metadata : Json
  }.
End LedgerEntry.

Module BalanceCache.
Record t : Type := mk {
    userId : string;
    assetId : string;
    chainId : string;
    available : Decimal;
    staked : Decimal;
    rewardsAccrued : Decimal;
    withdrawalsPending : Decimal
  }.
End BalanceCache.

Module FraudIndicator.
Record t : Type := mk {
    type : IndicatorType;
    severity : Severity;
    score : Z
  }.
End FraudIndicator.

Module WithdrawalRequest.
Record t : Type := mk {
    id : string;
    userId : string;
    assetId : string;
    chainId : string;
    amount : Decimal;
    fee : Decimal;
    netAmount : Decimal;
    destinationAddress : string;
    status : WithdrawalStatus;
    userNotes : option string;
    adminNotes : option string;
    reviewedBy : option string;
    reviewedAt : option Date;
    manualProofUrl : option string;
    manualProofNotes : option string;
    idempotencyKey : string;
    fraudScore : Z;
    fraudIndicators : list FraudIndicator.t;
    createdAt : Date
  }.
End WithdrawalRequest.

Module PayoutTx.
Record t : Type := mk {
  id : string;
  withdrawalRequestId : string;
  txHash : option string;
  nonce : option Z;
  gasUsed : option Z;
  status : PayoutStatus;
  confirmations : Z;
  errorMessage : option string;
  sentAt : option Date;
  confirmedAt : option Date;
  attempts : Z
}.
End PayoutTx.

Module Notification.
Record t : Type := mk {
    userId : string;
    type : string;
    title : string;
    data : Json
  }.
End Notification.

Module StakePosition.
Record t : Type := mk {
    id : string;
    userId : string;
    poolId : string;
    amount : Decimal;
    rewardsAccrued : Decimal;
    rewardsClaimed : Decimal;
    lastRewardCalculation : Date;
    status : StakeStatus;
    lockedUntil : option Date;
    cooldownEndsAt : option Date;
    unstakeRequestedAt : option Date;
    unstakedAt : option Date
  }.
End StakePosition.

Module Pool.
Record t : Type := mk {
    id : string;
    assetId : string;
    currentApr : Decimal;
    totalStaked : Decimal;
    cooldownHours : Z
  }.
End Pool.

Module AprSchedule.
Record t : Type := mk {
    poolId : string;
    apr : Decimal;
    effectiveFrom : Date;
    effectiveTo : option Date
  }.
End AprSchedule.

Module Asset.
Record t : Type := mk {
    id : string;
    chainId : string;
    symbol : string;
    decimals : Z;
    contractAddress : option string;
    isNative : bool;
    isActive : bool;
    priceUsd : Decimal
  }.
End Asset.

Module Chain.
Record t : Type := mk {
    id : string;
    name : string;
    confirmationsRequired : Z;
    isActive : bool
  }.
End Chain.

Module User.
Record t : Type := mk {
    id : string;
    email : string;
    passwordHash : string;
    role : Role;
    isActive : bool;
    emailVerified : bool;
    twoFactorEnabled : bool;
    dailyWithdrawalLimit : Decimal;
    createdAt : Date;
    lastLoginAt : option Date
  }.
End User.

Module TwoFactorSecret.
Record t : Type := mk {
    userId : string;
    encryptedSecret : string;
    isVerified : bool
  }.
End TwoFactorSecret.

Module RecoveryCode.
Record t : Type := mk {
    id : string;
    userId : string;
    codeHash : string;
    isUsed : bool;
    usedAt : option Date
  }.
End RecoveryCode.

Module Session.
Record t : Type := mk {
    id : string;
    userId : string;
    refreshToken : string;
    ipAddress : string;
    userAgent : string;
    expiresAt : Date;
    isRevoked : bool
  }.
End Session.

Module AddressWhitelist.
Record t : Type := mk {
    userId : string;
    chainId : string;
    address : string;
    label : option string;
    cooldownEndsAt : Date
  }.
End AddressWhitelist.

Module DepositAddress.
Record t : Type := mk {
    id : string;
    userId : string;
    chainId : string;
    address : string;
    isActive : bool
  }.
End DepositAddress.

Module Deposit.
Record t : Type := mk {
    id : string;
    userId : string;
    assetId : string;
    chainId : string;
    depositAddressId : string;
    txHash : string;
    logIndex : Z;
    fromAddress : string;
    amount : Decimal;
    status : DepositStatus;
    confirmations : Z;
    confirmedAt : option Date
  }.
End Deposit.

Module SystemConfig.
  (** [value] is a JSON object; the scanner reads its [blockNumber]. *)
Record t : Type := mk {
    key : string;
    blockNumber : option Z
  }.
End SystemConfig.

(* ================================================================= *)
(** ** The Prisma client: a record of tables *)

Record PrismaClient : Type := mkPrisma {
  ledgerEntry : list LedgerEntry.t;
  balanceCache : list BalanceCache.t;
  withdrawalRequest : list WithdrawalRequest.t;
  payoutTx : list PayoutTx.t;
  notification : list Notification.t;
  stakePosition : list StakePosition.t;
  pool : list Pool.t;
  aprSchedule : list AprSchedule.t;
  asset : list Asset.t;
  chain : list Chain.t;
  user : list User.t;
  twoFactorSecret : list TwoFactorSecret.t;
  recoveryCode : list RecoveryCode.t;
  session : list Session.t;
  addressWhitelist : list AddressWhitelist.t;
  depositAddress : list DepositAddress.t;
  deposit : list Deposit.t;
  systemConfig : list SystemConfig.t
}.


Definition set_ledgerEntry (v : list LedgerEntry.t) (db : PrismaClient) :=
  mkPrisma v db.(balanceCache) db.(withdrawalRequest) db.(payoutTx)
    db.(notification) db.(stakePosition) db.(pool) db.(aprSchedule)
    db.(asset) db.(chain) db.(user) db.(twoFactorSecret) db.(recoveryCode)
    db.(session) db.(addressWhitelist) db.(depositAddress) db.(deposit)
    db.(systemConfig).

Definition set_balanceCache (v : list BalanceCache.t) (db : PrismaClient) :=
  mkPrisma db.(ledgerEntry) v db.(withdrawalRequest) db.(payoutTx)
    db.(notification) db.(stakePosition) db.(pool) db.(aprSchedule)
    db.(asset) db.(chain) db.(user) db.(twoFactorSecret) db.(recoveryCode)
    db.(session) db.(addressWhitelist) db.(depositAddress) db.(deposit)
    db.(systemConfig).

Definition set_withdrawalRequest (v : list WithdrawalRequest.t)
    (db : PrismaClient) :=
  mkPrisma db.(ledgerEntry) db.(balanceCache) v db.(payoutTx)
    db.(notification) db.(stakePosition) db.(pool) db.(aprSchedule)
    db.(asset) db.(chain) db.(user) db.(twoFactorSecret) db.(recoveryCode)
    db.(session) db.(addressWhitelist) db.(depositAddress) db.(deposit)
    db.(systemConfig).

Definition set_payoutTx (v : list PayoutTx.t) (db : PrismaClient) :=
  mkPrisma db.(ledgerEntry) db.(balanceCache) db.(withdrawalRequest) v
    db.(notification) db.(stakePosition) db.(pool) db.(aprSchedule)
    db.(asset) db.(chain) db.(user) db.(twoFactorSecret) db.(recoveryCode)
    db.(session) db.(addressWhitelist) db.(depositAddress) db.(deposit)
    db.(systemConfig).

Definition set_notification (v : list Notification.t) (db : PrismaClient) :=
  mkPrisma db.(ledgerEntry) db.(balanceCache) db.(withdrawalRequest)
    db.(payoutTx) v db.(stakePosition) db.(pool) db.(aprSchedule)
    db.(asset) db.(chain) db.(user) db.(twoFactorSecret) db.(recoveryCode)
    db.(session) db.(addressWhitelist) db.(depositAddress) db.(deposit)
    db.(systemConfig).

Definition set_stakePosition (v : list StakePosition.t) (db : PrismaClient) :=
  mkPrisma db.(ledgerEntry) db.(balanceCache) db.(withdrawalRequest)
    db.(payoutTx) db.(notification) v db.(pool) db.(aprSchedule)
    db.(asset) db.(chain) db.(user) db.(twoFactorSecret) db.(recoveryCode)
    db.(session) db.(addressWhitelist) db.(depositAddress) db.(deposit)
    db.(systemConfig).

Definition set_pool (v : list Pool.t) (db : PrismaClient) :=
  mkPrisma db.(ledgerEntry) db.(balanceCache) db.(withdrawalRequest)
    db.(payoutTx) db.(notification) db.(stakePosition) v db.(aprSchedule)
    db.(asset) db.(chain) db.(user) db.(twoFactorSecret) db.(recoveryCode)
    db.(session) db.(addressWhitelist) db.(depositAddress) db.(deposit)
    db.(systemConfig).

Definition set_user (v : list User.t) (db : PrismaClient) :=
  mkPrisma db.(ledgerEntry) db.(balanceCache) db.(withdrawalRequest)
    db.(payoutTx) db.(notification) db.(stakePosition) db.(pool)
    db.(aprSchedule) db.(asset) db.(chain) v db.(twoFactorSecret)
    db.(recoveryCode) db.(session) db.(addressWhitelist)
    db.(depositAddress) db.(deposit) db.(systemConfig).

Definition set_recoveryCode (v : list RecoveryCode.t) (db : PrismaClient) :=
  mkPrisma db.(ledgerEntry) db.(balanceCache) db.(withdrawalRequest)
    db.(payoutTx) db.(notification) db.(stakePosition) db.(pool)
    db.(aprSchedule) db.(asset) db.(chain) db.(user) db.(twoFactorSecret)
    v db.(session) db.(addressWhitelist) db.(depositAddress) db.(deposit)
    db.(systemConfig).

Definition set_session (v : list Session.t) (db : PrismaClient) :=
  mkPrisma db.(ledgerEntry) db.(balanceCache) db.(withdrawalRequest)
    db.(payoutTx) db.(notification) db.(stakePosition) db.(pool)
    db.(aprSchedule) db.(asset) db.(chain) db.(user) db.(twoFactorSecret)
    db.(recoveryCode) v db.(addressWhitelist) db.(depositAddress)
    db.(deposit) db.(systemConfig).

Definition set_addressWhitelist (v : list AddressWhitelist.t)
    (db : PrismaClient) :=
  mkPrisma db.(ledgerEntry) db.(balanceCache) db.(withdrawalRequest)
    db.(payoutTx) db.(notification) db.(stakePosition) db.(pool)
    db.(aprSchedule) db.(asset) db.(chain) db.(user) db.(twoFactorSecret)
    db.(recoveryCode) db.(session) v db.(depositAddress) db.(deposit)
    db.(systemConfig).

Definition set_deposit (v : list Deposit.t) (db : PrismaClient) :=
  mkPrisma db.(ledgerEntry) db.(balanceCache) db.(withdrawalRequest)
    db.(payoutTx) db.(notification) db.(stakePosition) db.(pool)
    db.(aprSchedule) db.(asset) db.(chain) db.(user) db.(twoFactorSecret)
    db.(recoveryCode) db.(session) db.(addressWhitelist)
    db.(depositAddress) v db.(systemConfig).

Definition set_systemConfig (v : list SystemConfig.t) (db : PrismaClient) :=
  mkPrisma db.(ledgerEntry) db.(balanceCache) db.(withdrawalRequest)
    db.(payoutTx) db.(notification) db.(stakePosition) db.(pool)
    db.(aprSchedule) db.(asset) db.(chain) db.(user) db.(twoFactorSecret)
    db.(recoveryCode) db.(session) db.(addressWhitelist)
    db.(depositAddress) db.(deposit) v.

(* ================================================================= *)
(** ** The service monad: state over the client, with exceptions *)

Definition M (A : Type) : Type := PrismaClient -> Result A * PrismaClient.

Definition ret {A} (a : A) : M A := fun db => (Ok a, db).

Definition throw {A} (e : Exception) : M A := fun db => (Throw e, db).

Definition bind {A B} (m : M A) (k : A -> M B) : M B :=
  fun db =>
    match m db with
    | (Ok a, db') => k a db'
    | (Throw e, db') => (Throw e, db')
    end.

Definition gets {A} (f : PrismaClient -> A) : M A := fun db => (Ok (f db), db).

Definition modify (f : PrismaClient -> PrismaClient) : M unit :=
  fun db => (Ok tt, f db).

(** [try { m } catch (error) { handler }]. *)
Definition try_catch {A} (m : M A) (handler : Exception -> M A) : M A :=
  fun db =>
    match m db with
    | (Ok a, db') => (Ok a, db')
    | (Throw e, db') => handler e db'
    end.

(** [try { m } catch (error) { console.error(...) }]: the exception is
    swallowed, the writes made before it stay. *)
Definition try_catch_log (m : M unit) : M unit :=
  fun db =>
    match m db with
    | (Ok _, db') => (Ok tt, db')
    | (Throw _, db') => (Ok tt, db')
    end.

(** [prisma.$transaction(async tx => ...)] and
    [PrismaService.executeInTransaction]: commit when the callback
    returns, roll every table back when it throws. *)
Definition executeInTransaction {A} (m : M A) : M A :=
  fun db =>
    match m db with
    | (Ok a, db') => (Ok a, db')
    | (Throw e, _) => (Throw e, db)
    end.

Declare Scope monad_scope.
Delimit Scope monad_scope with monad.
Notation "x <- m ;; k" := (bind m (fun x => k))
  (at level 61, m at next level, right associativity) : monad_scope.
Notation "m ;;; k" := (bind m (fun _ => k))
  (at level 61, right associativity) : monad_scope.
Open Scope monad_scope.

Fixpoint forEach {A} (l : list A) (body : A -> M unit) : M unit :=
  match l with
  | [] => ret tt
  | x :: rest => body x ;;; forEach rest body
  end.

(** Row helpers.  [updateWhere] rewrites the rows a unique key selects
    (there is at most one). *)
Definition updateWhere {A} (p : A -> bool) (f : A -> A) (l : list A)
    : list A :=
  map (fun x => if p x then f x else x) l.

Definition recordNotFound : Exception :=
  Error "Record to update not found".

Definition sumOf {A} (f : A -> Decimal) (l : list A) : Decimal :=
  fold_right (fun x acc => Dec.add (f x) acc) 0%Q l.

(* ================================================================= *)
(** ** modules/ledger/ledger.service.ts : LedgerService *)

Module LedgerService.

Record CreateLedgerEntryParams : Type := mkParams {
  userId : option string;
  assetId : string;
  chainId : string;
  entryType : LedgerEntryType;
  direction : LedgerDirection;
  amount : Decimal;
  referenceType : string;
  referenceId : string;
  metadata : option Json
}.

(** The [where] clause [{ userId, assetId, chainId }]. *)
Definition whereAccount (userId assetId chainId : string)
    (e : LedgerEntry.t) : bool :=
  option_eqb String.eqb e.(LedgerEntry.userId) (Some userId)
  && String.eqb e.(LedgerEntry.assetId) assetId
  && String.eqb e.(LedgerEntry.chainId) chainId.

(** [tx.ledgerEntry.aggregate({ where, _sum: { amount: true } })], with
    the [|| new Decimal(0)] the caller applies to an empty sum. *)
Definition aggregateSum (where_ : LedgerEntry.t -> bool)
    (rows : list LedgerEntry.t) : Decimal :=
  sumOf LedgerEntry.amount (filter where_ rows).

Definition creditSum (rows : list LedgerEntry.t)
    (userId assetId chainId : string) : Decimal :=
  aggregateSum (fun e => whereAccount userId assetId chainId e
                         && LedgerDirection_eqb e.(LedgerEntry.direction) CREDIT)
               rows.

Definition debitSum (rows : list LedgerEntry.t)
    (userId assetId chainId : string) : Decimal :=
  aggregateSum (fun e => whereAccount userId assetId chainId e
                         && LedgerDirection_eqb e.(LedgerEntry.direction) DEBIT)
               rows.

Definition calculateBalance (userId assetId chainId : string) : M Decimal :=
  credits <- gets (fun db => creditSum db.(ledgerEntry) userId assetId chainId) ;;
  debits <- gets (fun db => debitSum db.(ledgerEntry) userId assetId chainId) ;;
  ret (Dec.sub credits debits).

Definition ledgerEntry_create (e : LedgerEntry.t) : M LedgerEntry.t :=
  modify (fun db => set_ledgerEntry (db.(ledgerEntry) ++ [e]) db) ;;;
  ret e.

Definition createEntry (params : CreateLedgerEntryParams) : M LedgerEntry.t :=
  let amount := params.(amount) in
  if Dec.lessThanOrEqualTo amount 0 then
    throw (BadRequestException "Ledger entry amount must be positive")
  else
    balanceAfter <-
      match params.(userId) with
      | Some uid =>
          currentBalance <-
            calculateBalance uid params.(assetId) params.(chainId) ;;
          match params.(direction) with
          | CREDIT => ret (Some (Dec.add currentBalance amount))
          | DEBIT =>
              let balanceAfter := Dec.sub currentBalance amount in
              if Dec.lessThan balanceAfter 0 then
                throw (BadRequestException "Insufficient balance for debit")
              else ret (Some balanceAfter)
          end
      | None => ret None
      end ;;
    ledgerEntry_create
      (LedgerEntry.mk params.(userId) params.(assetId) params.(chainId)
         params.(entryType) params.(direction) amount balanceAfter
         params.(referenceType) params.(referenceId)
         (match params.(metadata) with Some m => m | None => [] end)).

End LedgerService.

(* ================================================================= *)
(** ** modules/ledger/balance.service.ts : BalanceService *)

Module BalanceService.

Definition whereKey (userId assetId chainId : string)
    (b : BalanceCache.t) : bool :=
  String.eqb b.(BalanceCache.userId) userId
  && String.eqb b.(BalanceCache.assetId) assetId
  && String.eqb b.(BalanceCache.chainId) chainId.

Definition findUnique (userId assetId chainId : string)
    : M (option BalanceCache.t) :=
  gets (fun db => find (whereKey userId assetId chainId) db.(balanceCache)).

(** [tx.balanceCache.update({ where, data })]: throws when the row does
    not exist. *)
Definition update (userId assetId chainId : string)
    (data : BalanceCache.t -> BalanceCache.t) : M unit :=
  row <- findUnique userId assetId chainId ;;
  match row with
  | None => throw recordNotFound
  | Some _ =>
      modify (fun db =>
        set_balanceCache
          (updateWhere (whereKey userId assetId chainId) data
             db.(balanceCache)) db)
  end.

Definition upsert (userId assetId chainId : string)
    (create : BalanceCache.t) (data : BalanceCache.t -> BalanceCache.t)
    : M unit :=
  row <- findUnique userId assetId chainId ;;
  match row with
  | None =>
      modify (fun db => set_balanceCache (db.(balanceCache) ++ [create]) db)
  | Some _ =>
      modify (fun db =>
        set_balanceCache
          (updateWhere (whereKey userId assetId chainId) data
             db.(balanceCache)) db)
  end.

(** The [data] objects: atomic increments and decrements of buckets. *)
Definition incAvailable (x : Decimal) (b : BalanceCache.t) : BalanceCache.t :=
  BalanceCache.mk b.(BalanceCache.userId) b.(BalanceCache.assetId)
    b.(BalanceCache.chainId) (Dec.add b.(BalanceCache.available) x)
    b.(BalanceCache.staked) b.(BalanceCache.rewardsAccrued)
    b.(BalanceCache.withdrawalsPending).



Definition incWithdrawalsPending (x : Decimal) (b : BalanceCache.t)
    : BalanceCache.t :=
  BalanceCache.mk b.(BalanceCache.userId) b.(BalanceCache.assetId)
    b.(BalanceCache.chainId) b.(BalanceCache.available)
    b.(BalanceCache.staked) b.(BalanceCache.rewardsAccrued)
    (Dec.add b.(BalanceCache.withdrawalsPending) x).

Definition decAvailable (x : Decimal) (b : BalanceCache.t) : BalanceCache.t :=
  BalanceCache.mk b.(BalanceCache.userId) b.(BalanceCache.assetId)
    b.(BalanceCache.chainId) (Dec.sub b.(BalanceCache.available) x)
    b.(BalanceCache.staked) b.(BalanceCache.rewardsAccrued)
    b.(BalanceCache.withdrawalsPending).

Definition decStaked (x : Decimal) (b : BalanceCache.t) : BalanceCache.t :=
  BalanceCache.mk b.(BalanceCache.userId) b.(BalanceCache.assetId)
    b.(BalanceCache.chainId) b.(BalanceCache.available)
    (Dec.sub b.(BalanceCache.staked) x) b.(BalanceCache.rewardsAccrued)
    b.(BalanceCache.withdrawalsPending).

Definition decRewardsAccrued (x : Decimal) (b : BalanceCache.t)
    : BalanceCache.t :=
  BalanceCache.mk b.(BalanceCache.userId) b.(BalanceCache.assetId)
    b.(BalanceCache.chainId) b.(BalanceCache.available)
    b.(BalanceCache.staked) (Dec.sub b.(BalanceCache.rewardsAccrued) x)
    b.(BalanceCache.withdrawalsPending).

Definition decWithdrawalsPending (x : Decimal) (b : BalanceCache.t)
    : BalanceCache.t :=
  BalanceCache.mk b.(BalanceCache.userId) b.(BalanceCache.assetId)
    b.(BalanceCache.chainId) b.(BalanceCache.available)
    b.(BalanceCache.staked) b.(BalanceCache.rewardsAccrued)
    (Dec.sub b.(BalanceCache.withdrawalsPending) x).

(** Reserve funds for withdrawal request. *)
Definition reserveForWithdrawal (userId assetId chainId : string)
    (amount : Decimal) (withdrawalRequestId : string) : M unit :=
  balance <- findUnique userId assetId chainId ;;
  match balance with
  | None => throw (BadRequestException "Insufficient available balance")
  | Some balance =>
      if Dec.lessThan balance.(BalanceCache.available) amount then
        throw (BadRequestException "Insufficient available balance")
      else
        LedgerService.createEntry
          (LedgerService.mkParams (Some userId) assetId chainId
             WITHDRAWAL_REQUESTED DEBIT amount
             "WithdrawalRequest" withdrawalRequestId None) ;;;
        update userId assetId chainId
          (fun b => incWithdrawalsPending amount (decAvailable amount b))
  end.

(** Release reserved funds on withdrawal rejection. *)
Definition releaseReservedFunds (userId assetId chainId : string)
    (amount : Decimal) (withdrawalRequestId : string) : M unit :=
  LedgerService.createEntry
    (LedgerService.mkParams (Some userId) assetId chainId
       WITHDRAWAL_REJECTED CREDIT amount
       "WithdrawalRequest" withdrawalRequestId None) ;;;
  update userId assetId chainId
    (fun b => decWithdrawalsPending amount (incAvailable amount b)).

(** Finalize withdrawal (remove from pending on successful payout).
    The entry is created with [new Decimal(0)] ("Already debited during
    reserve"), whatever [amount] is. *)
Definition finalizeWithdrawal (userId assetId chainId : string)
    (amount : Decimal) (withdrawalRequestId : string)
    (txHash : option string) : M unit :=
  LedgerService.createEntry
    (LedgerService.mkParams (Some userId) assetId chainId
       WITHDRAWAL_PAID DEBIT 0%Q
       "WithdrawalRequest" withdrawalRequestId
       (Some (match txHash with
              | Some h => [("txHash", JString h)]
              | None => []
              end))) ;;;
  update userId assetId chainId (decWithdrawalsPending amount).

(** Unstake to available balance. *)
Definition unstakeToBalance (userId assetId chainId : string)
    (amount : Decimal) (stakePositionId : string) : M unit :=
  LedgerService.createEntry
    (LedgerService.mkParams (Some userId) assetId chainId
       UNSTAKE_COMPLETED CREDIT amount
       "StakePosition" stakePositionId None) ;;;
  update userId assetId chainId
    (fun b => decStaked amount (incAvailable amount b)).

End BalanceService.

(* ================================================================= *)
(** ** Ledger invariant *)

(** Balance of an account as [calculateBalance] derives it from the
    rows: credits minus debits. *)
Definition ledgerBalance (rows : list LedgerEntry.t)
    (userId assetId chainId : string) : Decimal :=
  Dec.sub (LedgerService.creditSum rows userId assetId chainId)
          (LedgerService.debitSum rows userId assetId chainId).





(* ================================================================= *)
(** ** Strings *)

Definition lowerAscii (ch : Ascii.ascii) : Ascii.ascii :=
  let n := Ascii.nat_of_ascii ch in
  if (Nat.leb 65 n && Nat.leb n 90)%bool
  then Ascii.ascii_of_nat (n + 32) else ch.

Fixpoint toLowerCase (s : string) : string :=
  match s with
  | EmptyString => EmptyString
  | String ch rest => String (lowerAscii ch) (toLowerCase rest)
  end.

(* ================================================================= *)
(** ** modules/withdrawals/fraud.service.ts : FraudService *)

Module FraudService.

(** The four thresholds read from configuration in the constructor.
    [maxDailyWithdrawalRequests * 0.7] is the exact product here. *)
Record Config : Type := mkConfig {
  newAddressCooldownHours : Z;
  dailyWithdrawalLimitUsd : Decimal;
  largeWithdrawalThresholdUsd : Decimal;
  maxDailyWithdrawalRequests : Z
}.

Definition defaultConfig : Config := mkConfig 24 10000%Q 5000%Q 5.

Definition msPerDay : Z := 24 * 60 * 60 * 1000.

Definition whereWhitelist (userId chainId address : string)
    (w : AddressWhitelist.t) : bool :=
  String.eqb w.(AddressWhitelist.userId) userId
  && String.eqb w.(AddressWhitelist.chainId) chainId
  && String.eqb w.(AddressWhitelist.address) address.

Definition checkNewAddress (now : Date) (userId address chainId : string)
    : M (option FraudIndicator.t) :=
  whitelisted <- gets (fun db =>
    find (whereWhitelist userId chainId (toLowerCase address))
         db.(addressWhitelist)) ;;
  match whitelisted with
  | None => ret (Some (FraudIndicator.mk NEW_ADDRESS MEDIUM 30))
  | Some whitelisted =>
      if now <? whitelisted.(AddressWhitelist.cooldownEndsAt)
      then ret (Some (FraudIndicator.mk NEW_ADDRESS HIGH 50))
      else ret None
  end.

Definition findAsset (assetId : string) : M (option Asset.t) :=
  gets (fun db => find (fun a => String.eqb a.(Asset.id) assetId) db.(asset)).

Definition findUser (userId : string) : M (option User.t) :=
  gets (fun db => find (fun u => String.eqb u.(User.id) userId) db.(user)).

Definition checkLargeAmount (cfg : Config) (amount : Decimal)
    (assetId : string) : M (option FraudIndicator.t) :=
  asset <- findAsset assetId ;;
  match asset with
  | None => ret None
  | Some asset =>
      let usdValue := Dec.mul amount asset.(Asset.priceUsd) in
      if Dec.greaterThan usdValue cfg.(largeWithdrawalThresholdUsd) then
        let severity :=
          if Dec.greaterThan usdValue cfg.(dailyWithdrawalLimitUsd)
          then HIGH else MEDIUM in
        ret (Some (FraudIndicator.mk HIGH_AMOUNT severity
                     (match severity with HIGH => 40 | _ => 20 end)))
      else ret None
  end.

Definition checkVelocity (cfg : Config) (now : Date) (userId : string)
    : M (option FraudIndicator.t) :=
  let oneDayAgo := now - msPerDay in
  recentRequests <- gets (fun db =>
    Z.of_nat (List.length
      (filter (fun w => String.eqb w.(WithdrawalRequest.userId) userId
                        && (oneDayAgo <=? w.(WithdrawalRequest.createdAt)))
              db.(withdrawalRequest)))) ;;
  if cfg.(maxDailyWithdrawalRequests) <=? recentRequests then
    ret (Some (FraudIndicator.mk VELOCITY HIGH 40))
  else if Qle_bool (inject_Z cfg.(maxDailyWithdrawalRequests) * (7 # 10))
                   (inject_Z recentRequests) then
    ret (Some (FraudIndicator.mk VELOCITY MEDIUM 20))
  else ret None.

(** [w.amount.mul(w.asset.priceUsd)] over the joined asset row. *)
Definition usdOf (assets : list Asset.t) (w : WithdrawalRequest.t) : Decimal :=
  match find (fun a => String.eqb a.(Asset.id) w.(WithdrawalRequest.assetId))
             assets with
  | Some a => Dec.mul w.(WithdrawalRequest.amount) a.(Asset.priceUsd)
  | None => 0%Q
  end.

Definition notRejectedOrFailed (s : WithdrawalStatus) : bool :=
  match s with
  | REJECTED | FAILED => false
  | _ => true
  end.

Definition checkDailyLimit (now : Date) (userId : string)
    (newAmount : Decimal) (assetId : string) : M (option FraudIndicator.t) :=
  let oneDayAgo := now - msPerDay in
  assetRow <- findAsset assetId ;;
  match assetRow with
  | None => ret None
  | Some assetRow =>
      userRow <- findUser userId ;;
      match userRow with
      | None => ret None
      | Some userRow =>
          totalUsd <- gets (fun db =>
            sumOf (usdOf db.(asset))
              (filter (fun w =>
                 String.eqb w.(WithdrawalRequest.userId) userId
                 && (oneDayAgo <=? w.(WithdrawalRequest.createdAt))
                 && notRejectedOrFailed w.(WithdrawalRequest.status))
                 db.(withdrawalRequest))) ;;
          let newTotalUsd :=
            Dec.add totalUsd (Dec.mul newAmount assetRow.(Asset.priceUsd)) in
          if Dec.greaterThan newTotalUsd userRow.(User.dailyWithdrawalLimit)
          then ret (Some (FraudIndicator.mk HIGH_AMOUNT HIGH 50))
          else ret None
      end
  end.

(** [accountAgeMs / (24 * 60 * 60 * 1000) < 7] is the integer test
    [accountAgeMs < 7 * msPerDay]. *)
Definition checkPatterns (now : Date) (userId : string)
    : M (option FraudIndicator.t) :=
  user <- findUser userId ;;
  match user with
  | None => ret None
  | Some user =>
      let accountAgeMs := now - user.(User.createdAt) in
      if accountAgeMs <? 7 * msPerDay then
        ret (Some (FraudIndicator.mk SUSPICIOUS_PATTERN MEDIUM 25))
      else if negb user.(User.emailVerified) then
        ret (Some (FraudIndicator.mk SUSPICIOUS_PATTERN LOW 15))
      else ret None
  end.

Record Analysis : Type := mkAnalysis {
  indicators : list FraudIndicator.t;
  totalScore : Z
}.

Definition push (check : option FraudIndicator.t)
    (indicators : list FraudIndicator.t) : list FraudIndicator.t :=
  match check with
  | Some i => indicators ++ [i]
  | None => indicators
  end.

Definition analyzeWithdrawalRequest (cfg : Config) (now : Date)
    (userId destinationAddress : string) (amount : Decimal)
    (assetId chainId : string) : M Analysis :=
  let indicators := [] in
  addressCheck <- checkNewAddress now userId destinationAddress chainId ;;
  let indicators := push addressCheck indicators in
  amountCheck <- checkLargeAmount cfg amount assetId ;;
  let indicators := push amountCheck indicators in
  velocityCheck <- checkVelocity cfg now userId ;;
  let indicators := push velocityCheck indicators in
  limitCheck <- checkDailyLimit now userId amount assetId ;;
  let indicators := push limitCheck indicators in
  patternCheck <- checkPatterns now userId ;;
  let indicators := push patternCheck indicators in
  let totalScore :=
    fold_left (fun sum ind => sum + ind.(FraudIndicator.score)) indicators 0 in
  ret (mkAnalysis indicators totalScore).

Definition addToWhitelist (cfg : Config) (now : Date)
    (userId chainId address : string) (label : option string) : M unit :=
  let cooldownEndsAt := now + cfg.(newAddressCooldownHours) * 60 * 60 * 1000 in
  let address := toLowerCase address in
  row <- gets (fun db =>
    find (whereWhitelist userId chainId address) db.(addressWhitelist)) ;;
  match row with
  | None =>
      modify (fun db =>
        set_addressWhitelist
          (db.(addressWhitelist)
           ++ [AddressWhitelist.mk userId chainId address label cooldownEndsAt])
          db)
  | Some _ =>
      modify (fun db =>
        set_addressWhitelist
          (updateWhere (whereWhitelist userId chainId address)
             (fun w =>
                AddressWhitelist.mk w.(AddressWhitelist.userId)
                  w.(AddressWhitelist.chainId) w.(AddressWhitelist.address)
                  (match label with
                   | Some l => Some l
                   | None => w.(AddressWhitelist.label)
                   end)
                  w.(AddressWhitelist.cooldownEndsAt))
             db.(addressWhitelist)) db)
  end.

End FraudService.

(* ================================================================= *)
(** ** modules/withdrawals/withdrawals.service.ts : WithdrawalsService

    Enqueueing the payout job is an effect on the job queue, outside the
    tables; it is not part of the state. *)

Module WithdrawalsService.

Definition UI_COPY_WITHDRAWAL_DISCLAIMER : string :=
  "Withdrawals require admin review. Processing time may vary. This is not an instant withdrawal.".

Definition statusName (s : WithdrawalStatus) : string :=
  match s with
  | PENDING_REVIEW => "PENDING_REVIEW" | APPROVED => "APPROVED"
  | REJECTED => "REJECTED" | PROCESSING => "PROCESSING" | SENT => "SENT"
  | CONFIRMING => "CONFIRMING" | CONFIRMED => "CONFIRMED"
  | COMPLETED => "COMPLETED" | PAID_MANUALLY => "PAID_MANUALLY"
  | FAILED => "FAILED"
  end.

Definition findById (id : string) : M (option WithdrawalRequest.t) :=
  gets (fun db =>
    find (fun r => String.eqb r.(WithdrawalRequest.id) id)
         db.(withdrawalRequest)).

Definition findByIdempotencyKey (key : string)
    : M (option WithdrawalRequest.t) :=
  gets (fun db =>
    find (fun r => String.eqb r.(WithdrawalRequest.idempotencyKey) key)
         db.(withdrawalRequest)).

(** [tx.withdrawalRequest.update({ where: { id }, data })]. *)
Definition update (id : string)
    (data : WithdrawalRequest.t -> WithdrawalRequest.t)
    : M WithdrawalRequest.t :=
  row <- findById id ;;
  match row with
  | None => throw recordNotFound
  | Some row =>
      modify (fun db =>
        set_withdrawalRequest
          (updateWhere (fun r => String.eqb r.(WithdrawalRequest.id) id) data
             db.(withdrawalRequest)) db) ;;;
      ret (data row)
  end.

Definition orKeep {A} (new : option A) (old : option A) : option A :=
  match new with
  | Some v => Some v
  | None => old
  end.

Definition setStatus (s : WithdrawalStatus) (r : WithdrawalRequest.t)
    : WithdrawalRequest.t :=
  WithdrawalRequest.mk r.(WithdrawalRequest.id) r.(WithdrawalRequest.userId)
    r.(WithdrawalRequest.assetId) r.(WithdrawalRequest.chainId)
    r.(WithdrawalRequest.amount) r.(WithdrawalRequest.fee)
    r.(WithdrawalRequest.netAmount) r.(WithdrawalRequest.destinationAddress)
    s r.(WithdrawalRequest.userNotes) r.(WithdrawalRequest.adminNotes)
    r.(WithdrawalRequest.reviewedBy) r.(WithdrawalRequest.reviewedAt)
    r.(WithdrawalRequest.manualProofUrl) r.(WithdrawalRequest.manualProofNotes)
    r.(WithdrawalRequest.idempotencyKey) r.(WithdrawalRequest.fraudScore)
    r.(WithdrawalRequest.fraudIndicators) r.(WithdrawalRequest.createdAt).

(** [{ status, reviewedBy, reviewedAt, adminNotes }]; an [undefined]
    field is left as it was. *)
Definition setReview (s : WithdrawalStatus) (adminId : string) (now : Date)
    (adminNotes : option string) (r : WithdrawalRequest.t)
    : WithdrawalRequest.t :=
  WithdrawalRequest.mk r.(WithdrawalRequest.id) r.(WithdrawalRequest.userId)
    r.(WithdrawalRequest.assetId) r.(WithdrawalRequest.chainId)
    r.(WithdrawalRequest.amount) r.(WithdrawalRequest.fee)
    r.(WithdrawalRequest.netAmount) r.(WithdrawalRequest.destinationAddress)
    s r.(WithdrawalRequest.userNotes)
    (orKeep adminNotes r.(WithdrawalRequest.adminNotes))
    (Some adminId) (Some now)
    r.(WithdrawalRequest.manualProofUrl) r.(WithdrawalRequest.manualProofNotes)
    r.(WithdrawalRequest.idempotencyKey) r.(WithdrawalRequest.fraudScore)
    r.(WithdrawalRequest.fraudIndicators) r.(WithdrawalRequest.createdAt).

Definition setPaidManually (adminId : string) (now : Date)
    (proofUrl : option string) (adminNotes : string)
    (r : WithdrawalRequest.t) : WithdrawalRequest.t :=
  WithdrawalRequest.mk r.(WithdrawalRequest.id) r.(WithdrawalRequest.userId)
    r.(WithdrawalRequest.assetId) r.(WithdrawalRequest.chainId)
    r.(WithdrawalRequest.amount) r.(WithdrawalRequest.fee)
    r.(WithdrawalRequest.netAmount) r.(WithdrawalRequest.destinationAddress)
    PAID_MANUALLY r.(WithdrawalRequest.userNotes) (Some adminNotes)
    (Some adminId) (Some now)
    (orKeep proofUrl r.(WithdrawalRequest.manualProofUrl)) (Some adminNotes)
    r.(WithdrawalRequest.idempotencyKey) r.(WithdrawalRequest.fraudScore)
    r.(WithdrawalRequest.fraudIndicators) r.(WithdrawalRequest.createdAt).

Record CreateParams : Type := mkCreate {
  assetId : string;
  chainId : string;
  amount : Decimal;          (* [new Decimal(params.amount)] *)
  destinationAddress : string;
  userNotes : option string;
  idempotencyKey : string
}.

(** What the endpoint returns: the stored row, and for a fresh request
    the disclaimer spread next to it. *)
Record Response : Type := mkResponse {
  request : WithdrawalRequest.t;
  message : option string
}.

(** [createRequest] calls [fraudService.addToWhitelist] on the
    non-transactional client: when the transaction callback throws, the
    whitelist row stays while the other tables roll back. *)
Definition executeInTransactionKeepingWhitelist {A} (m : M A) : M A :=
  fun db =>
    match m db with
    | (Ok a, db') => (Ok a, db')
    | (Throw e, db') =>
        (Throw e, set_addressWhitelist db'.(addressWhitelist) db)
    end.

(** Create a withdrawal request (USER action).  [newId] is the id the
    database generates for the row, [now] its [createdAt]. *)
Definition createRequest (cfg : FraudService.Config) (now : Date)
    (newId : string) (userId : string) (params : CreateParams)
    : M Response :=
  existing <- findByIdempotencyKey params.(idempotencyKey) ;;
  match existing with
  | Some existing => ret (mkResponse existing None)
  | None =>
      let amount := params.(amount) in
      assetRow <- FraudService.findAsset params.(assetId) ;;
      match assetRow with
      | None => throw (NotFoundException "Asset not found")
      | Some assetRow =>
          if negb assetRow.(Asset.isActive) then
            throw (BadRequestException "Asset is not available for withdrawal")
          else
            let feePercent := (1 # 1000)%Q in
            let minFee := (1 # 10000)%Q in
            let fee := Dec.mul amount feePercent in
            let fee := if Dec.lessThan fee minFee then minFee else fee in
            let netAmount := Dec.sub amount fee in
            if Dec.lessThanOrEqualTo netAmount 0 then
              throw (BadRequestException "Amount too small after fees")
            else
              executeInTransactionKeepingWhitelist (
                balance <- BalanceService.findUnique userId params.(assetId)
                             params.(chainId) ;;
                match balance with
                | None =>
                    throw (BadRequestException "Insufficient available balance")
                | Some balance =>
                    if Dec.lessThan balance.(BalanceCache.available) amount
                    then
                      throw (BadRequestException
                               "Insufficient available balance")
                    else
                      fraudAnalysis <-
                        FraudService.analyzeWithdrawalRequest cfg now userId
                          params.(destinationAddress) amount params.(assetId)
                          params.(chainId) ;;
                      FraudService.addToWhitelist cfg now userId
                        params.(chainId) params.(destinationAddress) None ;;;
                      let row :=
                        WithdrawalRequest.mk newId userId params.(assetId)
                          params.(chainId) amount fee netAmount
                          (toLowerCase params.(destinationAddress))
                          PENDING_REVIEW params.(userNotes) None None None
                          None None params.(idempotencyKey)
                          fraudAnalysis.(FraudService.totalScore)
                          fraudAnalysis.(FraudService.indicators) now in
                      modify (fun db =>
                        set_withdrawalRequest (db.(withdrawalRequest) ++ [row])
                          db) ;;;
                      BalanceService.reserveForWithdrawal userId
                        params.(assetId) params.(chainId) amount newId ;;;
                      ret (mkResponse row (Some UI_COPY_WITHDRAWAL_DISCLAIMER))
                end)
      end
  end.

(** Approve withdrawal request (ADMIN action). *)
Definition approveRequest (now : Date) (requestId adminId : string)
    (adminNotes : option string) : M WithdrawalRequest.t :=
  executeInTransaction (
    row <- findById requestId ;;
    match row with
    | None => throw (NotFoundException "Withdrawal request not found")
    | Some row =>
        match row.(WithdrawalRequest.status) with
        | PENDING_REVIEW =>
            update requestId (setReview APPROVED adminId now adminNotes)
        | st =>
            throw (BadRequestException
                     ("Cannot approve request in status: "
                      ++ statusName st)%string)
        end
    end).

(** Reject withdrawal request (ADMIN action). *)
Definition rejectRequest (now : Date) (requestId adminId adminNotes : string)
    : M WithdrawalRequest.t :=
  executeInTransaction (
    row <- findById requestId ;;
    match row with
    | None => throw (NotFoundException "Withdrawal request not found")
    | Some row =>
        match row.(WithdrawalRequest.status) with
        | PENDING_REVIEW =>
            updated <- update requestId
                         (setReview REJECTED adminId now (Some adminNotes)) ;;
            BalanceService.releaseReservedFunds row.(WithdrawalRequest.userId)
              row.(WithdrawalRequest.assetId) row.(WithdrawalRequest.chainId)
              row.(WithdrawalRequest.amount) requestId ;;;
            ret updated
        | st =>
            throw (BadRequestException
                     ("Cannot reject request in status: "
                      ++ statusName st)%string)
        end
    end).

(** Mark as paid manually (ADMIN action). *)
Definition markPaidManually (now : Date) (requestId adminId : string)
    (proofUrl : option string) (adminNotes : string)
    : M WithdrawalRequest.t :=
  executeInTransaction (
    row <- findById requestId ;;
    match row with
    | None => throw (NotFoundException "Withdrawal request not found")
    | Some row =>
        match row.(WithdrawalRequest.status) with
        | PENDING_REVIEW | APPROVED | FAILED =>
            updated <- update requestId
                         (setPaidManually adminId now proofUrl adminNotes) ;;
            BalanceService.finalizeWithdrawal row.(WithdrawalRequest.userId)
              row.(WithdrawalRequest.assetId) row.(WithdrawalRequest.chainId)
              row.(WithdrawalRequest.amount) requestId None ;;;
            ret updated
        | st =>
            throw (BadRequestException
                     ("Cannot mark as paid manually in status: "
                      ++ statusName st)%string)
        end
    end).

End WithdrawalsService.

(* ================================================================= *)
(** ** apps/workers payout processor : processPayout, checkPayoutStatus *)

Module PayoutProcessor.

(** Outcome of the chain side of [processPayout] (treasury wallet
    lookup, key decryption, broadcast): the hash and nonce of the sent
    transaction, or the error thrown on the way. *)
Inductive SendOutcome : Type :=
| Sent (txHash : string) (nonce : Z)
| SendError (message : string).

(** [provider.getTransactionReceipt]. *)
Record Receipt : Type := mkReceipt {
  blockNumber : Z;
  status : Z;
  gasUsed : Z
}.

Definition findPayoutByRequest (withdrawalRequestId : string)
    : M (option PayoutTx.t) :=
  gets (fun db =>
    find (fun p => String.eqb p.(PayoutTx.withdrawalRequestId)
                     withdrawalRequestId) db.(payoutTx)).

Definition findPayoutByTxHash (txHash : string) : M (option PayoutTx.t) :=
  gets (fun db =>
    find (fun p => option_eqb String.eqb p.(PayoutTx.txHash) (Some txHash))
         db.(payoutTx)).

Definition updatePayout (id : string) (data : PayoutTx.t -> PayoutTx.t)
    : M unit :=
  row <- gets (fun db =>
    find (fun p => String.eqb p.(PayoutTx.id) id) db.(payoutTx)) ;;
  match row with
  | None => throw recordNotFound
  | Some _ =>
      modify (fun db =>
        set_payoutTx
          (updateWhere (fun p => String.eqb p.(PayoutTx.id) id) data
             db.(payoutTx)) db)
  end.

(** [prisma.payoutTx.create]: [withdrawalRequestId] is unique. *)
Definition createPayout (row : PayoutTx.t) : M unit :=
  existing <- findPayoutByRequest row.(PayoutTx.withdrawalRequestId) ;;
  match existing with
  | Some _ => throw (Error "Unique constraint failed")
  | None => modify (fun db => set_payoutTx (db.(payoutTx) ++ [row]) db)
  end.

Definition setFailed (message : string) (p : PayoutTx.t) : PayoutTx.t :=
  PayoutTx.mk p.(PayoutTx.id) p.(PayoutTx.withdrawalRequestId)
    p.(PayoutTx.txHash) p.(PayoutTx.nonce) p.(PayoutTx.gasUsed)
    PayoutFAILED p.(PayoutTx.confirmations) (Some message)
    p.(PayoutTx.sentAt) p.(PayoutTx.confirmedAt) (p.(PayoutTx.attempts) + 1).

Definition processPayout (now : Date) (newPayoutTxId : string)
    (withdrawalRequestId : string) (outcome : SendOutcome)
    : M (option string) :=
  row <- WithdrawalsService.findById withdrawalRequestId ;;
  match row with
  | None =>
      throw (Error ("Withdrawal request not found: "
                    ++ withdrawalRequestId)%string)
  | Some row =>
      match row.(WithdrawalRequest.status) with
      | APPROVED =>
          WithdrawalsService.update withdrawalRequestId
            (WithdrawalsService.setStatus PROCESSING) ;;;
          try_catch (
            match outcome with
            | SendError message => throw (Error message)
            | Sent txHash nonce =>
                createPayout
                  (PayoutTx.mk newPayoutTxId withdrawalRequestId (Some txHash)
                     (Some nonce) None PayoutSENT 0 None (Some now) None 0) ;;;
                WithdrawalsService.update withdrawalRequestId
                  (WithdrawalsService.setStatus SENT) ;;;
                ret (Some txHash)
            end)
          (fun error =>
            let message :=
              match error with
              | BadRequestException m | NotFoundException m
              | ForbiddenException m | UnauthorizedException m
              | ConflictException m | Error m => m
              end in
            existing <- findPayoutByRequest withdrawalRequestId ;;
            match existing with
            | None =>
                modify (fun db =>
                  set_payoutTx
                    (db.(payoutTx)
                     ++ [PayoutTx.mk newPayoutTxId withdrawalRequestId None
                           None None PayoutFAILED 0 (Some message) None None 1])
                    db)
            | Some p => updatePayout p.(PayoutTx.id) (setFailed message)
            end ;;;
            WithdrawalsService.update withdrawalRequestId
              (WithdrawalsService.setStatus FAILED) ;;;
            throw error)
      | _ => ret None
      end
  end.

Definition setPayoutStatus (s : PayoutStatus) (confirmations : Z)
    (p : PayoutTx.t) : PayoutTx.t :=
  PayoutTx.mk p.(PayoutTx.id) p.(PayoutTx.withdrawalRequestId)
    p.(PayoutTx.txHash) p.(PayoutTx.nonce) p.(PayoutTx.gasUsed)
    s confirmations p.(PayoutTx.errorMessage)
    p.(PayoutTx.sentAt) p.(PayoutTx.confirmedAt) p.(PayoutTx.attempts).

Definition setReverted (confirmations : Z) (p : PayoutTx.t) : PayoutTx.t :=
  PayoutTx.mk p.(PayoutTx.id) p.(PayoutTx.withdrawalRequestId)
    p.(PayoutTx.txHash) p.(PayoutTx.nonce) p.(PayoutTx.gasUsed)
    PayoutFAILED confirmations (Some "Transaction reverted on-chain")
    p.(PayoutTx.sentAt) p.(PayoutTx.confirmedAt) p.(PayoutTx.attempts).

Definition setConfirmed (now : Date) (confirmations gasUsed : Z)
    (p : PayoutTx.t) : PayoutTx.t :=
  PayoutTx.mk p.(PayoutTx.id) p.(PayoutTx.withdrawalRequestId)
    p.(PayoutTx.txHash) p.(PayoutTx.nonce) (Some gasUsed)
    PayoutCONFIRMED confirmations p.(PayoutTx.errorMessage)
    p.(PayoutTx.sentAt) (Some now) p.(PayoutTx.attempts).

Definition notification_create (n : Notification.t) : M unit :=
  modify (fun db => set_notification (db.(notification) ++ [n]) db).

(** [receipt] and [currentBlock] are what the provider answers.  The
    joined [withdrawalRequest] and its [chain] exist by foreign key. *)
Definition checkPayoutStatus (now : Date) (payoutTxId : string)
    (receipt : option Receipt) (currentBlock : Z) : M unit :=
  payout <- findPayoutByTxHash payoutTxId ;;
  match payout with
  | None => throw (Error ("Payout tx not found: " ++ payoutTxId)%string)
  | Some payout =>
      match payout.(PayoutTx.status) with
      | PayoutCONFIRMED | PayoutFAILED => ret tt
      | _ =>
          req <- WithdrawalsService.findById
                   payout.(PayoutTx.withdrawalRequestId) ;;
          match req with
          | None => throw (Error "foreign key: withdrawalRequest")
          | Some req =>
          chainRow <- gets (fun db =>
            find (fun c => String.eqb c.(Chain.id)
                             req.(WithdrawalRequest.chainId)) db.(chain)) ;;
          match chainRow with
          | None => throw (Error "foreign key: chain")
          | Some chainRow =>
          match receipt with
          | None => throw (Error "Transaction not yet mined")
          | Some receipt =>
              let confirmations :=
                currentBlock - receipt.(blockNumber) + 1 in
              if receipt.(status) =? 0 then
                executeInTransaction (
                  updatePayout payout.(PayoutTx.id)
                    (setReverted confirmations) ;;;
                  WithdrawalsService.update
                    payout.(PayoutTx.withdrawalRequestId)
                    (WithdrawalsService.setStatus FAILED) ;;;
                  ret tt)
              else if chainRow.(Chain.confirmationsRequired) <=? confirmations
              then
                executeInTransaction (
                  updatePayout payout.(PayoutTx.id)
                    (setConfirmed now confirmations receipt.(gasUsed)) ;;;
                  WithdrawalsService.update
                    payout.(PayoutTx.withdrawalRequestId)
                    (WithdrawalsService.setStatus COMPLETED) ;;;
                  BalanceService.update req.(WithdrawalRequest.userId)
                    req.(WithdrawalRequest.assetId)
                    req.(WithdrawalRequest.chainId)
                    (BalanceService.decWithdrawalsPending
                       req.(WithdrawalRequest.amount)) ;;;
                  notification_create
                    (Notification.mk req.(WithdrawalRequest.userId)
                       "withdrawal_completed" "Withdrawal Completed"
                       (match payout.(PayoutTx.txHash) with
                        | Some h => [("txHash", JString h)]
                        | None => []
                        end
                        ++ [("withdrawalRequestId",
                             JString payout.(PayoutTx.withdrawalRequestId))])))
              else
                updatePayout payout.(PayoutTx.id)
                  (setPayoutStatus PayoutCONFIRMING confirmations) ;;;
                WithdrawalsService.update
                  payout.(PayoutTx.withdrawalRequestId)
                  (WithdrawalsService.setStatus CONFIRMING) ;;;
                (* the message also carries the two counts *)
                throw (Error "Waiting for confirmations")
          end end end
      end
  end.

End PayoutProcessor.

(* ================================================================= *)
(** ** Ledger entries of one withdrawal request *)

Definition entriesFor (ty : LedgerEntryType) (referenceId : string)
    (rows : list LedgerEntry.t) : list LedgerEntry.t :=
  filter (fun e => LedgerEntryType_eqb e.(LedgerEntry.entryType) ty
                   && String.eqb e.(LedgerEntry.referenceType)
                        "WithdrawalRequest"
                   && String.eqb e.(LedgerEntry.referenceId) referenceId)
         rows.

Definition statusOf (id : string) (db : PrismaClient)
    : option WithdrawalStatus :=
  option_map WithdrawalRequest.status
    (find (fun r => String.eqb r.(WithdrawalRequest.id) id)
          db.(withdrawalRequest)).

Definition balanceOf (userId assetId chainId : string) (db : PrismaClient)
    : option BalanceCache.t :=
  find (BalanceService.whereKey userId assetId chainId) db.(balanceCache).

(* ================================================================= *)
(** ** A worked scenario: alice holds 2 USDT and withdraws 1 *)

Module Scenario.

Definition day : Z := 24 * 60 * 60 * 1000.
Definition t0 : Date := 1000 * day.

Definition alice : User.t :=
  User.mk "alice" "alice@example.com" "hash:pw" USER true true false
    10000%Q 0 None.

Definition usdt : Asset.t :=
  Asset.mk "usdt" "eth" "USDT" 6 (Some "0xdac17f958d2ee523a2206206994597c13d831ec7")
    false true 1%Q.

Definition eth : Chain.t := Chain.mk "eth" "Ethereum" 12 true.

Definition funded : PrismaClient :=
  mkPrisma
    [LedgerEntry.mk (Some "alice") "usdt" "eth" DEPOSIT_CONFIRMED CREDIT 2%Q
       None "Deposit" "dep-1" []]
    [BalanceCache.mk "alice" "usdt" "eth" 2%Q 0%Q 0%Q 0%Q]
    [] [] [] [] [] [] [usdt] [eth] [alice] [] [] [] [] [] [] [].

Definition withdraw1 : WithdrawalsService.CreateParams :=
  WithdrawalsService.mkCreate "usdt" "eth" 1%Q
    "0x00000000000000000000000000000000000000AA" None "key-1".

(** Submission, approval, broadcast, and the confirmation check once
    the receipt is 12 blocks deep. *)
Definition requested : PrismaClient :=
  snd (WithdrawalsService.createRequest FraudService.defaultConfig t0 "wr-1"
         "alice" withdraw1 funded).

Definition approved : PrismaClient :=
  snd (WithdrawalsService.approveRequest (t0 + 1) "wr-1" "admin-1" None
         requested).

Definition sent : PrismaClient :=
  snd (PayoutProcessor.processPayout (t0 + 2) "ptx-1" "wr-1"
         (PayoutProcessor.Sent "0xabc" 7) approved).

Definition minedReceipt : PayoutProcessor.Receipt :=
  PayoutProcessor.mkReceipt 100 1 21000.

Definition confirmed : PrismaClient :=
  snd (PayoutProcessor.checkPayoutStatus (t0 + 3) "0xabc" (Some minedReceipt)
         111 sent).

End Scenario.

(** A computation that leaves one table as it found it. *)
Definition keeps {T A} (table : PrismaClient -> T) (m : M A) : Prop :=
  forall db, table (snd (m db)) = table db.

(* ================================================================= *)
(** ** modules/pools/pools.service.ts : PoolsService.getEffectiveApr *)

Module PoolsService.

(** The [where] of the schedule query: this pool, [effectiveFrom <=
    date], and [effectiveTo] null or [>= date]. *)
Definition whereEffective (poolId : string) (date : Date)
    (s : AprSchedule.t) : bool :=
  String.eqb s.(AprSchedule.poolId) poolId
  && (s.(AprSchedule.effectiveFrom) <=? date)
  && match s.(AprSchedule.effectiveTo) with
     | None => true
     | Some effectiveTo => date <=? effectiveTo
     end.

(** [orderBy: { effectiveFrom: 'desc' }] then first row.  Among rows
    with the same [effectiveFrom] the earliest stored is taken. *)
Fixpoint firstByEffectiveFromDesc (rows : list AprSchedule.t)
    : option AprSchedule.t :=
  match rows with
  | [] => None
  | r :: rest =>
      match firstByEffectiveFromDesc rest with
      | Some r' =>
          if r.(AprSchedule.effectiveFrom) <? r'.(AprSchedule.effectiveFrom)
          then Some r' else Some r
      | None => Some r
      end
  end.

Definition findSchedule (poolId : string) (date : Date)
    : M (option AprSchedule.t) :=
  gets (fun db =>
    firstByEffectiveFromDesc
      (filter (whereEffective poolId date) db.(aprSchedule))).

Definition findPool (poolId : string) : M (option Pool.t) :=
  gets (fun db => find (fun p => String.eqb p.(Pool.id) poolId) db.(pool)).

Definition getEffectiveApr (poolId : string) (date : Date) : M Decimal :=
  schedule <- findSchedule poolId date ;;
  match schedule with
  | Some schedule => ret schedule.(AprSchedule.apr)
  | None =>
      poolRow <- findPool poolId ;;
      match poolRow with
      | Some poolRow => ret poolRow.(Pool.currentApr)
      | None => ret 0%Q
      end
  end.

End PoolsService.

(* ================================================================= *)
(** ** Reward arithmetic shared by the service and the worker *)

(** [timeDiffMs / 1000]: a JavaScript number, which [Decimal.mul] reads
    back through its shortest decimal rendering, the exact quotient. *)
Definition timeDiffSeconds (now last : Date) : Q :=
  (inject_Z (now - last) / 1000)%Q.

(** [apr.div(100).div(365).div(24).div(60).div(60)]. *)
Definition ratePerSecond (apr : Decimal) : Decimal :=
  Dec.div (Dec.div (Dec.div (Dec.div (Dec.div apr 100) 365) 24) 60) 60.

(** [stake.amount.mul(ratePerSecond).mul(timeDiffSeconds)]. *)
Definition newRewards (amount apr : Decimal) (seconds : Q) : Decimal :=
  Dec.mul (Dec.mul amount (ratePerSecond apr)) seconds.

(* ================================================================= *)
(** ** modules/stakes/stakes.service.ts : StakesService *)

Module StakesService.

Inductive UnstakeResult : Type :=
| UNSTAKING_started (cooldownEndsAt : Date)
| COMPLETED_with (amountReturned principalReturned rewardsClaimed : Decimal).

Definition findStake (stakeId : string) : M (option StakePosition.t) :=
  gets (fun db =>
    find (fun s => String.eqb s.(StakePosition.id) stakeId)
         db.(stakePosition)).

Definition updateStake (stakeId : string)
    (data : StakePosition.t -> StakePosition.t) : M unit :=
  row <- findStake stakeId ;;
  match row with
  | None => throw recordNotFound
  | Some _ =>
      modify (fun db =>
        set_stakePosition
          (updateWhere (fun s => String.eqb s.(StakePosition.id) stakeId)
             data db.(stakePosition)) db)
  end.

Definition updatePool (poolId : string) (data : Pool.t -> Pool.t) : M unit :=
  row <- PoolsService.findPool poolId ;;
  match row with
  | None => throw recordNotFound
  | Some _ =>
      modify (fun db =>
        set_pool
          (updateWhere (fun p => String.eqb p.(Pool.id) poolId) data
             db.(pool)) db)
  end.

Definition decTotalStaked (x : Decimal) (p : Pool.t) : Pool.t :=
  Pool.mk p.(Pool.id) p.(Pool.assetId) p.(Pool.currentApr)
    (Dec.sub p.(Pool.totalStaked) x) p.(Pool.cooldownHours).

(** [{ status: 'UNSTAKING', unstakeRequestedAt, cooldownEndsAt }]. *)
Definition setUnstaking (now cooldownEndsAt : Date) (s : StakePosition.t)
    : StakePosition.t :=
  StakePosition.mk s.(StakePosition.id) s.(StakePosition.userId)
    s.(StakePosition.poolId) s.(StakePosition.amount)
    s.(StakePosition.rewardsAccrued) s.(StakePosition.rewardsClaimed)
    s.(StakePosition.lastRewardCalculation) StakeUNSTAKING
    s.(StakePosition.lockedUntil) (Some cooldownEndsAt) (Some now)
    s.(StakePosition.unstakedAt).

(** [{ status: 'COMPLETED', unstakedAt, rewardsAccrued }]. *)
Definition setCompleted (now : Date) (rewardsAccrued : Decimal)
    (s : StakePosition.t) : StakePosition.t :=
  StakePosition.mk s.(StakePosition.id) s.(StakePosition.userId)
    s.(StakePosition.poolId) s.(StakePosition.amount)
    rewardsAccrued s.(StakePosition.rewardsClaimed)
    s.(StakePosition.lastRewardCalculation) StakeCOMPLETED
    s.(StakePosition.lockedUntil) s.(StakePosition.cooldownEndsAt)
    s.(StakePosition.unstakeRequestedAt) (Some now).

Definition calculateAccruedRewards (now : Date) (stake : StakePosition.t)
    : M Decimal :=
  let seconds := timeDiffSeconds now stake.(StakePosition.lastRewardCalculation) in
  apr <- PoolsService.getEffectiveApr stake.(StakePosition.poolId) now ;;
  ret (Dec.add stake.(StakePosition.rewardsAccrued)
         (newRewards stake.(StakePosition.amount) apr seconds)).

(** The joined [pool] and its [asset] exist by foreign key. *)
Definition unstake (now : Date) (userId stakeId : string) : M UnstakeResult :=
  executeInTransaction (
    stake <- findStake stakeId ;;
    match stake with
    | None => throw (NotFoundException "Stake position not found")
    | Some stake =>
    poolRow <- PoolsService.findPool stake.(StakePosition.poolId) ;;
    match poolRow with
    | None => throw (Error "foreign key: pool")
    | Some poolRow =>
    assetRow <- FraudService.findAsset poolRow.(Pool.assetId) ;;
    match assetRow with
    | None => throw (Error "foreign key: asset")
    | Some assetRow =>
      if negb (String.eqb stake.(StakePosition.userId) userId) then
        throw (ForbiddenException "Access denied")
      else if negb (StakeStatus_eqb stake.(StakePosition.status) StakeACTIVE)
      then throw (BadRequestException "Stake is not active")
      else if match stake.(StakePosition.lockedUntil) with
              | Some lockedUntil => now <? lockedUntil
              | None => false
              end
      then (* the message also carries the lock date *)
        throw (BadRequestException "Stake is locked until")
      else if (0 <? poolRow.(Pool.cooldownHours))
              && match stake.(StakePosition.cooldownEndsAt) with
                 | None => true
                 | Some _ => false
                 end
      then
        let cooldownEndsAt :=
          now + poolRow.(Pool.cooldownHours) * 60 * 60 * 1000 in
        updateStake stakeId (setUnstaking now cooldownEndsAt) ;;;
        ret (UNSTAKING_started cooldownEndsAt)
      else
        finalRewards <- calculateAccruedRewards now stake ;;
        let totalAmount := Dec.add stake.(StakePosition.amount) finalRewards in
        updateStake stakeId (setCompleted now finalRewards) ;;;
        updatePool stake.(StakePosition.poolId)
          (decTotalStaked stake.(StakePosition.amount)) ;;;
        BalanceService.unstakeToBalance userId poolRow.(Pool.assetId)
          assetRow.(Asset.chainId) totalAmount stakeId ;;;
        ret (COMPLETED_with totalAmount stake.(StakePosition.amount)
               finalRewards)
    end end end).

End StakesService.

(* ================================================================= *)
(** ** apps/workers reward calculator : calculateRewards,
       processUnstakingPositions *)

Module RewardCalculator.

(** The worker's own [getEffectiveApr(prisma, poolId, date)]. *)
Definition getEffectiveApr (poolId : string) (date : Date) : M Decimal :=
  schedule <- PoolsService.findSchedule poolId date ;;
  match schedule with
  | Some schedule => ret schedule.(AprSchedule.apr)
  | None =>
      poolRow <- PoolsService.findPool poolId ;;
      match poolRow with
      | Some poolRow => ret poolRow.(Pool.currentApr)
      | None => ret 0%Q
      end
  end.


Definition ledgerEntry_create (e : LedgerEntry.t) : M unit :=
  modify (fun db => set_ledgerEntry (db.(ledgerEntry) ++ [e]) db).


(** Transaction body of [processUnstakingPositions] for one position. *)
Definition finalizeUnstaking (now : Date) (stake : StakePosition.t)
    : M unit :=
  poolRow <- PoolsService.findPool stake.(StakePosition.poolId) ;;
  match poolRow with
  | None => throw (Error "foreign key: pool")
  | Some poolRow =>
  assetRow <- FraudService.findAsset poolRow.(Pool.assetId) ;;
  match assetRow with
  | None => throw (Error "foreign key: asset")
  | Some assetRow =>
    executeInTransaction (
      let seconds :=
        timeDiffSeconds now stake.(StakePosition.lastRewardCalculation) in
      effectiveApr <- getEffectiveApr stake.(StakePosition.poolId) now ;;
      let finalRewards :=
        newRewards stake.(StakePosition.amount) effectiveApr seconds in
      let totalRewards :=
        Dec.add stake.(StakePosition.rewardsAccrued) finalRewards in
      let totalAmount := Dec.add stake.(StakePosition.amount) totalRewards in
      StakesService.updateStake stake.(StakePosition.id)
        (StakesService.setCompleted now totalRewards) ;;;
      StakesService.updatePool stake.(StakePosition.poolId)
        (StakesService.decTotalStaked stake.(StakePosition.amount)) ;;;
      BalanceService.update stake.(StakePosition.userId)
        poolRow.(Pool.assetId) assetRow.(Asset.chainId)
        (fun b =>
           BalanceService.decRewardsAccrued stake.(StakePosition.rewardsAccrued)
             (BalanceService.decStaked stake.(StakePosition.amount)
                (BalanceService.incAvailable totalAmount b))) ;;;
      ledgerEntry_create
        (LedgerEntry.mk (Some stake.(StakePosition.userId))
           poolRow.(Pool.assetId) assetRow.(Asset.chainId)
           UNSTAKE_COMPLETED CREDIT totalAmount None
           "StakePosition" stake.(StakePosition.id)
           [("principal", JDecimal stake.(StakePosition.amount));
            ("rewards", JDecimal totalRewards)]) ;;;
      PayoutProcessor.notification_create
        (Notification.mk stake.(StakePosition.userId) "stake_completed"
           "Unstake Complete"
           [("stakePositionId", JString stake.(StakePosition.id));
            ("principal", JDecimal stake.(StakePosition.amount));
            ("rewards", JDecimal totalRewards)]))
  end end.

Definition whereCooldownCompleted (now : Date) (s : StakePosition.t) : bool :=
  StakeStatus_eqb s.(StakePosition.status) StakeUNSTAKING
  && match s.(StakePosition.cooldownEndsAt) with
     | Some cooldownEndsAt => cooldownEndsAt <=? now
     | None => false
     end.

Definition processUnstakingPositions (now : Date) : M unit :=
  completedCooldowns <- gets (fun db =>
    filter (whereCooldownCompleted now) db.(stakePosition)) ;;
  forEach completedCooldowns (fun stake =>
    try_catch_log (finalizeUnstaking now stake)).




End RewardCalculator.

(* ================================================================= *)
(** ** A worked scenario: bob unstakes 100 USDT with 5 accrued

    APR 7.884 % gives a rate of exactly 2.5e-9 per second; over
    4,000,000 seconds a stake of 100 earns exactly 1. *)

Module StakeScenario.

Definition t0 : Date := 1000 * Scenario.day.

Definition bob : User.t :=
  User.mk "bob" "bob@example.com" "hash:pw" USER true true false
    10000%Q 0 None.

Definition position (status : StakeStatus) (cooldownEndsAt : option Date)
    : StakePosition.t :=
  StakePosition.mk "sp-1" "bob" "pool-1" 100%Q 5%Q 0%Q
    (t0 - 4000000000) status None cooldownEndsAt
    (option_map (fun e => e - 24 * 60 * 60 * 1000) cooldownEndsAt) None.

Definition poolRow (cooldownHours : Z) : Pool.t :=
  Pool.mk "pool-1" "usdt" (1971 # 250)%Q 100%Q cooldownHours.

Definition world (cooldownHours : Z) (status : StakeStatus)
    (cooldownEndsAt : option Date) : PrismaClient :=
  mkPrisma
    [LedgerEntry.mk (Some "bob") "usdt" "eth" DEPOSIT_CONFIRMED CREDIT 100%Q
       None "Deposit" "dep-7" [];
     LedgerEntry.mk (Some "bob") "usdt" "eth" STAKE_CREATED DEBIT 100%Q
       (Some 0%Q) "StakePosition" "sp-1" [];
     LedgerEntry.mk (Some "bob") "usdt" "eth" REWARD_ACCRUED CREDIT 5%Q
       None "StakePosition" "sp-1" []]
    [BalanceCache.mk "bob" "usdt" "eth" 0%Q 100%Q 5%Q 0%Q]
    [] [] []
    [position status cooldownEndsAt]
    [poolRow cooldownHours]
    [] [Scenario.usdt] [Scenario.eth] [bob] [] [] [] [] [] [] [].

(** An ACTIVE, unlocked position in a pool without cooldown. *)
Definition active : PrismaClient := world 0 StakeACTIVE None.

(** The same position, UNSTAKING in a 24 h cooldown pool, cooldown over. *)
Definition cooling : PrismaClient :=
  world 24 StakeUNSTAKING (Some (t0 - 1)).

Definition afterUnstake : PrismaClient :=
  snd (StakesService.unstake t0 "bob" "sp-1" active).

Definition afterSweep : PrismaClient :=
  snd (RewardCalculator.processUnstakingPositions t0 cooling).

(** Amounts of the UNSTAKE_COMPLETED entries of sp-1, in lowest terms,
    with their direction. *)
Definition unstakeEntries (db : PrismaClient)
    : list (LedgerDirection * Decimal) :=
  map (fun e => (e.(LedgerEntry.direction), Qred e.(LedgerEntry.amount)))
    (filter (fun e =>
       LedgerEntryType_eqb e.(LedgerEntry.entryType) UNSTAKE_COMPLETED
       && String.eqb e.(LedgerEntry.referenceId) "sp-1") db.(ledgerEntry)).

Definition stakeStatusOf (db : PrismaClient) : option StakeStatus :=
  option_map StakePosition.status
    (find (fun s => String.eqb s.(StakePosition.id) "sp-1")
          db.(stakePosition)).

Definition totalStakedOf (db : PrismaClient) : option Decimal :=
  option_map (fun p => Qred p.(Pool.totalStaked))
    (find (fun p => String.eqb p.(Pool.id) "pool-1") db.(pool)).

(** Buckets of bob's balance row, in lowest terms: available, staked,
    rewardsAccrued. *)
Definition buckets (db : PrismaClient) : option (Decimal * Decimal * Decimal) :=
  option_map (fun b => (Qred b.(BalanceCache.available),
                        Qred b.(BalanceCache.staked),
                        Qred b.(BalanceCache.rewardsAccrued)))
    (balanceOf "bob" "usdt" "eth" db).

(** What [unstake] answers, in lowest terms. *)
Definition answer (r : Result StakesService.UnstakeResult)
    : option (Decimal * Decimal * Decimal) :=
  match r with
  | Ok (StakesService.COMPLETED_with a p w) => Some (Qred a, Qred p, Qred w)
  | _ => None
  end.

End StakeScenario.

(* ================================================================= *)
(** ** The effective APR, as the specification words it *)






(* ================================================================= *)
(** ** Idempotency keys *)


(* ================================================================= *)
(** ** Fraud indicators of the pattern check *)

Definition newAccountIndicator : FraudIndicator.t :=
  FraudIndicator.mk SUSPICIOUS_PATTERN MEDIUM 25.

Definition unverifiedEmailIndicator : FraudIndicator.t :=
  FraudIndicator.mk SUSPICIOUS_PATTERN LOW 15.

Definition sumScores (l : list FraudIndicator.t) : Z :=
  fold_right (fun i acc => i.(FraudIndicator.score) + acc) 0 l.

(** Carol registered one day before [Scenario.t0] and has not verified
    her email. *)
Definition carol : User.t :=
  User.mk "carol" "carol@example.com" "hash:pw" USER true false false
    10000%Q (Scenario.t0 - Scenario.day) None.

Definition dbCarol : PrismaClient :=
  mkPrisma [] [BalanceCache.mk "carol" "usdt" "eth" 2%Q 0%Q 0%Q 0%Q]
    [] [] [] [] [] [] [Scenario.usdt] [Scenario.eth] [carol]
    [] [] [] [] [] [] [].

Definition carolAnalysis : Result FraudService.Analysis :=
  fst (FraudService.analyzeWithdrawalRequest FraudService.defaultConfig
         Scenario.t0 "carol" "0x00000000000000000000000000000000000000AA"
         1%Q "usdt" "eth" dbCarol).

(** A read-only computation that always answers, with a value in [P]. *)
Definition answers {A} (m : M A) (P : A -> Prop) : Prop :=
  forall db, exists a, m db = (Ok a, db) /\ P a.

Definition notPattern (r : option FraudIndicator.t) : Prop :=
  forall i, r = Some i -> i.(FraudIndicator.type) <> SUSPICIOUS_PATTERN.

(* ================================================================= *)
(** ** modules/auth : TwoFactorService, SessionService, AuthService

    The cryptographic libraries and the configuration the services are
    constructed with are a record of functions. *)

Record AuthDeps : Type := mkAuthDeps {
  (** [argon2.verify(hash, password)] *)
  argon2_verify : string -> string -> bool;
  (** [encryptionService.decrypt]; it throws on a malformed ciphertext *)
  decrypt : string -> Result string;
  (** [encryptionService.hash] (SHA-256, hex) *)
  hash : string -> string;
  (** [authenticator.verify({ token, secret })] with digits 6, step 30,
      window 1, at the current time *)
  authenticator_verify : Date -> string -> string -> bool;
  (** [jwtService.sign(payload)]: sub, email, role, sessionId *)
  jwt_sign : string -> string -> Role -> string -> string;
  (** [parseExpiresIn] of the configured access and refresh lifetimes,
      in seconds *)
  accessExpiresIn : Z;
  refreshExpiresIn : Z
}.

Module TwoFactorService.

Definition verifyToken (deps : AuthDeps) (now : Date) (userId token : string)
    : M bool :=
  twoFactorSecret <- gets (fun db =>
    find (fun s => String.eqb s.(TwoFactorSecret.userId) userId)
         db.(twoFactorSecret)) ;;
  match twoFactorSecret with
  | None => ret false
  | Some twoFactorSecret =>
      if negb twoFactorSecret.(TwoFactorSecret.isVerified) then ret false
      else
        match deps.(decrypt) twoFactorSecret.(TwoFactorSecret.encryptedSecret)
        with
        | Throw e => throw e
        | Ok secret => ret (deps.(authenticator_verify) now token secret)
        end
  end.

Definition whereUnusedCode (userId codeHash : string) (c : RecoveryCode.t)
    : bool :=
  String.eqb c.(RecoveryCode.userId) userId
  && String.eqb c.(RecoveryCode.codeHash) codeHash
  && negb c.(RecoveryCode.isUsed).

Definition markUsed (now : Date) (c : RecoveryCode.t) : RecoveryCode.t :=
  RecoveryCode.mk c.(RecoveryCode.id) c.(RecoveryCode.userId)
    c.(RecoveryCode.codeHash) true (Some now).

Definition verifyRecoveryCode (deps : AuthDeps) (now : Date)
    (userId code : string) : M bool :=
  let codeHash := deps.(hash) code in
  found <- gets (fun db =>
    find (whereUnusedCode userId codeHash) db.(recoveryCode)) ;;
  match found with
  | None => ret false
  | Some found =>
      modify (fun db =>
        set_recoveryCode
          (updateWhere
             (fun c => String.eqb c.(RecoveryCode.id) found.(RecoveryCode.id))
             (markUsed now) db.(recoveryCode)) db) ;;;
      ret true
  end.

End TwoFactorService.

Module AuthService.

Record LoginDto : Type := mkLogin {
  email : string;
  password : string;
  totpCode : option string
}.

Record AuthTokens : Type := mkTokens {
  accessToken : string;
  refreshToken : string;
  expiresIn : Z
}.

(** [sessionId] and [refreshToken] are the two [uuidv4()] drawn. *)
Definition createAuthTokens (deps : AuthDeps) (now : Date)
    (sessionId refreshToken : string)
    (userId email : string) (role : Role) (ip userAgent : string)
    : M AuthTokens :=
  modify (fun db =>
    set_session
      (db.(session)
       ++ [Session.mk sessionId userId (deps.(hash) refreshToken) ip userAgent
             (now + deps.(refreshExpiresIn) * 1000) false]) db) ;;;
  ret (mkTokens (deps.(jwt_sign) userId email role sessionId) refreshToken
         deps.(accessExpiresIn)).

Definition setLastLoginAt (now : Date) (u : User.t) : User.t :=
  User.mk u.(User.id) u.(User.email) u.(User.passwordHash) u.(User.role)
    u.(User.isActive) u.(User.emailVerified) u.(User.twoFactorEnabled)
    u.(User.dailyWithdrawalLimit) u.(User.createdAt) (Some now).

(** [!dto.totpCode]: absent, or the empty string. *)
Definition missing (code : option string) : bool :=
  match code with
  | None => true
  | Some c => String.eqb c ""
  end.

Definition codeOf (code : option string) : string :=
  match code with
  | Some c => c
  | None => ""
  end.

Definition login (deps : AuthDeps) (now : Date)
    (sessionId refreshToken : string)
    (dto : LoginDto) (ip userAgent : string) : M AuthTokens :=
  found <- gets (fun db =>
    find (fun u => String.eqb u.(User.email) (toLowerCase dto.(email)))
         db.(user)) ;;
  match found with
  | None => throw (UnauthorizedException "Invalid credentials")
  | Some u =>
      secretRow <- gets (fun db =>
        find (fun s => String.eqb s.(TwoFactorSecret.userId) u.(User.id))
             db.(twoFactorSecret)) ;;
      if negb u.(User.isActive) then
        throw (ForbiddenException "Account is disabled")
      else if negb (deps.(argon2_verify) u.(User.passwordHash) dto.(password))
      then throw (UnauthorizedException "Invalid credentials")
      else
        (if u.(User.twoFactorEnabled)
            && match secretRow with
               | Some s => s.(TwoFactorSecret.isVerified)
               | None => false
               end
         then
           if missing dto.(totpCode) then
             throw (BadRequestException "2FA code required")
           else
             is2faValid <-
               TwoFactorService.verifyToken deps now u.(User.id)
                 (codeOf dto.(totpCode)) ;;
             if negb is2faValid then
               throw (UnauthorizedException "Invalid 2FA code")
             else ret tt
         else ret tt) ;;;
        if match u.(User.role) with
           | ADMIN | SUPER_ADMIN => negb u.(User.twoFactorEnabled)
           | _ => false
           end
        then
          throw (ForbiddenException "Admin accounts require 2FA to be enabled")
        else
          modify (fun db =>
            set_user
              (updateWhere (fun x => String.eqb x.(User.id) u.(User.id))
                 (setLastLoginAt now) db.(user)) db) ;;;
          createAuthTokens deps now sessionId refreshToken u.(User.id)
            u.(User.email) u.(User.role) ip userAgent
  end.

End AuthService.

(* ================================================================= *)
(** ** A worked scenario: dave logs in with two-factor enabled *)

Module AuthScenario.

(** Stand-ins for the libraries: a password matches the hash "hash:"
    plus itself, secrets are stored in clear, and the only valid code
    at any time is 123456. *)
Definition deps : AuthDeps :=
  mkAuthDeps
    (fun h p => String.eqb h ("hash:" ++ p)%string)
    (fun c => Ok c)
    (fun v => ("sha256:" ++ v)%string)
    (fun _ token _ => String.eqb token "123456")
    (fun sub _ _ sessionId => ("jwt:" ++ sub ++ ":" ++ sessionId)%string)
    900 604800.

Definition dave : User.t :=
  User.mk "dave" "dave@example.com" "hash:pw" USER true true true
    10000%Q 0 None.

Definition db : PrismaClient :=
  mkPrisma [] [] [] [] [] [] [] [] [] [] [dave]
    [TwoFactorSecret.mk "dave" "SECRET" true]
    [RecoveryCode.mk "rc-1" "dave" "sha256:ABCD-EFGH" false None]
    [] [] [] [] [].

Definition now : Date := 1000 * Scenario.day.

Definition attempt (code : option string)
    : Result AuthService.AuthTokens * PrismaClient :=
  AuthService.login deps now "sess-1" "refresh-1"
    (AuthService.mkLogin "Dave@Example.com" "pw" code) "10.0.0.1" "curl" db.

End AuthScenario.

(* ================================================================= *)
(** ** apps/workers deposit monitor : scanChainDeposits *)

Module DepositMonitor.

(** An ERC-20 [Transfer] log as [queryFilter] returns it. *)
Record TransferEvent : Type := mkEvent {
  args : option (string * string * Z);    (* from, to, value *)
  transactionHash : string;
  index : Z;
  blockNumber : Z
}.

Record Receipt : Type := mkReceipt {
  receiptBlockNumber : Z
}.

(** The JSON-RPC provider of one chain.  Each call may throw.
    [depositId] stands for the id the database gives a new row. *)
Record Provider : Type := mkProvider {
  getBlockNumber : Result Z;
  queryFilter : string -> Z -> Z -> Result (list TransferEvent);
  getTransactionReceipt : string -> Result (option Receipt);
  depositId : string -> Z -> string
}.

Definition configKey (chainId : string) : string :=
  ("lastScannedBlock_" ++ chainId)%string.

Definition findConfig (key : string) : M (option SystemConfig.t) :=
  gets (fun db =>
    find (fun c => String.eqb c.(SystemConfig.key) key) db.(systemConfig)).

(** [(value as any).blockNumber || currentBlock - 1000], or the
    default when there is no row: a missing or zero block number is
    falsy. *)
Definition lastScannedOf (config : option SystemConfig.t)
    (currentBlock : Z) : Z :=
  match config with
  | Some c =>
      match c.(SystemConfig.blockNumber) with
      | Some b => if b =? 0 then currentBlock - 1000 else b
      | None => currentBlock - 1000
      end
  | None => currentBlock - 1000
  end.

Definition fromBlockOf (lastScannedBlock currentBlock : Z) : Z :=
  Z.max (lastScannedBlock + 1) (currentBlock - 10000).

Definition chunkSize : Z := 2000.

(** The ranges [(block, toBlock)] of
    [for (block = fromBlock; block <= currentBlock; block += chunkSize)]. *)
Definition chunks (fromBlock currentBlock : Z) : list (Z * Z) :=
  if currentBlock <? fromBlock then []
  else
    map (fun i =>
           let block := fromBlock + chunkSize * Z.of_nat i in
           (block, Z.min (block + chunkSize - 1) currentBlock))
        (seq 0 (Z.to_nat ((currentBlock - fromBlock) / chunkSize + 1))).

(** [new Map(depositAddresses.map(da => [lower(da.address), da]))]: a
    later row replaces an earlier one under the same key. *)
Definition addressMap_get (rows : list DepositAddress.t) (address : string)
    : option DepositAddress.t :=
  find (fun da => String.eqb (toLowerCase da.(DepositAddress.address)) address)
       (rev rows).

Definition whereDepositKey (txHash : string) (logIndex : Z) (chainId : string)
    (d : Deposit.t) : bool :=
  String.eqb d.(Deposit.txHash) txHash
  && (d.(Deposit.logIndex) =? logIndex)
  && String.eqb d.(Deposit.chainId) chainId.

(** [new Decimal(formatUnits(value, decimals))]. *)
Definition formatUnits (value decimals : Z) : Decimal :=
  (inject_Z value / inject_Z (10 ^ decimals))%Q.

Definition recordEvent (provider : Provider) (chainRow : Chain.t)
    (assetRow : Asset.t) (addresses : list DepositAddress.t)
    (currentBlock : Z) (event : TransferEvent) : M unit :=
  match event.(args) with
  | None => ret tt
  | Some (from, to, value) =>
      let toAddress := toLowerCase to in
      match addressMap_get addresses toAddress with
      | None => ret tt
      | Some depositAddress =>
          existing <- gets (fun db =>
            find (whereDepositKey event.(transactionHash) event.(index)
                    chainRow.(Chain.id)) db.(deposit)) ;;
          match existing with
          | Some _ => ret tt
          | None =>
              modify (fun db =>
                set_deposit
                  (db.(deposit)
                   ++ [Deposit.mk
                         (provider.(depositId) event.(transactionHash)
                            event.(index))
                         depositAddress.(DepositAddress.userId)
                         assetRow.(Asset.id) chainRow.(Chain.id)
                         depositAddress.(DepositAddress.id)
                         event.(transactionHash) event.(index) from
                         (formatUnits value assetRow.(Asset.decimals))
                         DepositCONFIRMING
                         (currentBlock - event.(blockNumber)) None]) db)
          end
      end
  end.

(** One [queryFilter] call and the loop over its events. *)
Definition scanChunk (provider : Provider) (chainRow : Chain.t)
    (assetRow : Asset.t) (contractAddress : string)
    (addresses : list DepositAddress.t) (currentBlock : Z)
    (range : Z * Z) : M unit :=
  match provider.(queryFilter) contractAddress (fst range) (snd range) with
  | Throw e => throw e
  | Ok events =>
      forEach events
        (recordEvent provider chainRow assetRow addresses currentBlock)
  end.

(** Body of [for (const asset of assets)]: the whole chunk loop sits in
    one [try], whose [catch] only logs. *)
Definition scanAsset (provider : Provider) (chainRow : Chain.t)
    (addresses : list DepositAddress.t) (fromBlock currentBlock : Z)
    (assetRow : Asset.t) : M unit :=
  match assetRow.(Asset.contractAddress) with
  | None => ret tt
  | Some contractAddress =>
      if assetRow.(Asset.isNative) || String.eqb contractAddress "" then ret tt
      else
        try_catch_log
          (forEach (chunks fromBlock currentBlock)
             (scanChunk provider chainRow assetRow contractAddress addresses
                currentBlock))
  end.

Definition setBlockNumber (b : Z) (c : SystemConfig.t) : SystemConfig.t :=
  SystemConfig.mk c.(SystemConfig.key) (Some b).

Definition upsertLastScanned (chainId : string) (currentBlock : Z) : M unit :=
  row <- findConfig (configKey chainId) ;;
  match row with
  | None =>
      modify (fun db =>
        set_systemConfig
          (db.(systemConfig)
           ++ [SystemConfig.mk (configKey chainId) (Some currentBlock)]) db)
  | Some _ =>
      modify (fun db =>
        set_systemConfig
          (updateWhere
             (fun c => String.eqb c.(SystemConfig.key) (configKey chainId))
             (setBlockNumber currentBlock) db.(systemConfig)) db)
  end.

Definition updateDeposit (id : string) (data : Deposit.t -> Deposit.t)
    : M unit :=
  row <- gets (fun db =>
    find (fun d => String.eqb d.(Deposit.id) id) db.(deposit)) ;;
  match row with
  | None => throw recordNotFound
  | Some _ =>
      modify (fun db =>
        set_deposit
          (updateWhere (fun d => String.eqb d.(Deposit.id) id) data
             db.(deposit)) db)
  end.

Definition setConfirmations (confirmations : Z) (d : Deposit.t) : Deposit.t :=
  Deposit.mk d.(Deposit.id) d.(Deposit.userId) d.(Deposit.assetId)
    d.(Deposit.chainId) d.(Deposit.depositAddressId) d.(Deposit.txHash)
    d.(Deposit.logIndex) d.(Deposit.fromAddress) d.(Deposit.amount)
    d.(Deposit.status) confirmations d.(Deposit.confirmedAt).

Definition setDepositConfirmed (now : Date) (confirmations : Z)
    (d : Deposit.t) : Deposit.t :=
  Deposit.mk d.(Deposit.id) d.(Deposit.userId) d.(Deposit.assetId)
    d.(Deposit.chainId) d.(Deposit.depositAddressId) d.(Deposit.txHash)
    d.(Deposit.logIndex) d.(Deposit.fromAddress) d.(Deposit.amount)
    DepositCONFIRMED confirmations (Some now).

(** Body of [for (const deposit of pendingDeposits)], inside its [try]. *)
Definition recheckDeposit (provider : Provider) (now : Date)
    (chainRow : Chain.t) (currentBlock : Z) (d : Deposit.t) : M unit :=
  match provider.(getTransactionReceipt) d.(Deposit.txHash) with
  | Throw e => throw e
  | Ok None => ret tt
  | Ok (Some receipt) =>
      let confirmations :=
        currentBlock - receipt.(receiptBlockNumber) + 1 in
      if chainRow.(Chain.confirmationsRequired) <=? confirmations then
        executeInTransaction (
          updateDeposit d.(Deposit.id)
            (setDepositConfirmed now confirmations) ;;;
          RewardCalculator.ledgerEntry_create
            (LedgerEntry.mk (Some d.(Deposit.userId)) d.(Deposit.assetId)
               d.(Deposit.chainId) DEPOSIT_CONFIRMED CREDIT d.(Deposit.amount)
               None "Deposit" d.(Deposit.id)
               [("txHash", JString d.(Deposit.txHash));
                ("fromAddress", JString d.(Deposit.fromAddress));
                ("confirmations", JNumber (inject_Z confirmations))]) ;;;
          BalanceService.upsert d.(Deposit.userId) d.(Deposit.assetId)
            d.(Deposit.chainId)
            (BalanceCache.mk d.(Deposit.userId) d.(Deposit.assetId)
               d.(Deposit.chainId) d.(Deposit.amount) 0%Q 0%Q 0%Q)
            (BalanceService.incAvailable d.(Deposit.amount)))
      else updateDeposit d.(Deposit.id) (setConfirmations confirmations)
  end.

(** What the pass logged: no new blocks (early return), or the blocks
    it scanned. *)
Inductive ScanOutcome : Type :=
| NoNewBlocks
| Scanned (fromBlock currentBlock : Z).

Definition scanChainDeposits (provider : Provider) (now : Date)
    (chainRow : Chain.t) : M ScanOutcome :=
  match provider.(getBlockNumber) with
  | Throw e => throw e
  | Ok currentBlock =>
      lastScannedConfig <- findConfig (configKey chainRow.(Chain.id)) ;;
      let lastScannedBlock := lastScannedOf lastScannedConfig currentBlock in
      let fromBlock := fromBlockOf lastScannedBlock currentBlock in
      if currentBlock <? fromBlock then ret NoNewBlocks
      else
        depositAddresses <- gets (fun db =>
          filter (fun da =>
                    String.eqb da.(DepositAddress.chainId) chainRow.(Chain.id)
                    && da.(DepositAddress.isActive)) db.(depositAddress)) ;;
        assets <- gets (fun db =>
          filter (fun a => String.eqb a.(Asset.chainId) chainRow.(Chain.id)
                           && a.(Asset.isActive)) db.(asset)) ;;
        forEach assets
          (scanAsset provider chainRow depositAddresses fromBlock
             currentBlock) ;;;
        upsertLastScanned chainRow.(Chain.id) currentBlock ;;;
        pendingDeposits <- gets (fun db =>
          filter (fun d => String.eqb d.(Deposit.chainId) chainRow.(Chain.id)
                           && DepositStatus_eqb d.(Deposit.status)
                                DepositCONFIRMING) db.(deposit)) ;;
        forEach pendingDeposits (fun d =>
          try_catch_log (recheckDeposit provider now chainRow currentBlock d))
        ;;;
        ret (Scanned fromBlock currentBlock)
  end.

(** The block number stored for a chain. *)
Definition lastScannedBlock (chainId : string) (db : PrismaClient)
    : option Z :=
  match find (fun c => String.eqb c.(SystemConfig.key) (configKey chainId))
             db.(systemConfig) with
  | Some c => c.(SystemConfig.blockNumber)
  | None => None
  end.

End DepositMonitor.

(* ================================================================= *)
(** ** A worked scenario: a transfer in a range whose query failed

    Erin's deposit address receives 5 USDT at block 9,500.  The first
    pass (head 10,000) cannot load the USDT logs; the second (head
    10,030) can. *)

Module ScanScenario.

Definition erinAddress : DepositAddress.t :=
  DepositAddress.mk "da-1" "erin" "eth"
    "0x00000000000000000000000000000000000000ee" true.

Definition transfer : DepositMonitor.TransferEvent :=
  DepositMonitor.mkEvent
    (Some ("0x00000000000000000000000000000000000000ff",
           "0x00000000000000000000000000000000000000EE", 5000000))
    "0xfeed" 3 9500.

Definition db : PrismaClient :=
  mkPrisma [] [] [] [] [] [] [] [] [Scenario.usdt] [Scenario.eth] [] [] [] []
    [] [erinAddress] []
    [SystemConfig.mk (DepositMonitor.configKey "eth") (Some 9000)].

(** The chain's logs: [queryFilter] answers the events of the range. *)
Definition logsIn (fromBlock toBlock : Z) : list DepositMonitor.TransferEvent :=
  filter (fun e => (fromBlock <=? e.(DepositMonitor.blockNumber))
                   && (e.(DepositMonitor.blockNumber) <=? toBlock))
         [transfer].

Definition depositIdOf (txHash : string) (logIndex : Z) : string :=
  ("dep:" ++ txHash)%string.

Definition failing (head : Z) : DepositMonitor.Provider :=
  DepositMonitor.mkProvider (Ok head)
    (fun _ _ _ => Throw (Error "query returned more than 10000 results"))
    (fun _ => Ok None) depositIdOf.

Definition healthy (head : Z) : DepositMonitor.Provider :=
  DepositMonitor.mkProvider (Ok head)
    (fun _ fromBlock toBlock => Ok (logsIn fromBlock toBlock))
    (fun _ => Ok None) depositIdOf.

Definition firstPass : Result DepositMonitor.ScanOutcome * PrismaClient :=
  DepositMonitor.scanChainDeposits (failing 10000) Scenario.t0 Scenario.eth db.

Definition secondPass : Result DepositMonitor.ScanOutcome * PrismaClient :=
  DepositMonitor.scanChainDeposits (healthy 10030) (Scenario.t0 + 30000)
    Scenario.eth (snd firstPass).

(** For comparison: the first pass with a provider that answers. *)
Definition firstPassHealthy
    : Result DepositMonitor.ScanOutcome * PrismaClient :=
  DepositMonitor.scanChainDeposits (healthy 10000) Scenario.t0 Scenario.eth db.

End ScanScenario.

(* ================================================================= *)
(** ** WithdrawalsService.updatePayoutStatus (called by worker) *)

Module PayoutStatusUpdate.

Record Params : Type := mkParams {
  status : PayoutStatus;     (* SENT, CONFIRMING, CONFIRMED or FAILED *)
  txHash : option string;
  confirmations : option Z;
  errorMessage : option string
}.

(** The [update] branch of the upsert; an [undefined] member leaves
    the column as it is. *)
Definition applyParams (now : Date) (params : Params) (p : PayoutTx.t)
    : PayoutTx.t :=
  PayoutTx.mk p.(PayoutTx.id) p.(PayoutTx.withdrawalRequestId)
    (WithdrawalsService.orKeep params.(txHash) p.(PayoutTx.txHash))
    p.(PayoutTx.nonce) p.(PayoutTx.gasUsed) params.(status)
    (match params.(confirmations) with
     | Some c => c
     | None => p.(PayoutTx.confirmations)
     end)
    (WithdrawalsService.orKeep params.(errorMessage)
       p.(PayoutTx.errorMessage))
    (match params.(status) with
     | PayoutSENT => Some now
     | _ => p.(PayoutTx.sentAt)
     end)
    (match params.(status) with
     | PayoutCONFIRMED => Some now
     | _ => p.(PayoutTx.confirmedAt)
     end)
    p.(PayoutTx.attempts).

Definition updatePayoutStatus (now : Date) (newPayoutTxId : string)
    (requestId : string) (params : Params) : M WithdrawalRequest.t :=
  executeInTransaction (
    row <- WithdrawalsService.findById requestId ;;
    match row with
    | None => throw (NotFoundException "Withdrawal request not found")
    | Some row =>
        existing <- PayoutProcessor.findPayoutByRequest requestId ;;
        match existing with
        | None =>
            modify (fun db =>
              set_payoutTx
                (db.(payoutTx)
                 ++ [PayoutTx.mk newPayoutTxId requestId params.(txHash) None
                       None params.(status)
                       (match params.(confirmations) with
                        | Some c => if c =? 0 then 0 else c
                        | None => 0
                        end)
                       params.(errorMessage)
                       (match params.(status) with
                        | PayoutSENT => Some now
                        | _ => None
                        end)
                       (match params.(status) with
                        | PayoutCONFIRMED => Some now
                        | _ => None
                        end)
                       0]) db)
        | Some p =>
            PayoutProcessor.updatePayout p.(PayoutTx.id)
              (applyParams now params)
        end ;;;
        withdrawalStatus <-
          match params.(status) with
          | PayoutSENT => ret SENT
          | PayoutCONFIRMING => ret CONFIRMING
          | PayoutCONFIRMED =>
              BalanceService.finalizeWithdrawal row.(WithdrawalRequest.userId)
                row.(WithdrawalRequest.assetId) row.(WithdrawalRequest.chainId)
                row.(WithdrawalRequest.amount) requestId params.(txHash) ;;;
              ret COMPLETED
          | PayoutFAILED => ret FAILED
          | PayoutPENDING => ret row.(WithdrawalRequest.status)
          end ;;
        WithdrawalsService.update requestId
          (WithdrawalsService.setStatus withdrawalStatus)
    end).

End PayoutStatusUpdate.

(* ================================================================= *)
(** * Further operations of the services *)

(* ================================================================= *)
(** ** balance.service.ts : the remaining BalanceService methods *)

Module BalanceOps.

(** What [getBalance] answers for an account without a row. *)
Definition zeroBalance (userId assetId chainId : string) : BalanceCache.t :=
  BalanceCache.mk userId assetId chainId 0%Q 0%Q 0%Q 0%Q.

(** Get user's balance for a specific asset. *)
Definition getBalance (userId assetId chainId : string) : M BalanceCache.t :=
  balance <- BalanceService.findUnique userId assetId chainId ;;
  match balance with
  | Some balance => ret balance
  | None => ret (zeroBalance userId assetId chainId)
  end.

(** Credit user balance (e.g., deposit confirmed). *)
Definition creditBalance (userId assetId chainId : string) (amount : Decimal)
    (entryType : LedgerEntryType) (referenceType referenceId : string)
    (metadata : option Json) : M unit :=
  LedgerService.createEntry
    (LedgerService.mkParams (Some userId) assetId chainId entryType CREDIT
       amount referenceType referenceId metadata) ;;;
  BalanceService.upsert userId assetId chainId
    (BalanceCache.mk userId assetId chainId amount 0%Q 0%Q 0%Q)
    (BalanceService.incAvailable amount).


(** Claim rewards to available balance. *)
Definition claimRewards (userId assetId chainId : string)
    (amount : Decimal) (stakePositionId : string) : M unit :=
  LedgerService.createEntry
    (LedgerService.mkParams (Some userId) assetId chainId
       REWARD_CLAIMED CREDIT amount "StakePosition" stakePositionId None) ;;;
  BalanceService.update userId assetId chainId
    (fun b => BalanceService.decRewardsAccrued amount
                (BalanceService.incAvailable amount b)).


End BalanceOps.

(* ================================================================= *)
(** ** scripts/reconcile-balances.ts : calculateBalanceFromLedger *)

Module ReconcileScript.

Record Buckets : Type := mkBuckets {
  available : Decimal;
  staked : Decimal;
  rewardsAccrued : Decimal;
  withdrawalsPending : Decimal
}.

Definition zero : Buckets := mkBuckets 0%Q 0%Q 0%Q 0%Q.

(** One turn of the [for (const entry of ledgerEntries)] loop: the
    [switch (entry.entryType)].  STAKE_CANCELLED has no case. *)
Definition applyEntry (b : Buckets) (entry : LedgerEntry.t) : Buckets :=
  let amount := entry.(LedgerEntry.amount) in
  let isCredit := LedgerDirection_eqb entry.(LedgerEntry.direction) CREDIT in
  match entry.(LedgerEntry.entryType) with
  | DEPOSIT_CONFIRMED =>
      if isCredit
      then mkBuckets (Dec.add b.(available) amount) b.(staked)
             b.(rewardsAccrued) b.(withdrawalsPending)
      else b
  | STAKE_CREATED =>
      if negb isCredit
      then mkBuckets (Dec.sub b.(available) amount)
             (Dec.add b.(staked) amount) b.(rewardsAccrued)
             b.(withdrawalsPending)
      else b
  | UNSTAKE_COMPLETED =>
      if isCredit
      then mkBuckets (Dec.add b.(available) amount)
             (Dec.sub b.(staked) amount) b.(rewardsAccrued)
             b.(withdrawalsPending)
      else b
  | REWARD_ACCRUED =>
      if isCredit
      then mkBuckets b.(available) b.(staked)
             (Dec.add b.(rewardsAccrued) amount) b.(withdrawalsPending)
      else b
  | REWARD_CLAIMED =>
      if isCredit
      then mkBuckets (Dec.add b.(available) amount) b.(staked)
             (Dec.sub b.(rewardsAccrued) amount) b.(withdrawalsPending)
      else b
  | WITHDRAWAL_REQUESTED =>
      if negb isCredit
      then mkBuckets (Dec.sub b.(available) amount) b.(staked)
             b.(rewardsAccrued) (Dec.add b.(withdrawalsPending) amount)
      else b
  | WITHDRAWAL_REJECTED =>
      if isCredit
      then mkBuckets (Dec.add b.(available) amount) b.(staked)
             b.(rewardsAccrued) (Dec.sub b.(withdrawalsPending) amount)
      else b
  | WITHDRAWAL_PAID =>
      if negb isCredit
      then mkBuckets b.(available) b.(staked) b.(rewardsAccrued)
             (Dec.sub b.(withdrawalsPending) amount)
      else b
  | ADJUSTMENT =>
      if isCredit
      then mkBuckets (Dec.add b.(available) amount) b.(staked)
             b.(rewardsAccrued) b.(withdrawalsPending)
      else mkBuckets (Dec.sub b.(available) amount) b.(staked)
             b.(rewardsAccrued) b.(withdrawalsPending)
  | STAKE_CANCELLED => b
  end.

(** The entries of the account, oldest first, folded from zero. *)
Definition calculateBalanceFromLedger (userId assetId chainId : string)
    : M Buckets :=
  ledgerEntries <- gets (fun db =>
    filter (LedgerService.whereAccount userId assetId chainId)
           db.(ledgerEntry)) ;;
  ret (fold_left applyEntry ledgerEntries zero).

End ReconcileScript.

(* ================================================================= *)
(** ** Cache and ledger replay *)

(** The four buckets of a cache row. *)
Definition bucketsOf (b : BalanceCache.t) : ReconcileScript.Buckets :=
  ReconcileScript.mkBuckets b.(BalanceCache.available) b.(BalanceCache.staked)
    b.(BalanceCache.rewardsAccrued) b.(BalanceCache.withdrawalsPending).







(* ================================================================= *)
(** ** ledger.service.ts : reconcileBalance, checkReconciliation *)

Fixpoint foldM {A B} (body : B -> A -> M B) (l : list A) (acc : B) : M B :=
  match l with
  | [] => ret acc
  | x :: rest => acc' <- body acc x ;; foldM body rest acc'
  end.

Module LedgerReconcile.

(** [where: { userId, pool: { assetId }, status: 'ACTIVE' }]. *)
Definition whereActiveStake (db : PrismaClient) (userId assetId : string)
    (s : StakePosition.t) : bool :=
  String.eqb s.(StakePosition.userId) userId
  && match find (fun p => String.eqb p.(Pool.id) s.(StakePosition.poolId))
                db.(pool) with
     | Some p => String.eqb p.(Pool.assetId) assetId
     | None => false
     end
  && StakeStatus_eqb s.(StakePosition.status) StakeACTIVE.

(** [where: { userId, assetId, status: { in: ['PENDING_REVIEW',
    'APPROVED', 'PROCESSING', 'SENT', 'CONFIRMING'] } }]. *)
Definition wherePendingWithdrawal (userId assetId : string)
    (w : WithdrawalRequest.t) : bool :=
  String.eqb w.(WithdrawalRequest.userId) userId
  && String.eqb w.(WithdrawalRequest.assetId) assetId
  && match w.(WithdrawalRequest.status) with
     | PENDING_REVIEW | APPROVED | PROCESSING | SENT | CONFIRMING => true
     | _ => false
     end.

(** The three aggregates, each with its [|| new Decimal(0)]. *)
Definition stakedAmountOf (db : PrismaClient) (userId assetId : string)
    : Decimal :=
  sumOf StakePosition.amount
    (filter (whereActiveStake db userId assetId) db.(stakePosition)).

Definition pendingWithdrawalsOf (db : PrismaClient) (userId assetId : string)
    : Decimal :=
  sumOf WithdrawalRequest.amount
    (filter (wherePendingWithdrawal userId assetId) db.(withdrawalRequest)).

Definition rewardsAccruedOf (db : PrismaClient) (userId assetId : string)
    : Decimal :=
  sumOf StakePosition.rewardsAccrued
    (filter (whereActiveStake db userId assetId) db.(stakePosition)).

(** [tx.balanceCache.upsert], answering the stored row. *)
Definition balanceCache_upsert (userId assetId chainId : string)
    (create : BalanceCache.t) (data : BalanceCache.t -> BalanceCache.t)
    : M BalanceCache.t :=
  row <- BalanceService.findUnique userId assetId chainId ;;
  match row with
  | None =>
      modify (fun db => set_balanceCache (db.(balanceCache) ++ [create]) db)
      ;;; ret create
  | Some row =>
      modify (fun db =>
        set_balanceCache
          (updateWhere (BalanceService.whereKey userId assetId chainId) data
             db.(balanceCache)) db) ;;;
      ret (data row)
  end.

Definition setBuckets (available staked rewardsAccrued withdrawalsPending
    : Decimal) (b : BalanceCache.t) : BalanceCache.t :=
  BalanceCache.mk b.(BalanceCache.userId) b.(BalanceCache.assetId)
    b.(BalanceCache.chainId) available staked rewardsAccrued
    withdrawalsPending.

(** Reconcile balance cache with ledger entries. *)
Definition reconcileBalance (userId assetId chainId : string)
    : M BalanceCache.t :=
  executeInTransaction (
    balance <- LedgerService.calculateBalance userId assetId chainId ;;
    stakedAmount <- gets (fun db => stakedAmountOf db userId assetId) ;;
    pendingWithdrawals <-
      gets (fun db => pendingWithdrawalsOf db userId assetId) ;;
    rewardsAccrued <- gets (fun db => rewardsAccruedOf db userId assetId) ;;
    let available :=
      Dec.sub (Dec.sub balance stakedAmount) pendingWithdrawals in
    balanceCache_upsert userId assetId chainId
      (BalanceCache.mk userId assetId chainId available stakedAmount
         rewardsAccrued pendingWithdrawals)
      (setBuckets available stakedAmount rewardsAccrued pendingWithdrawals)).

(** One reported discrepancy; the three amounts are kept as decimals
    (the source prints them with [toString]). *)
Record Discrepancy : Type := mkDiscrepancy {
  assetId : string;
  chainId : string;
  cachedAvailable : Decimal;
  calculatedAvailable : Decimal;
  difference : Decimal
}.

(** One turn of the loop over the user's cache rows. *)
Definition checkBalance (userId : string) (discrepancies : list Discrepancy)
    (balance : BalanceCache.t) : M (list Discrepancy) :=
  calculated <-
    executeInTransaction
      (LedgerService.calculateBalance userId balance.(BalanceCache.assetId)
         balance.(BalanceCache.chainId)) ;;
  stakedAmount <-
    gets (fun db => stakedAmountOf db userId balance.(BalanceCache.assetId)) ;;
  pendingWithdrawals <-
    gets (fun db =>
      pendingWithdrawalsOf db userId balance.(BalanceCache.assetId)) ;;
  let calculatedAvailable :=
    Dec.sub (Dec.sub calculated stakedAmount) pendingWithdrawals in
  if negb (Dec.equals balance.(BalanceCache.available) calculatedAvailable)
  then
    ret (discrepancies ++
         [mkDiscrepancy balance.(BalanceCache.assetId)
            balance.(BalanceCache.chainId) balance.(BalanceCache.available)
            calculatedAvailable
            (Dec.sub balance.(BalanceCache.available) calculatedAvailable)])
  else ret discrepancies.

(** Full reconciliation check - returns discrepancies. *)
Definition checkReconciliation (userId : string) : M (list Discrepancy) :=
  balances <- gets (fun db =>
    filter (fun b => String.eqb b.(BalanceCache.userId) userId)
           db.(balanceCache)) ;;
  foldM (checkBalance userId) balances [].

End LedgerReconcile.

(** What [checkReconciliation] and [reconcileBalance] take the available
    balance of an account to be: the ledger balance less the active
    stakes and less the withdrawals in flight. *)
Definition calculatedAvailableOf (db : PrismaClient)
    (userId assetId chainId : string) : Decimal :=
  Dec.sub
    (Dec.sub (ledgerBalance db.(ledgerEntry) userId assetId chainId)
       (LedgerReconcile.stakedAmountOf db userId assetId))
    (LedgerReconcile.pendingWithdrawalsOf db userId assetId).

(** A reported discrepancy comes from a cache row of the user whose
    available bucket is not the calculated one. *)
Definition reportedFor (db : PrismaClient) (u : string)
    (d : LedgerReconcile.Discrepancy) (b : BalanceCache.t) : Prop :=
  Dec.equals b.(BalanceCache.available)
    (calculatedAvailableOf db u b.(BalanceCache.assetId)
       b.(BalanceCache.chainId)) = false
  /\ d = LedgerReconcile.mkDiscrepancy b.(BalanceCache.assetId)
           b.(BalanceCache.chainId) b.(BalanceCache.available)
           (calculatedAvailableOf db u b.(BalanceCache.assetId)
              b.(BalanceCache.chainId))
           (Dec.sub b.(BalanceCache.available)
              (calculatedAvailableOf db u b.(BalanceCache.assetId)
                 b.(BalanceCache.chainId))).

(* ================================================================= *)
(** ** stakes.service.ts : StakesService.claimRewards *)

Module StakesClaim.

Record ClaimResult : Type := mkClaim {
  claimedAmount : Decimal;
  totalClaimed : Decimal
}.

(** [{ rewardsAccrued: new Decimal(0), rewardsClaimed: { increment },
    lastRewardCalculation: new Date() }]. *)
Definition setClaimed (now : Date) (accruedRewards : Decimal)
    (s : StakePosition.t) : StakePosition.t :=
  StakePosition.mk s.(StakePosition.id) s.(StakePosition.userId)
    s.(StakePosition.poolId) s.(StakePosition.amount)
    0%Q (Dec.add s.(StakePosition.rewardsClaimed) accruedRewards)
    now s.(StakePosition.status)
    s.(StakePosition.lockedUntil) s.(StakePosition.cooldownEndsAt)
    s.(StakePosition.unstakeRequestedAt) s.(StakePosition.unstakedAt).

(** The joined [pool] and its [asset] exist by foreign key. *)
Definition claimRewards (now : Date) (userId stakeId : string)
    : M ClaimResult :=
  executeInTransaction (
    stake <- StakesService.findStake stakeId ;;
    match stake with
    | None => throw (NotFoundException "Stake position not found")
    | Some stake =>
    poolRow <- PoolsService.findPool stake.(StakePosition.poolId) ;;
    match poolRow with
    | None => throw (Error "foreign key: pool")
    | Some poolRow =>
    assetRow <- FraudService.findAsset poolRow.(Pool.assetId) ;;
    match assetRow with
    | None => throw (Error "foreign key: asset")
    | Some assetRow =>
      if negb (String.eqb stake.(StakePosition.userId) userId) then
        throw (ForbiddenException "Access denied")
      else if negb (StakeStatus_eqb stake.(StakePosition.status) StakeACTIVE)
      then throw (BadRequestException "Can only claim from active stakes")
      else
        accruedRewards <- StakesService.calculateAccruedRewards now stake ;;
        if Dec.lessThanOrEqualTo accruedRewards 0 then
          throw (BadRequestException "No rewards to claim")
        else
          StakesService.updateStake stakeId
            (setClaimed now accruedRewards) ;;;
          BalanceOps.claimRewards userId poolRow.(Pool.assetId)
            assetRow.(Asset.chainId) accruedRewards stakeId ;;;
          ret (mkClaim accruedRewards
                 (Dec.add stake.(StakePosition.rewardsClaimed)
                    accruedRewards))
    end end end).

End StakesClaim.

(** The stored stake position of an id. *)
Definition stakeOf (stakeId : string) (db : PrismaClient)
    : option StakePosition.t :=
  find (fun s => String.eqb s.(StakePosition.id) stakeId) db.(stakePosition).

(* ================================================================= *)
(** ** modules/auth/session.service.ts : SessionService *)

Module SessionService.

Definition setRevoked (s : Session.t) : Session.t :=
  Session.mk s.(Session.id) s.(Session.userId) s.(Session.refreshToken)
    s.(Session.ipAddress) s.(Session.userAgent) s.(Session.expiresAt) true.

Definition findById (sessionId : string) : M (option Session.t) :=
  gets (fun db =>
    find (fun s => String.eqb s.(Session.id) sessionId) db.(session)).

(** The session a refresh token belongs to, unless it is revoked or
    expired.  The write of [lastActiveAt] on the row just read touches a
    column the model does not carry. *)
Definition validateRefreshToken (deps : AuthDeps) (now : Date)
    (refreshToken : string) : M (option Session.t) :=
  let hashedToken := deps.(hash) refreshToken in
  found <- gets (fun db =>
    find (fun s => String.eqb s.(Session.refreshToken) hashedToken)
         db.(session)) ;;
  match found with
  | None => ret None
  | Some s =>
      if s.(Session.isRevoked) then ret None
      else if s.(Session.expiresAt) <? now then ret None
      else ret (Some s)
  end.

(** [prisma.session.update({ where: { id }, data: { isRevoked: true } })]. *)
Definition revokeSession (sessionId : string) : M unit :=
  row <- findById sessionId ;;
  match row with
  | None => throw recordNotFound
  | Some _ =>
      modify (fun db =>
        set_session
          (updateWhere (fun s => String.eqb s.(Session.id) sessionId)
             setRevoked db.(session)) db)
  end.

(** [where: { userId, isRevoked: false, id: { not: exceptSessionId } }],
    the last part only when an exception is given. *)
Definition whereOtherLive (userId : string) (exceptSessionId : option string)
    (s : Session.t) : bool :=
  String.eqb s.(Session.userId) userId
  && negb s.(Session.isRevoked)
  && match exceptSessionId with
     | Some except => negb (String.eqb s.(Session.id) except)
     | None => true
     end.

Definition revokeAllUserSessions (userId : string)
    (exceptSessionId : option string) : M unit :=
  modify (fun db =>
    set_session
      (updateWhere (whereOtherLive userId exceptSessionId) setRevoked
         db.(session)) db).

(** [deleteMany({ where: { OR: [expired, revoked] } })], answering the
    number of rows deleted. *)
Definition whereDead (now : Date) (s : Session.t) : bool :=
  (s.(Session.expiresAt) <? now) || s.(Session.isRevoked).

Definition cleanExpiredSessions (now : Date) : M Z :=
  dead <- gets (fun db => filter (whereDead now) db.(session)) ;;
  modify (fun db =>
    set_session (filter (fun s => negb (whereDead now s)) db.(session)) db) ;;;
  ret (Z.of_nat (List.length dead)).

End SessionService.

(* ================================================================= *)
(** ** modules/auth/auth.service.ts : refresh, logout, logoutAllDevices *)

Module AuthSessions.

Definition findUserById (userId : string) : M (option User.t) :=
  gets (fun db => find (fun u => String.eqb u.(User.id) userId) db.(user)).

(** [sessionId] and [refreshToken] are the two [uuidv4()] drawn for the
    new session; [oldRefreshToken] is the token presented. *)
Definition refresh (deps : AuthDeps) (now : Date)
    (sessionId refreshToken : string) (oldRefreshToken : string)
    (ip userAgent : string) : M AuthService.AuthTokens :=
  found <- SessionService.validateRefreshToken deps now oldRefreshToken ;;
  match found with
  | None => throw (UnauthorizedException "Invalid refresh token")
  | Some s =>
      userRow <- findUserById s.(Session.userId) ;;
      match userRow with
      | None => throw (UnauthorizedException "User not found or disabled")
      | Some u =>
          if negb u.(User.isActive) then
            throw (UnauthorizedException "User not found or disabled")
          else
            SessionService.revokeSession s.(Session.id) ;;;
            AuthService.createAuthTokens deps now sessionId refreshToken
              u.(User.id) u.(User.email) u.(User.role) ip userAgent
      end
  end.

Definition logout (sessionId : string) : M unit :=
  SessionService.revokeSession sessionId.

Definition logoutAllDevices (userId : string)
    (exceptSessionId : option string) : M unit :=
  SessionService.revokeAllUserSessions userId exceptSessionId.

End AuthSessions.

(* ================================================================= *)
(** ** modules/auth/strategies/jwt.strategy.ts : JwtStrategy.validate *)

Module JwtStrategy.

Record JwtPayload : Type := mkPayload {
  sub : string;
  email : string;
  role : Role;
  sessionId : string
}.

(** What the strategy attaches to the request as [user]. *)
Record RequestUser : Type := mkRequestUser {
  id : string;
  userEmail : string;
  userRole : Role;
  userSessionId : string;
  twoFactorEnabled : bool
}.

Definition validate (payload : JwtPayload) : M RequestUser :=
  userRow <- AuthSessions.findUserById payload.(sub) ;;
  match userRow with
  | None => throw (UnauthorizedException "User not found or disabled")
  | Some u =>
      if negb u.(User.isActive) then
        throw (UnauthorizedException "User not found or disabled")
      else
        found <- SessionService.findById payload.(sessionId) ;;
        match found with
        | None => throw (UnauthorizedException "Session expired")
        | Some s =>
            if s.(Session.isRevoked) then
              throw (UnauthorizedException "Session expired")
            else
              ret (mkRequestUser u.(User.id) u.(User.email) u.(User.role)
                     payload.(sessionId) u.(User.twoFactorEnabled))
        end
  end.

End JwtStrategy.

(* ================================================================= *)
(** ** common/guards/roles.guard.ts : RolesGuard.canActivate *)

Module RolesGuard.

(** [ROLE_HIERARCHY.indexOf(role)]. *)
Definition indexOf (r : Role) : Z :=
  match r with
  | USER => 0
  | SUPPORT => 1
  | ADMIN => 2
  | SUPER_ADMIN => 3
  end.

(** [requiredRoles] is what the [@Roles] metadata holds, if any;
    [user] is the request's user, if the JWT guard has set one. *)
Definition canActivate (requiredRoles : option (list Role))
    (user : option JwtStrategy.RequestUser) : Result bool :=
  match requiredRoles with
  | None | Some [] => Ok true
  | Some requiredRoles =>
      match user with
      | None => Throw (ForbiddenException "Access denied")
      | Some user =>
          let userRoleIndex := indexOf user.(JwtStrategy.userRole) in
          let hasPermission :=
            existsb (fun role => indexOf role <=? userRoleIndex)
                    requiredRoles in
          if negb hasPermission then
            Throw (ForbiddenException "Insufficient permissions")
          else Ok true
      end
  end.

End RolesGuard.

(* ================================================================= *)
(** ** A worked scenario: dave's sessions *)

Module SessionScenario.

(** Dave after a login with a valid code: one session, sess-1. *)
Definition loggedIn : PrismaClient :=
  snd (AuthScenario.attempt (Some "123456")).

(** A second login from another device: sess-2. *)
Definition twice : PrismaClient :=
  snd (AuthService.login AuthScenario.deps (AuthScenario.now + 60000)
         "sess-2" "refresh-2"
         (AuthService.mkLogin "dave@example.com" "pw" (Some "123456"))
         "10.0.0.2" "firefox" loggedIn).

Definition payloadOf (sessionId : string) : JwtStrategy.JwtPayload :=
  JwtStrategy.mkPayload "dave" "dave@example.com" USER sessionId.

End SessionScenario.

(** Dave logged in twice, then logged out of the first session. *)
Definition loggedOutOnce : PrismaClient :=
  snd (AuthSessions.logout "sess-1" SessionScenario.twice).

(* ================================================================= *)
(** ** modules/deposits/deposits.service.ts : updateConfirmations *)

Module DepositsService.

Definition findDeposit (depositId : string) : M (option Deposit.t) :=
  gets (fun db =>
    find (fun d => String.eqb d.(Deposit.id) depositId) db.(deposit)).

(** [deposit.update({ where: { id }, data })], answering the row. *)
Definition update (depositId : string) (data : Deposit.t -> Deposit.t)
    : M Deposit.t :=
  row <- findDeposit depositId ;;
  match row with
  | None => throw recordNotFound
  | Some row =>
      modify (fun db =>
        set_deposit
          (updateWhere (fun d => String.eqb d.(Deposit.id) depositId) data
             db.(deposit)) db) ;;;
      ret (data row)
  end.

(** The joined [chain] exists by foreign key. *)
Definition updateConfirmations (now : Date) (depositId : string)
    (confirmations : Z) : M Deposit.t :=
  found <- findDeposit depositId ;;
  match found with
  | None => throw (NotFoundException "Deposit not found")
  | Some d =>
      chainRow <- gets (fun db =>
        find (fun c => String.eqb c.(Chain.id) d.(Deposit.chainId))
             db.(chain)) ;;
      match chainRow with
      | None => throw (Error "foreign key: chain")
      | Some chainRow =>
          if DepositStatus_eqb d.(Deposit.status) DepositCONFIRMED then ret d
          else
            let isConfirmed :=
              chainRow.(Chain.confirmationsRequired) <=? confirmations in
            if isConfirmed then
              executeInTransaction (
                updatedDeposit <-
                  update depositId
                    (DepositMonitor.setDepositConfirmed now confirmations) ;;
                BalanceOps.creditBalance d.(Deposit.userId)
                  d.(Deposit.assetId) d.(Deposit.chainId) d.(Deposit.amount)
                  DEPOSIT_CONFIRMED "Deposit" depositId
                  (Some [("txHash", JString d.(Deposit.txHash));
                         ("fromAddress", JString d.(Deposit.fromAddress));
                         ("confirmations",
                          JNumber (inject_Z confirmations))]) ;;;
                ret updatedDeposit)
            else
              update depositId (DepositMonitor.setConfirmations confirmations)
      end
  end.

End DepositsService.

(** Ledger entries that credit a confirmed deposit of a given id. *)
Definition depositCredits (depositId : string) (rows : list LedgerEntry.t)
    : list LedgerEntry.t :=
  filter (fun e =>
            LedgerEntryType_eqb e.(LedgerEntry.entryType) DEPOSIT_CONFIRMED
            && String.eqb e.(LedgerEntry.referenceType) "Deposit"
            && String.eqb e.(LedgerEntry.referenceId) depositId) rows.

(** The stored deposit of an id. *)
Definition depositOf (depositId : string) (db : PrismaClient)
    : option Deposit.t :=
  find (fun d => String.eqb d.(Deposit.id) depositId) db.(deposit).

(** Erin's transfer of 5 USDT, recorded and waiting for confirmations. *)
Definition depositPending : PrismaClient :=
  set_deposit
    [Deposit.mk "dep-1" "erin" "usdt" "eth" "da-1" "0xfeed" 3
       "0x00000000000000000000000000000000000000ff" 5%Q DepositCONFIRMING 1
       None] ScanScenario.db.

(** The unique key of a deposit row: [txHash_logIndex_chainId]. *)
Definition depositKey (d : Deposit.t) : string * Z * string :=
  (d.(Deposit.txHash), d.(Deposit.logIndex), d.(Deposit.chainId)).

(** What a scan may do to the tables of [db0]: append deposits, each
    CONFIRMING, on the scanned chain and asset, no two rows sharing
    a key. *)
Definition recordedSince (chainRow : Chain.t) (assetRow : Asset.t)
    (db0 db : PrismaClient) : Prop :=
  NoDup (map depositKey db.(deposit))
  /\ set_deposit db0.(deposit) db = db0
  /\ exists new,
       db.(deposit) = db0.(deposit) ++ new
       /\ forall d, In d new ->
            d.(Deposit.status) = DepositCONFIRMING
            /\ d.(Deposit.chainId) = chainRow.(Chain.id)
            /\ d.(Deposit.assetId) = assetRow.(Asset.id).



(** The tables after a first healthy scan of USDT in the scenario. *)
Definition scannedOnce : PrismaClient :=
  snd (DepositMonitor.scanAsset (ScanScenario.healthy 10000) Scenario.eth
         [ScanScenario.erinAddress] 9001 10000 Scenario.usdt ScanScenario.db).

(* ================================================================= *)
(** ** pools.service.ts : findById, calculateEstimatedRewards *)

Module PoolEstimates.


Definition findById (id : string) : M Pool.t :=
  poolRow <- PoolsService.findPool id ;;
  match poolRow with
  | None => throw (NotFoundException "Pool not found")
  | Some poolRow => ret poolRow
  end.


End PoolEstimates.

(* ================================================================= *)
(** ** modules/audit/audit.service.ts : AuditService.sanitize *)

(** The values audit data is made of: primitives, Prisma decimals, and
    plain objects (fields in insertion order). *)
#[warnings="-register-all"]
Inductive JsValue : Type :=
| JsNull
| JsBool (b : bool)
| JsNum (n : Q)
| JsStr (s : string)
| JsDec (d : Decimal)
| JsObj (fields : list (string * JsValue)).

Module AuditService.


(** [if (field in sanitized) sanitized[field] = '[REDACTED]']. *)
Definition redactField (field : string) (fields : list (string * JsValue))
    : list (string * JsValue) :=
  map (fun kv => if String.eqb (fst kv) field
                 then (fst kv, JsStr "[REDACTED]") else kv) fields.

(** [if (sanitized[key]?.constructor?.name === 'Decimal')
      sanitized[key] = sanitized[key].toString()]; [render] is
    [Decimal.prototype.toString]. *)
Definition stringifyDecimal (render : Decimal -> string)
    (kv : string * JsValue) : string * JsValue :=
  match snd kv with
  | JsDec d => (fst kv, JsStr (render d))
  | _ => kv
  end.



End AuditService.


(* ================================================================= *)
(** ** What a user owns *)

(** The ledger and the balance cache: the two tables that say what a
    user owns. *)
Definition fundsOf (db : PrismaClient)
    : list LedgerEntry.t * list BalanceCache.t :=
  (db.(ledgerEntry), db.(balanceCache)).

(** The withdrawal wr-1 of the scenario, approved, after a payout that
    could not be sent. *)
Definition payoutFailed : PrismaClient :=
  snd (PayoutProcessor.processPayout (Scenario.t0 + 2) "ptx-1" "wr-1"
         (PayoutProcessor.SendError "insufficient funds")
         Scenario.approved).

(* ================================================================= *)
(** ** One position in the sweep of cooled-down positions *)

Definition positionRows (id : string) (db : PrismaClient)
    : list StakePosition.t :=
  filter (fun s => String.eqb s.(StakePosition.id) id) db.(stakePosition).

(** The UNSTAKE_COMPLETED entries that refer to the position. *)
Definition completionEntries (id : string) (db : PrismaClient)
    : list LedgerEntry.t :=
  filter (fun e =>
            LedgerEntryType_eqb e.(LedgerEntry.entryType) UNSTAKE_COMPLETED
            && String.eqb e.(LedgerEntry.referenceId) id)
         db.(ledgerEntry).

(* ================================================================= *)
(** * Properties *)

(** ** Decimal comparisons *)

Lemma lessThanOrEqualTo_spec (a b : Decimal) :
  Dec.lessThanOrEqualTo a b = true <-> (a <= b)%Q.
Proof. apply Qle_bool_iff. Qed.



Lemma lessThanOrEqualTo_false (a b : Decimal) :
  Dec.lessThanOrEqualTo a b = false <-> (b < a)%Q.
Proof.
  unfold Dec.lessThanOrEqualTo. split; intro H.
  - apply Qnot_le_lt. intro Hle. apply Qle_bool_iff in Hle. congruence.
  - destruct (Qle_bool a b) eqn:E; [|reflexivity].
    apply Qle_bool_iff in E. exfalso. apply (Qlt_not_le _ _ H E).
Qed.



(* ================================================================= *)
(** ** Ledger: [createEntry] keeps every account non-negative *)





Lemma calculateBalance_run u a c db :
  LedgerService.calculateBalance u a c db
  = (Ok (ledgerBalance db.(ledgerEntry) u a c), db).
Proof. reflexivity. Qed.

(** What [createEntry] does, by cases on its guards. *)
Lemma createEntry_run params db :
  LedgerService.createEntry params db =
  if Dec.lessThanOrEqualTo params.(LedgerService.amount) 0 then
    (Throw (BadRequestException "Ledger entry amount must be positive"), db)
  else
    match params.(LedgerService.userId), params.(LedgerService.direction) with
    | Some uid, DEBIT =>
        let bal := ledgerBalance db.(ledgerEntry) uid
                     params.(LedgerService.assetId)
                     params.(LedgerService.chainId) in
        if Dec.lessThan (Dec.sub bal params.(LedgerService.amount)) 0 then
          (Throw (BadRequestException "Insufficient balance for debit"), db)
        else
          let e := LedgerEntry.mk (Some uid) params.(LedgerService.assetId)
                     params.(LedgerService.chainId)
                     params.(LedgerService.entryType) DEBIT
                     params.(LedgerService.amount)
                     (Some (Dec.sub bal params.(LedgerService.amount)))
                     params.(LedgerService.referenceType)
                     params.(LedgerService.referenceId)
                     (match params.(LedgerService.metadata) with
                      | Some m => m | None => [] end) in
          (Ok e, set_ledgerEntry (db.(ledgerEntry) ++ [e]) db)
    | Some uid, CREDIT =>
        let bal := ledgerBalance db.(ledgerEntry) uid
                     params.(LedgerService.assetId)
                     params.(LedgerService.chainId) in
        let e := LedgerEntry.mk (Some uid) params.(LedgerService.assetId)
                   params.(LedgerService.chainId)
                   params.(LedgerService.entryType) CREDIT
                   params.(LedgerService.amount)
                   (Some (Dec.add bal params.(LedgerService.amount)))
                   params.(LedgerService.referenceType)
                   params.(LedgerService.referenceId)
                   (match params.(LedgerService.metadata) with
                    | Some m => m | None => [] end) in
        (Ok e, set_ledgerEntry (db.(ledgerEntry) ++ [e]) db)
    | None, d =>
        let e := LedgerEntry.mk None params.(LedgerService.assetId)
                   params.(LedgerService.chainId)
                   params.(LedgerService.entryType) d
                   params.(LedgerService.amount) None
                   params.(LedgerService.referenceType)
                   params.(LedgerService.referenceId)
                   (match params.(LedgerService.metadata) with
                    | Some m => m | None => [] end) in
        (Ok e, set_ledgerEntry (db.(ledgerEntry) ++ [e]) db)
    end.
Proof.
  unfold LedgerService.createEntry.
  destruct (Dec.lessThanOrEqualTo _ 0); [reflexivity|].
  destruct params as [[uid|] a c ty [|] amt rt ri md]; simpl;
    unfold bind; simpl; try reflexivity.
  destruct (Dec.lessThan _ 0); reflexivity.
Qed.




(* ================================================================= *)
(** ** Withdrawals: finalisation and the WITHDRAWAL_PAID entry *)

Lemma bind_run {A B} (m : M A) (k : A -> M B) db :
  bind m k db =
  match m db with
  | (Ok a, db') => k a db'
  | (Throw e, db') => (Throw e, db')
  end.
Proof. reflexivity. Qed.

(** [finalizeWithdrawal] asks [createEntry] for an entry of amount 0,
    which [createEntry] refuses: it throws before writing anything. *)
Lemma finalizeWithdrawal_throws u a c amt id tx db :
  BalanceService.finalizeWithdrawal u a c amt id tx db =
  (Throw (BadRequestException "Ledger entry amount must be positive"), db).
Proof. reflexivity. Qed.

Lemma withdrawal_update_found id data row db :
  WithdrawalsService.findById id db = (Ok (Some row), db) ->
  WithdrawalsService.update id data db =
  (Ok (data row),
   set_withdrawalRequest
     (updateWhere (fun r => String.eqb r.(WithdrawalRequest.id) id) data
        db.(withdrawalRequest)) db).
Proof.
  intro H. unfold WithdrawalsService.update. rewrite bind_run, H.
  reflexivity.
Qed.

Lemma findById_run id db :
  WithdrawalsService.findById id db =
  (Ok (find (fun r => String.eqb r.(WithdrawalRequest.id) id)
          db.(withdrawalRequest)), db).
Proof. reflexivity. Qed.

(** Whatever the request and its status, [markPaidManually] ends in an
    exception and the transaction rolls back. *)
Lemma markPaidManually_never_succeeds now id adminId proofUrl notes db :
  exists e,
    WithdrawalsService.markPaidManually now id adminId proofUrl notes db
    = (Throw e, db).
Proof.
  unfold WithdrawalsService.markPaidManually, executeInTransaction.
  rewrite bind_run, findById_run.
  destruct (find _ (withdrawalRequest db)) as [row|] eqn:Hf;
    [|eexists; reflexivity].
  destruct (WithdrawalRequest.status row) eqn:Hs;
    try (eexists; reflexivity);
    rewrite bind_run;
    rewrite (withdrawal_update_found id _ row db)
      by (rewrite findById_run, Hf; reflexivity);
    rewrite bind_run, finalizeWithdrawal_throws; eexists; reflexivity.
Qed.

(** The service-side path for a confirmed payout goes through
    [finalizeWithdrawal] too, to post the WITHDRAWAL_PAID entry, and
    ends the same way. *)
Lemma updatePayoutStatus_confirmed_throws now newId requestId txHash confs
    msg row db :
  WithdrawalsService.findById requestId db = (Ok (Some row), db) ->
  PayoutStatusUpdate.updatePayoutStatus now newId requestId
    (PayoutStatusUpdate.mkParams PayoutCONFIRMED txHash confs msg) db
  = (Throw (BadRequestException "Ledger entry amount must be positive"), db).
Proof.
  intro Hrow. unfold PayoutStatusUpdate.updatePayoutStatus,
    executeInTransaction.
  rewrite bind_run, Hrow. cbv beta iota.
  rewrite bind_run.
  unfold PayoutProcessor.findPayoutByRequest, gets at 1. cbv beta iota.
  destruct (find _ (payoutTx db)) as [p|] eqn:Hp.
  - rewrite bind_run. unfold PayoutProcessor.updatePayout.
    rewrite bind_run. unfold gets at 1. cbv beta iota.
    assert (Hid : find (fun q => String.eqb q.(PayoutTx.id) p.(PayoutTx.id))
                    (payoutTx db) <> None).
    { apply find_some in Hp as [Hin _]. intro Hn.
      apply (find_none _ _ Hn) in Hin. rewrite String.eqb_refl in Hin.
      discriminate. }
    match type of Hid with
    | ?f <> None => destruct f; [|contradiction]
    end.
    unfold modify at 1. cbv beta iota.
    cbn [PayoutStatusUpdate.status]. rewrite bind_run, bind_run.
    rewrite finalizeWithdrawal_throws. reflexivity.
  - rewrite bind_run. unfold modify at 1. cbv beta iota.
    cbn [PayoutStatusUpdate.status]. rewrite bind_run, bind_run.
  rewrite finalizeWithdrawal_throws. reflexivity.
Qed.

(** C2, at the failing input.  The request wr-1 of the scenario is
    PENDING_REVIEW with 1 USDT pending; marking it paid manually with
    notes throws 'Ledger entry amount must be positive' and leaves every
    table as it was: the status stays PENDING_REVIEW, no WITHDRAWAL_PAID
    entry exists and withdrawalsPending is still 1. *)
Theorem markPaidManually_pending_review_throws :
  statusOf "wr-1" Scenario.requested = Some PENDING_REVIEW
  /\ WithdrawalsService.markPaidManually (Scenario.t0 + 1) "wr-1" "admin-1"
       (Some "https://proof") "paid by wire" Scenario.requested
     = (Throw (BadRequestException "Ledger entry amount must be positive"),
        Scenario.requested)
  /\ entriesFor WITHDRAWAL_PAID "wr-1" Scenario.requested.(ledgerEntry) = []
  /\ option_map BalanceCache.withdrawalsPending
       (balanceOf "alice" "usdt" "eth" Scenario.requested) = Some 1%Q.
Proof. repeat split; vm_compute; reflexivity. Qed.

Section Keeps.

Context {T : Type} (table : PrismaClient -> T).

Lemma keeps_ret {A} (a : A) : keeps table (ret a).
Proof. intro db. reflexivity. Qed.

Lemma keeps_throw {A} e : keeps table (@throw A e).
Proof. intro db. reflexivity. Qed.

Lemma keeps_gets {A} (f : PrismaClient -> A) : keeps table (gets f).
Proof. intro db. reflexivity. Qed.

Lemma keeps_modify f :
  (forall db, table (f db) = table db) -> keeps table (modify f).
Proof. intros H db. apply H. Qed.

Lemma keeps_bind {A B} (m : M A) (k : A -> M B) :
  keeps table m -> (forall a, keeps table (k a)) -> keeps table (bind m k).
Proof.
  intros Hm Hk db. unfold bind. specialize (Hm db).
  destruct (m db) as [[a|e] db']; simpl in *.
  - rewrite Hk. exact Hm.
  - exact Hm.
Qed.

Lemma keeps_transaction {A} (m : M A) :
  keeps table m -> keeps table (executeInTransaction m).
Proof.
  intros Hm db. unfold executeInTransaction. specialize (Hm db).
  destruct (m db) as [[a|e] db']; simpl in *; [exact Hm | reflexivity].
Qed.

End Keeps.

Ltac keeps_table :=
  repeat first
    [ apply keeps_ret
    | apply keeps_throw
    | apply keeps_gets
    | apply keeps_transaction
    | apply keeps_modify; intro; reflexivity
    | apply keeps_bind; [|intro]
    | match goal with
      | |- keeps _ (match ?x with _ => _ end) => destruct x
      end ].

Lemma keepsLedger_updatePayout id data :
  keeps ledgerEntry (PayoutProcessor.updatePayout id data).
Proof. unfold PayoutProcessor.updatePayout. keeps_table. Qed.

Lemma keepsLedger_withdrawal_update id data :
  keeps ledgerEntry (WithdrawalsService.update id data).
Proof.
  unfold WithdrawalsService.update, WithdrawalsService.findById. keeps_table.
Qed.

Lemma keepsLedger_balance_update u a c data :
  keeps ledgerEntry (BalanceService.update u a c data).
Proof.
  unfold BalanceService.update, BalanceService.findUnique. keeps_table.
Qed.

Lemma keepsLedger_notification_create n :
  keeps ledgerEntry (PayoutProcessor.notification_create n).
Proof. unfold PayoutProcessor.notification_create. keeps_table. Qed.

(** The payout worker's status check never touches the ledger table,
    whichever branch it takes. *)
Lemma checkPayoutStatus_ledger_untouched now id receipt currentBlock :
  keeps ledgerEntry
    (PayoutProcessor.checkPayoutStatus now id receipt currentBlock).
Proof.
  unfold PayoutProcessor.checkPayoutStatus, PayoutProcessor.findPayoutByTxHash,
    WithdrawalsService.findById.
  repeat first
    [ apply keepsLedger_updatePayout
    | apply keepsLedger_withdrawal_update
    | apply keepsLedger_balance_update
    | apply keepsLedger_notification_create
    | progress keeps_table ].
Qed.

(** C1, at the failing input.  In the scenario the payout of request
    wr-1 is SENT; the status check with a successful receipt 12 blocks
    deep (12 required) sets the request COMPLETED and takes its amount
    off withdrawalsPending (1 before, 0 after), yet the ledger holds no
    WITHDRAWAL_PAID entry for it afterwards, only the one
    WITHDRAWAL_REQUESTED entry. *)
Theorem checkPayoutStatus_completes_without_paid_entry :
  statusOf "wr-1" Scenario.sent = Some SENT
  /\ fst (PayoutProcessor.checkPayoutStatus (Scenario.t0 + 3) "0xabc"
            (Some Scenario.minedReceipt) 111 Scenario.sent) = Ok tt
  /\ statusOf "wr-1" Scenario.confirmed = Some COMPLETED
  /\ option_map BalanceCache.withdrawalsPending
       (balanceOf "alice" "usdt" "eth" Scenario.sent) = Some 1%Q
  /\ option_map BalanceCache.withdrawalsPending
       (balanceOf "alice" "usdt" "eth" Scenario.confirmed) = Some 0%Q
  /\ List.length (entriesFor WITHDRAWAL_REQUESTED "wr-1"
                    Scenario.confirmed.(ledgerEntry)) = 1%nat
  /\ entriesFor WITHDRAWAL_PAID "wr-1" Scenario.confirmed.(ledgerEntry) = [].
Proof. repeat split; vm_compute; reflexivity. Qed.

(* ================================================================= *)
(** ** Staking: the two finalisation paths *)

Lemma find_updateWhere {A} (p : A -> bool) (f : A -> A) (l : list A) :
  (forall x, p (f x) = p x) ->
  find p (updateWhere p f l) = option_map f (find p l).
Proof.
  intro Hp. unfold updateWhere. induction l as [|x l IH]; simpl.
  - reflexivity.
  - destruct (p x) eqn:Hx.
    + rewrite Hp, Hx. reflexivity.
    + rewrite Hx. exact IH.
Qed.

(** [unstakeToBalance] moves the whole credited amount out of [staked]
    and into [available], and leaves [rewardsAccrued] alone. *)
Lemma unstakeToBalance_buckets u a c amt id db b :
  (0 < amt)%Q ->
  balanceOf u a c db = Some b ->
  exists db',
    BalanceService.unstakeToBalance u a c amt id db = (Ok tt, db')
    /\ balanceOf u a c db' =
       Some (BalanceCache.mk b.(BalanceCache.userId) b.(BalanceCache.assetId)
               b.(BalanceCache.chainId)
               (b.(BalanceCache.available) + amt)%Q
               (b.(BalanceCache.staked) - amt)%Q
               b.(BalanceCache.rewardsAccrued)
               b.(BalanceCache.withdrawalsPending)).
Proof.
  intros Hpos Hb. unfold BalanceService.unstakeToBalance.
  rewrite bind_run, createEntry_run. simpl.
  apply lessThanOrEqualTo_false in Hpos. rewrite Hpos.
  unfold BalanceService.update, BalanceService.findUnique.
  rewrite bind_run. unfold gets. simpl.
  unfold balanceOf in Hb. rewrite Hb.
  eexists. split; [reflexivity|].
  unfold balanceOf. simpl. rewrite find_updateWhere by reflexivity.
  rewrite Hb. reflexivity.
Qed.

(** C3, at the failing input.  Bob's ACTIVE, unlocked position of 100
    with 5 accrued, in a pool without cooldown, earns 1 more up to now.
    [unstake] answers COMPLETED with totalAmount 106 = 100 + (5 + 1),
    completes the position, takes the principal 100 off
    pool.totalStaked and posts one UNSTAKE_COMPLETED CREDIT of 106; but
    the balance row goes from (available 0, staked 100, rewardsAccrued 5)
    to (106, -6, 5): staked drops by totalAmount 106, not by the
    principal 100, and rewardsAccrued is not reduced by the 5 accrued
    before. *)
Theorem unstake_direct_buckets :
  StakeScenario.answer
    (fst (StakesService.unstake StakeScenario.t0 "bob" "sp-1"
            StakeScenario.active)) = Some (106%Q, 100%Q, 6%Q)
  /\ StakeScenario.stakeStatusOf StakeScenario.afterUnstake
     = Some StakeCOMPLETED
  /\ StakeScenario.totalStakedOf StakeScenario.active = Some 100%Q
  /\ StakeScenario.totalStakedOf StakeScenario.afterUnstake = Some 0%Q
  /\ StakeScenario.unstakeEntries StakeScenario.afterUnstake
     = [(CREDIT, 106%Q)]
  /\ StakeScenario.buckets StakeScenario.active
     = Some (0%Q, 100%Q, 5%Q)
  /\ StakeScenario.buckets StakeScenario.afterUnstake
     = Some (106%Q, (-6)%Q, 5%Q).
Proof. repeat split; vm_compute; reflexivity. Qed.

(** C4, at the failing input.  The same position (amount 100, 5
    accrued, same last calculation, same clock) finalised by the sweep
    after its cooldown and by the direct path: both post an
    UNSTAKE_COMPLETED CREDIT of 106 and add 106 to available, but the
    sweep leaves (staked 0, rewardsAccrued 0) where the direct path
    leaves (staked -6, rewardsAccrued 5).  On the UNSTAKING row itself
    the direct path refuses with 'Stake is not active'. *)
Theorem sweep_and_direct_unstake_differ :
  StakeScenario.buckets StakeScenario.cooling
  = StakeScenario.buckets StakeScenario.active
  /\ StakeScenario.unstakeEntries StakeScenario.afterSweep = [(CREDIT, 106%Q)]
  /\ StakeScenario.unstakeEntries StakeScenario.afterUnstake
     = [(CREDIT, 106%Q)]
  /\ StakeScenario.stakeStatusOf StakeScenario.afterSweep
     = Some StakeCOMPLETED
  /\ StakeScenario.buckets StakeScenario.afterSweep
     = Some (106%Q, 0%Q, 0%Q)
  /\ StakeScenario.buckets StakeScenario.afterUnstake
     = Some (106%Q, (-6)%Q, 5%Q)
  /\ fst (StakesService.unstake StakeScenario.t0 "bob" "sp-1"
            StakeScenario.cooling)
     = Throw (BadRequestException "Stake is not active").
Proof. repeat split; vm_compute; reflexivity. Qed.

(* ================================================================= *)
(** ** Staking: one accrual step *)




(** The reward of the code's chain of divisions is the closed form. *)
Lemma newRewards_formula amount apr seconds :
  (newRewards amount apr seconds
   == amount * (apr / 100 / 365 / 86400) * seconds)%Q.
Proof.
  unfold newRewards, ratePerSecond, Dec.mul, Dec.div. field.
Qed.

Lemma stake_update_found id data row db :
  find (fun s => String.eqb s.(StakePosition.id) id) db.(stakePosition)
  = Some row ->
  StakesService.updateStake id data db =
  (Ok tt,
   set_stakePosition
     (updateWhere (fun s => String.eqb s.(StakePosition.id) id) data
        db.(stakePosition)) db).
Proof.
  intro H. unfold StakesService.updateStake, StakesService.findStake.
  rewrite bind_run. unfold gets. rewrite H. reflexivity.
Qed.




(* ================================================================= *)
(** ** Withdrawals: idempotent submission *)

Lemma bind_ok_inv {A B} (m : M A) (k : A -> M B) db b db2 :
  bind m k db = (Ok b, db2) ->
  exists a db1, m db = (Ok a, db1) /\ k a db1 = (Ok b, db2).
Proof.
  unfold bind. destruct (m db) as [[a|e] db1]; intro H.
  - exists a, db1. split; [reflexivity | exact H].
  - discriminate.
Qed.

Lemma keeps_run {T A} (table : PrismaClient -> T) (m : M A) db r db' :
  keeps table m -> m db = (r, db') -> table db' = table db.
Proof. intros H E. specialize (H db). rewrite E in H. exact H. Qed.



Lemma keepsRequests_createEntry params :
  keeps withdrawalRequest (LedgerService.createEntry params).
Proof.
  intro db. rewrite createEntry_run.
  destruct (Dec.lessThanOrEqualTo _ 0); [reflexivity|].
  destruct (LedgerService.userId params);
    destruct (LedgerService.direction params); try reflexivity.
  cbv zeta. destruct (Dec.lessThan _ 0); reflexivity.
Qed.







(* ================================================================= *)
(** ** Fraud scoring: the pattern check *)

Lemma answers_bind {A B} (m : M A) (k : A -> M B) P Q :
  answers m P -> (forall a, P a -> answers (k a) Q) -> answers (bind m k) Q.
Proof.
  intros Hm Hk db. destruct (Hm db) as (a & Ea & Pa).
  destruct (Hk a Pa db) as (b & Eb & Qb).
  exists b. split; [|exact Qb]. rewrite bind_run, Ea. exact Eb.
Qed.

Lemma answers_ret {A} (a : A) (P : A -> Prop) : P a -> answers (ret a) P.
Proof. intros Pa db. exists a. split; [reflexivity | exact Pa]. Qed.

Lemma answers_gets {A} (f : PrismaClient -> A) (P : A -> Prop) :
  (forall db, P (f db)) -> answers (gets f) P.
Proof. intros H db. exists (f db). split; [reflexivity | apply H]. Qed.

Lemma answers_gets_bind {A B} (f : PrismaClient -> A) (k : A -> M B) Q :
  (forall a, answers (k a) Q) -> answers (bind (gets f) k) Q.
Proof.
  intro Hk. apply (answers_bind _ _ (fun _ => True)).
  - apply answers_gets. intro. exact I.
  - intros a _. apply Hk.
Qed.

Ltac answers_step :=
  repeat first
    [ apply answers_ret
    | apply answers_gets_bind; intro
    | match goal with
      | |- answers (match ?x with _ => _ end) _ => destruct x
      end ].

Lemma checkNewAddress_answers now userId address chainId :
  answers (FraudService.checkNewAddress now userId address chainId) notPattern.
Proof.
  unfold FraudService.checkNewAddress. answers_step;
    intros i Hi; inversion Hi; subst; discriminate.
Qed.

Lemma checkLargeAmount_answers cfg amount assetId :
  answers (FraudService.checkLargeAmount cfg amount assetId) notPattern.
Proof.
  unfold FraudService.checkLargeAmount, FraudService.findAsset. answers_step;
    intros i Hi; inversion Hi; subst; discriminate.
Qed.

Lemma checkVelocity_answers cfg now userId :
  answers (FraudService.checkVelocity cfg now userId) notPattern.
Proof.
  unfold FraudService.checkVelocity. answers_step;
    intros i Hi; inversion Hi; subst; discriminate.
Qed.

Lemma checkDailyLimit_answers now userId amount assetId :
  answers (FraudService.checkDailyLimit now userId amount assetId) notPattern.
Proof.
  unfold FraudService.checkDailyLimit, FraudService.findAsset,
    FraudService.findUser.
  answers_step; intros i Hi; inversion Hi; subst; discriminate.
Qed.

Lemma checkPatterns_run now userId db :
  FraudService.checkPatterns now userId db =
  (Ok match find (fun u => String.eqb u.(User.id) userId) db.(user) with
      | None => None
      | Some u =>
          if now - u.(User.createdAt) <? 7 * FraudService.msPerDay
          then Some newAccountIndicator
          else if negb u.(User.emailVerified)
               then Some unverifiedEmailIndicator
               else None
      end, db).
Proof.
  unfold FraudService.checkPatterns, FraudService.findUser.
  rewrite bind_run. unfold gets.
  destruct (find _ (user db)) as [u|]; [|reflexivity].
  destruct (_ <? _); [reflexivity|].
  destruct (negb _); reflexivity.
Qed.

Lemma fold_left_scores l acc :
  fold_left (fun sum ind => sum + ind.(FraudIndicator.score)) l acc
  = acc + sumScores l.
Proof.
  revert acc. induction l as [|i l IH]; intro acc; simpl.
  - lia.
  - rewrite IH. lia.
Qed.

Lemma push_In check l i :
  In i (FraudService.push check l) <-> In i l \/ check = Some i.
Proof.
  unfold FraudService.push. destruct check as [j|].
  - rewrite in_app_iff. simpl. split.
    + intros [H|[H|[]]]; [left; exact H | right; congruence].
    + intros [H|H]; [left; exact H | right; left; congruence].
  - split; [intro H; left; exact H | intros [H|H]; [exact H|discriminate]].
Qed.

(** The analysis is read-only; its indicators are those of the four
    other checks, none of pattern type, followed by the pattern check's
    answer; its total is the sum of the scores listed. *)
Lemma analyze_run cfg now userId dest amount assetId chainId db :
  exists others pattern,
    FraudService.analyzeWithdrawalRequest cfg now userId dest amount assetId
      chainId db
    = (Ok (FraudService.mkAnalysis (FraudService.push pattern others)
             (sumScores (FraudService.push pattern others))), db)
    /\ FraudService.checkPatterns now userId db = (Ok pattern, db)
    /\ (forall i, In i others ->
          i.(FraudIndicator.type) <> SUSPICIOUS_PATTERN).
Proof.
  unfold FraudService.analyzeWithdrawalRequest.
  destruct (checkNewAddress_answers now userId dest chainId db)
    as (c1 & E1 & P1).
  destruct (checkLargeAmount_answers cfg amount assetId db) as (c2 & E2 & P2).
  destruct (checkVelocity_answers cfg now userId db) as (c3 & E3 & P3).
  destruct (checkDailyLimit_answers now userId amount assetId db)
    as (c4 & E4 & P4).
  exists (FraudService.push c4 (FraudService.push c3
            (FraudService.push c2 (FraudService.push c1 [])))).
  eexists.
  rewrite bind_run, E1, bind_run, E2, bind_run, E3, bind_run, E4, bind_run.
  rewrite checkPatterns_run. cbv zeta. unfold ret.
  rewrite fold_left_scores, Z.add_0_l.
  split; [reflexivity|]. split; [reflexivity|].
  intros i Hi. rewrite !push_In in Hi. simpl in Hi.
  destruct Hi as [[[[[]|H]|H]|H]|H];
    [apply P1 | apply P2 | apply P3 | apply P4]; exact H.
Qed.

(** C8, as the code has it.  For a user stored in the tables the fraud
    analysis answers without changing any table, and
    - when the account is younger than 7 days, the result contains the
      new-account indicator (MEDIUM, 25) and no unverified-email
      indicator, verified email or not;
    - when the account is 7 days old or more and the email is
      unverified, it contains the unverified-email indicator (LOW, 15)
      and no new-account indicator;
    - totalScore is the sum of the scores of the indicators in the
      result. *)
Theorem analyze_pattern_indicator
    cfg now userId dest amount assetId chainId db u
    (Huser : find (fun x => String.eqb x.(User.id) userId) db.(user)
             = Some u) :
  exists a,
    FraudService.analyzeWithdrawalRequest cfg now userId dest amount assetId
      chainId db = (Ok a, db)
    /\ (now - u.(User.createdAt) < 7 * FraudService.msPerDay ->
        In newAccountIndicator a.(FraudService.indicators)
        /\ ~ In unverifiedEmailIndicator a.(FraudService.indicators))
    /\ (7 * FraudService.msPerDay <= now - u.(User.createdAt) ->
        u.(User.emailVerified) = false ->
        In unverifiedEmailIndicator a.(FraudService.indicators)
        /\ ~ In newAccountIndicator a.(FraudService.indicators))
    /\ a.(FraudService.totalScore) = sumScores a.(FraudService.indicators).
Proof.
  destruct (analyze_run cfg now userId dest amount assetId chainId db)
    as (others & pattern & Erun & Epat & Hothers).
  rewrite checkPatterns_run, Huser in Epat.
  eexists. split; [exact Erun|].
  cbn [FraudService.indicators FraudService.totalScore].
  assert (Hno : forall i, i.(FraudIndicator.type) = SUSPICIOUS_PATTERN ->
                  ~ In i others).
  { intros i Ht Hin. exact (Hothers i Hin Ht). }
  split; [|split; [|reflexivity]].
  - intro Hyoung. rewrite (proj2 (Z.ltb_lt _ _) Hyoung) in Epat.
    inversion Epat; subst pattern. rewrite !push_In. split.
    + right. reflexivity.
    + intros [H|H];
        [exact (Hno unverifiedEmailIndicator eq_refl H) | discriminate].
  - intros Hold Hunv. rewrite (proj2 (Z.ltb_ge _ _) Hold), Hunv in Epat.
    simpl in Epat. inversion Epat; subst pattern. rewrite !push_In. split.
    + right. reflexivity.
    + intros [H|H];
        [exact (Hno newAccountIndicator eq_refl H) | discriminate].
Qed.

Lemma analyze_pattern_indicator_witness :
  exists a,
    FraudService.analyzeWithdrawalRequest FraudService.defaultConfig
      Scenario.t0 "carol" "0x00000000000000000000000000000000000000AA" 1%Q
      "usdt" "eth" dbCarol = (Ok a, dbCarol)
    /\ In newAccountIndicator a.(FraudService.indicators)
    /\ ~ In unverifiedEmailIndicator a.(FraudService.indicators)
    /\ a.(FraudService.totalScore) = sumScores a.(FraudService.indicators).
Proof.
  destruct (analyze_pattern_indicator FraudService.defaultConfig Scenario.t0
              "carol" "0x00000000000000000000000000000000000000AA" 1%Q
              "usdt" "eth" dbCarol carol eq_refl)
    as (a & Erun & Hyoung & _ & Hsum).
  exists a. split; [exact Erun|].
  destruct Hyoung as [Hin Hnot]; [vm_compute; reflexivity|].
  repeat split; assumption.
Defined.

(** C8 as stated fails: carol's account is one day old and her email is
    unverified, yet the analysis of her withdrawal lists the new-address
    and new-account indicators only, total 55; the unverified-email
    indicator is not in it. *)
Lemma analyze_new_unverified_counterexample :
  Scenario.t0 - carol.(User.createdAt) < 7 * FraudService.msPerDay
  /\ carol.(User.emailVerified) = false
  /\ carolAnalysis
     = Ok (FraudService.mkAnalysis
             [FraudIndicator.mk NEW_ADDRESS MEDIUM 30; newAccountIndicator] 55)
  /\ ~ (forall a, carolAnalysis = Ok a ->
          In newAccountIndicator a.(FraudService.indicators)
          /\ In unverifiedEmailIndicator a.(FraudService.indicators)).
Proof.
  split; [vm_compute; reflexivity|]. split; [reflexivity|].
  split; [vm_compute; reflexivity|].
  intro H. destruct (H _ eq_refl) as [_ Hin].
  vm_compute in Hin.
  destruct Hin as [Hin|[Hin|[]]]; discriminate.
Qed.

(* ================================================================= *)
(** ** Auth: login with two-factor enabled *)

Lemma verifyToken_run deps now userId token s secret db :
  find (fun x => String.eqb x.(TwoFactorSecret.userId) userId)
       db.(twoFactorSecret) = Some s ->
  s.(TwoFactorSecret.isVerified) = true ->
  deps.(decrypt) s.(TwoFactorSecret.encryptedSecret) = Ok secret ->
  TwoFactorService.verifyToken deps now userId token db
  = (Ok (deps.(authenticator_verify) now token secret), db).
Proof.
  intros Hs Hv Hd. unfold TwoFactorService.verifyToken.
  rewrite bind_run. unfold gets. rewrite Hs, Hv. simpl. rewrite Hd.
  reflexivity.
Qed.

(** C7, as the code has it.  For an active user with twoFactorEnabled
    and a verified secret, logging in with the right email and
    password:
    - without a code it fails with the bad-request error '2FA code
      required', tables unchanged;
    - with a code that the authenticator accepts for the decrypted
      secret it succeeds: tokens are issued, lastLoginAt is set and a
      session is stored;
    - with a code that is neither accepted by the authenticator nor an
      unused recovery code of the user it fails with the authorization
      error 'Invalid 2FA code', tables unchanged. *)
Theorem login_two_factor
    deps now sessionId refreshToken dto ip userAgent db u s secret
    (Huser : find (fun x => String.eqb x.(User.email)
                              (toLowerCase dto.(AuthService.email)))
                  db.(user) = Some u)
    (Hactive : u.(User.isActive) = true)
    (Hpassword : deps.(argon2_verify) u.(User.passwordHash)
                   dto.(AuthService.password) = true)
    (Henabled : u.(User.twoFactorEnabled) = true)
    (Hsecret : find (fun x => String.eqb x.(TwoFactorSecret.userId)
                                u.(User.id))
                    db.(twoFactorSecret) = Some s)
    (Hverified : s.(TwoFactorSecret.isVerified) = true)
    (Hdecrypt : deps.(decrypt) s.(TwoFactorSecret.encryptedSecret)
                = Ok secret) :
  (AuthService.missing dto.(AuthService.totpCode) = true ->
   AuthService.login deps now sessionId refreshToken dto ip userAgent db
   = (Throw (BadRequestException "2FA code required"), db))
  /\ (forall code,
        dto.(AuthService.totpCode) = Some code -> code <> "" ->
        (deps.(authenticator_verify) now code secret = true ->
         exists tokens db',
           AuthService.login deps now sessionId refreshToken dto ip
             userAgent db = (Ok tokens, db')
           /\ tokens.(AuthService.refreshToken) = refreshToken
           /\ db'.(user)
              = updateWhere (fun x => String.eqb x.(User.id) u.(User.id))
                  (AuthService.setLastLoginAt now) db.(user)
           /\ List.length db'.(session)
              = S (List.length db.(session)))
        /\ (deps.(authenticator_verify) now code secret = false ->
            find (TwoFactorService.whereUnusedCode u.(User.id)
                    (deps.(hash) code)) db.(recoveryCode) = None ->
            AuthService.login deps now sessionId refreshToken dto ip
              userAgent db
            = (Throw (UnauthorizedException "Invalid 2FA code"), db))).
Proof.
  assert (Hhead :
    AuthService.login deps now sessionId refreshToken dto ip userAgent db
    = bind
      (if AuthService.missing dto.(AuthService.totpCode) then
         throw (BadRequestException "2FA code required")
       else
         bind (TwoFactorService.verifyToken deps now u.(User.id)
                 (AuthService.codeOf dto.(AuthService.totpCode)))
           (fun is2faValid =>
              if negb is2faValid then
                throw (UnauthorizedException "Invalid 2FA code")
              else ret tt))
      (fun _ =>
         bind
           (modify (fun db0 =>
              set_user
                (updateWhere (fun x => String.eqb x.(User.id) u.(User.id))
                   (AuthService.setLastLoginAt now) db0.(user)) db0))
           (fun _ =>
              AuthService.createAuthTokens deps now sessionId refreshToken
                u.(User.id) u.(User.email) u.(User.role) ip userAgent)) db).
  { unfold AuthService.login.
    rewrite bind_run. unfold gets at 1. cbv beta. rewrite Huser.
    rewrite bind_run. unfold gets at 1. cbv beta. rewrite Hsecret.
    rewrite Hactive, Hpassword, Henabled, Hverified. simpl.
    destruct (User.role u); reflexivity. }
  split.
  - intro Hmiss. rewrite Hhead, bind_run, Hmiss. reflexivity.
  - intros code Hcode Hne.
    assert (Hmiss : AuthService.missing dto.(AuthService.totpCode) = false).
    { rewrite Hcode. simpl. apply String.eqb_neq. exact Hne. }
    split.
    + intro Hok. eexists. eexists. split.
      * rewrite Hhead, bind_run, Hmiss, bind_run.
        rewrite (verifyToken_run deps now _ _ s secret db Hsecret Hverified
                   Hdecrypt).
        rewrite Hcode. simpl. rewrite Hok. simpl. reflexivity.
      * simpl. split; [reflexivity|]. split; [reflexivity|].
        rewrite length_app. simpl. lia.
    + intros Hbad _. rewrite Hhead, bind_run, Hmiss, bind_run.
      rewrite (verifyToken_run deps now _ _ s secret db Hsecret Hverified
                 Hdecrypt).
      rewrite Hcode. simpl. rewrite Hbad. reflexivity.
Qed.

Lemma login_two_factor_witness :
  AuthScenario.attempt None
  = (Throw (BadRequestException "2FA code required"), AuthScenario.db)
  /\ (exists tokens db',
        AuthScenario.attempt (Some "123456") = (Ok tokens, db')
        /\ tokens.(AuthService.refreshToken) = "refresh-1")
  /\ AuthScenario.attempt (Some "000000")
     = (Throw (UnauthorizedException "Invalid 2FA code"), AuthScenario.db).
Proof.
  pose proof (fun code =>
    login_two_factor AuthScenario.deps AuthScenario.now "sess-1" "refresh-1"
      (AuthService.mkLogin "Dave@Example.com" "pw" code) "10.0.0.1" "curl"
      AuthScenario.db AuthScenario.dave
      (TwoFactorSecret.mk "dave" "SECRET" true) "SECRET"
      eq_refl eq_refl eq_refl eq_refl eq_refl eq_refl eq_refl) as H.
  split; [|split].
  - apply (proj1 (H None)). reflexivity.
  - destruct (proj1 (proj2 (H (Some "123456")) "123456" eq_refl
                       ltac:(discriminate)) eq_refl)
      as (tokens & db' & E & Hrt & _).
    exists tokens, db'. split; [exact E | exact Hrt].
  - apply (proj2 (proj2 (H (Some "000000")) "000000" eq_refl
                    ltac:(discriminate))); reflexivity.
Defined.

(** C7 as stated fails.  Dave has two-factor enabled with a verified
    secret and holds the unused recovery code ABCD-EFGH, which
    [verifyRecoveryCode] would accept.  Logging in with the right email
    and password and that code fails with 'Invalid 2FA code' and the
    code stays unused; logging in without any code fails with the
    bad-request error '2FA code required', not an authorization
    error. *)
Lemma login_recovery_code_counterexample :
  fst (TwoFactorService.verifyRecoveryCode AuthScenario.deps AuthScenario.now
         "dave" "ABCD-EFGH" AuthScenario.db) = Ok true
  /\ AuthScenario.attempt (Some "ABCD-EFGH")
     = (Throw (UnauthorizedException "Invalid 2FA code"), AuthScenario.db)
  /\ map RecoveryCode.isUsed AuthScenario.db.(recoveryCode) = [false]
  /\ AuthScenario.attempt None
     = (Throw (BadRequestException "2FA code required"), AuthScenario.db).
Proof. repeat split; vm_compute; reflexivity. Qed.

(* ================================================================= *)
(** ** Deposit scanner: the scanned mark and failed log queries *)

Lemma try_catch_log_run (m : M unit) db :
  try_catch_log m db = (Ok tt, snd (m db)).
Proof.
  unfold try_catch_log. destruct (m db) as [[[]|e] db']; reflexivity.
Qed.

Lemma keeps_try_catch_log {T} (table : PrismaClient -> T) (m : M unit) :
  keeps table m -> keeps table (try_catch_log m).
Proof. intros H db. rewrite try_catch_log_run. apply H. Qed.

Lemma keeps_forEach {T A} (table : PrismaClient -> T) (l : list A) body :
  (forall x, keeps table (body x)) -> keeps table (forEach l body).
Proof.
  intro H. induction l as [|x l IH]; simpl.
  - apply keeps_ret.
  - apply keeps_bind; [apply H | intro; exact IH].
Qed.

(** A loop whose body never throws never throws. *)
Lemma forEach_ok {A} (l : list A) (body : A -> M unit) db :
  (forall x db0, fst (body x db0) = Ok tt) ->
  fst (forEach l body db) = Ok tt.
Proof.
  intro H. revert db. induction l as [|x l IH]; intro db; simpl.
  - reflexivity.
  - rewrite bind_run. specialize (H x db).
    destruct (body x db) as [[[]|e] db']; simpl in H; [apply IH|discriminate].
Qed.

Lemma scanAsset_ok provider chainRow addresses fromBlock currentBlock a db :
  fst (DepositMonitor.scanAsset provider chainRow addresses fromBlock
         currentBlock a db) = Ok tt.
Proof.
  unfold DepositMonitor.scanAsset.
  destruct (Asset.contractAddress a) as [c|]; [|reflexivity].
  destruct (_ || _); [reflexivity|].
  rewrite try_catch_log_run. reflexivity.
Qed.

Lemma keepsConfig_scanAsset provider chainRow addresses fromBlock
    currentBlock a :
  keeps systemConfig
    (DepositMonitor.scanAsset provider chainRow addresses fromBlock
       currentBlock a).
Proof.
  unfold DepositMonitor.scanAsset.
  destruct (Asset.contractAddress a) as [c|]; [|apply keeps_ret].
  destruct (_ || _); [apply keeps_ret|].
  apply keeps_try_catch_log, keeps_forEach. intros [b t].
  unfold DepositMonitor.scanChunk.
  destruct (DepositMonitor.queryFilter provider c _ _) as [events|e];
    [|apply keeps_throw].
  apply keeps_forEach. intro ev.
  unfold DepositMonitor.recordEvent. keeps_table.
Qed.

Lemma keepsConfig_recheck provider now chainRow currentBlock d :
  keeps systemConfig
    (DepositMonitor.recheckDeposit provider now chainRow currentBlock d).
Proof.
  unfold DepositMonitor.recheckDeposit, DepositMonitor.updateDeposit,
    RewardCalculator.ledgerEntry_create, BalanceService.upsert,
    BalanceService.findUnique.
  keeps_table.
Qed.

Lemma lastScanned_after_upsert chainId currentBlock db :
  exists db',
    DepositMonitor.upsertLastScanned chainId currentBlock db = (Ok tt, db')
    /\ DepositMonitor.lastScannedBlock chainId db' = Some currentBlock.
Proof.
  unfold DepositMonitor.upsertLastScanned, DepositMonitor.findConfig,
    DepositMonitor.lastScannedBlock.
  rewrite bind_run. unfold gets.
  destruct (find _ (systemConfig db)) as [c|] eqn:Hf.
  - eexists. split; [reflexivity|]. simpl.
    rewrite find_updateWhere by reflexivity. rewrite Hf. reflexivity.
  - eexists. split; [reflexivity|]. simpl.
    induction (systemConfig db) as [|x l IH]; simpl in *.
    + rewrite String.eqb_refl. reflexivity.
    + destruct (String.eqb (SystemConfig.key x) _); [discriminate|].
      apply IH, Hf.
Qed.

Lemma chunks_bounds fromBlock currentBlock r :
  In r (DepositMonitor.chunks fromBlock currentBlock) ->
  fromBlock <= fst r /\ fst r <= snd r /\ snd r <= currentBlock.
Proof.
  unfold DepositMonitor.chunks, DepositMonitor.chunkSize.
  destruct (currentBlock <? fromBlock) eqn:Hlt; [intros []|].
  apply Z.ltb_ge in Hlt. rewrite in_map_iff.
  intros (i & <- & Hi). apply in_seq in Hi. cbv zeta. cbn [fst snd].
  assert (Hq : Z.of_nat i <= (currentBlock - fromBlock) / 2000).
  { destruct Hi as [_ Hi]. simpl in Hi.
    assert (0 <= (currentBlock - fromBlock) / 2000)
      by (apply Z.div_pos; lia).
    lia. }
  assert (Hm : 2000 * Z.of_nat i <= currentBlock - fromBlock).
  { pose proof (Z.mul_div_le (currentBlock - fromBlock) 2000 ltac:(lia)).
    nia. }
  lia.
Qed.

(** C10.  Whatever the provider answers to the Transfer-log queries,
    throwing for some or all assets included, a pass that reads the head
    [head] and finds blocks to scan returns normally and leaves
    lastScannedBlock = [head].  From any such state (with [head] not 0)
    a later pass either finds no new blocks or scans from a block above
    [head]: every range it queries lies above [head], so a range whose
    logs failed to load is never queried again. *)
Theorem scan_marks_head_despite_query_errors
    provider now chainRow db head
    (Hhead : provider.(DepositMonitor.getBlockNumber) = Ok head)
    (Hnew : DepositMonitor.fromBlockOf
              (DepositMonitor.lastScannedOf
                 (find (fun c => String.eqb c.(SystemConfig.key)
                                   (DepositMonitor.configKey
                                      chainRow.(Chain.id)))
                       db.(systemConfig)) head) head <= head)
    (Hpos : head <> 0) :
  exists fromBlock db',
    DepositMonitor.scanChainDeposits provider now chainRow db
    = (Ok (DepositMonitor.Scanned fromBlock head), db')
    /\ DepositMonitor.lastScannedBlock chainRow.(Chain.id) db' = Some head
    /\ forall provider' now' head' db2,
         DepositMonitor.lastScannedBlock chainRow.(Chain.id) db2 = Some head ->
         provider'.(DepositMonitor.getBlockNumber) = Ok head' ->
         DepositMonitor.scanChainDeposits provider' now' chainRow db2
         = (Ok DepositMonitor.NoNewBlocks, db2)
         \/ exists fromBlock' db3,
              DepositMonitor.scanChainDeposits provider' now' chainRow db2
              = (Ok (DepositMonitor.Scanned fromBlock' head'), db3)
              /\ head < fromBlock'
              /\ forall r, In r (DepositMonitor.chunks fromBlock' head') ->
                           head < fst r.
Proof.
  assert (Hpass : forall p t d h,
    p.(DepositMonitor.getBlockNumber) = Ok h ->
    let fromBlock :=
      DepositMonitor.fromBlockOf
        (DepositMonitor.lastScannedOf
           (find (fun c => String.eqb c.(SystemConfig.key)
                             (DepositMonitor.configKey chainRow.(Chain.id)))
                 d.(systemConfig)) h) h in
    (h <? fromBlock) = false ->
    exists d',
      DepositMonitor.scanChainDeposits p t chainRow d
      = (Ok (DepositMonitor.Scanned fromBlock h), d')
      /\ DepositMonitor.lastScannedBlock chainRow.(Chain.id) d' = Some h).
  { intros p t d h Hh fromBlock Hge.
    unfold DepositMonitor.scanChainDeposits. rewrite Hh.
    rewrite bind_run. unfold DepositMonitor.findConfig, gets at 1. cbv beta.
    cbv zeta. fold fromBlock. rewrite Hge.
    rewrite bind_run. unfold gets at 1. cbv beta.
    rewrite bind_run. unfold gets at 1. cbv beta.
    rewrite bind_run.
    match goal with
    | |- context [forEach ?l ?body d] =>
        pose proof (forEach_ok l body d
                      (scanAsset_ok p chainRow _ fromBlock h)) as Hok;
        pose proof (keeps_forEach systemConfig l body
                      (keepsConfig_scanAsset p chainRow _ fromBlock h) d)
          as Hkeep;
        destruct (forEach l body d) as [r1 d1]
    end.
    simpl in Hok, Hkeep. subst r1.
    rewrite bind_run.
    destruct (lastScanned_after_upsert chainRow.(Chain.id) h d1)
      as (d2 & Eup & Hlast).
    rewrite Eup. rewrite bind_run. unfold gets at 1. cbv beta.
    rewrite bind_run.
    match goal with
    | |- context [forEach ?l ?body d2] =>
        pose proof (forEach_ok l body d2
                      (fun x d0 => f_equal fst (try_catch_log_run _ d0)))
          as Hok2;
        pose proof (keeps_forEach systemConfig l body
                      (fun x => keeps_try_catch_log systemConfig _
                                  (keepsConfig_recheck p t chainRow h x)) d2)
          as Hkeep2;
        destruct (forEach l body d2) as [r3 d3]
    end.
    simpl in Hok2, Hkeep2. subst r3.
    exists d3. split; [reflexivity|].
    unfold DepositMonitor.lastScannedBlock in *. rewrite Hkeep2. exact Hlast. }
  destruct (Hpass provider now db head Hhead) as (db' & Erun & Hlast).
  { apply Z.ltb_ge. exact Hnew. }
  eexists. exists db'. split; [exact Erun|]. split; [exact Hlast|].
  intros provider' now' head' db2 Hmark Hhead'.
  set (fromBlock' :=
    DepositMonitor.fromBlockOf
      (DepositMonitor.lastScannedOf
         (find (fun c => String.eqb c.(SystemConfig.key)
                           (DepositMonitor.configKey chainRow.(Chain.id)))
               db2.(systemConfig)) head') head').
  assert (Hfrom : head < fromBlock').
  { unfold fromBlock', DepositMonitor.fromBlockOf,
      DepositMonitor.lastScannedOf.
    unfold DepositMonitor.lastScannedBlock in Hmark.
    destruct (find _ (systemConfig db2)) as [c|]; [|discriminate].
    rewrite Hmark. rewrite (proj2 (Z.eqb_neq _ _) Hpos). lia. }
  destruct (head' <? fromBlock') eqn:Hcmp.
  - left. unfold DepositMonitor.scanChainDeposits. rewrite Hhead'.
    rewrite bind_run. unfold DepositMonitor.findConfig, gets at 1. cbv beta.
    cbv zeta. fold fromBlock'. rewrite Hcmp. reflexivity.
  - right. destruct (Hpass provider' now' db2 head' Hhead' Hcmp)
      as (db3 & Erun3 & _).
    exists fromBlock', db3. split; [exact Erun3|]. split; [exact Hfrom|].
    intros r Hr. apply chunks_bounds in Hr. lia.
Qed.

Lemma scan_marks_head_despite_query_errors_witness :
  exists fromBlock db',
    ScanScenario.firstPass = (Ok (DepositMonitor.Scanned fromBlock 10000), db')
    /\ DepositMonitor.lastScannedBlock "eth" db' = Some 10000.
Proof.
  destruct (scan_marks_head_despite_query_errors (ScanScenario.failing 10000)
              Scenario.t0 Scenario.eth ScanScenario.db 10000 eq_refl)
    as (fromBlock & db' & Erun & Hlast & _).
  - vm_compute. discriminate.
  - discriminate.
  - exists fromBlock, db'. split; [exact Erun | exact Hlast].
Defined.

(** The scenario, evaluated: with the failing provider the first pass
    covers blocks 9,001 to 10,000, stores no deposit and still marks
    10,000 as scanned; the second pass scans from 10,001 and never sees
    the transfer at block 9,500.  Had the first query answered, the
    deposit would have been recorded. *)
Lemma scan_failed_range_is_lost :
  fst ScanScenario.firstPass = Ok (DepositMonitor.Scanned 9001 10000)
  /\ (snd ScanScenario.firstPass).(deposit) = []
  /\ DepositMonitor.lastScannedBlock "eth" (snd ScanScenario.firstPass)
     = Some 10000
  /\ fst ScanScenario.secondPass = Ok (DepositMonitor.Scanned 10001 10030)
  /\ (snd ScanScenario.secondPass).(deposit) = []
  /\ map Deposit.txHash (snd ScanScenario.firstPassHealthy).(deposit)
     = ["0xfeed"].
Proof. repeat split; vm_compute; reflexivity. Qed.

(* ================================================================= *)
(** * Further properties of the services *)

(* ================================================================= *)
(** ** The balance cache against the ledger *)

Lemma whereKey_eq u a c b :
  BalanceService.whereKey u a c b = true <->
  b.(BalanceCache.userId) = u /\ b.(BalanceCache.assetId) = a
  /\ b.(BalanceCache.chainId) = c.
Proof.
  unfold BalanceService.whereKey.
  rewrite !andb_true_iff, !String.eqb_eq. tauto.
Qed.



(** A successful [createEntry] appends one row carrying the parameters,
    and touches no other table. *)
Lemma createEntry_ok params db e db1 :
  LedgerService.createEntry params db = (Ok e, db1) ->
  db1 = set_ledgerEntry (db.(ledgerEntry) ++ [e]) db
  /\ e.(LedgerEntry.userId) = params.(LedgerService.userId)
  /\ e.(LedgerEntry.assetId) = params.(LedgerService.assetId)
  /\ e.(LedgerEntry.chainId) = params.(LedgerService.chainId)
  /\ e.(LedgerEntry.entryType) = params.(LedgerService.entryType)
  /\ e.(LedgerEntry.direction) = params.(LedgerService.direction)
  /\ e.(LedgerEntry.amount) = params.(LedgerService.amount)
  /\ (0 < params.(LedgerService.amount))%Q.
Proof.
  rewrite createEntry_run.
  destruct (Dec.lessThanOrEqualTo _ 0) eqn:Hpos; [discriminate|].
  apply lessThanOrEqualTo_false in Hpos.
  destruct (LedgerService.userId params) as [uid|] eqn:Hu;
    destruct (LedgerService.direction params) eqn:Hd; cbv zeta;
    try (destruct (Dec.lessThan _ 0); [discriminate|]);
    intro H; injection H as <- <-; simpl; repeat split; auto.
Qed.


Lemma find_snoc {A} (q : A -> bool) l x :
  find q (l ++ [x]) =
  match find q l with
  | Some y => Some y
  | None => if q x then Some x else None
  end.
Proof.
  induction l as [|y l IH]; simpl.
  - reflexivity.
  - destruct (q y); [reflexivity | exact IH].
Qed.







Lemma balance_update_ok u a c f db db2 :
  BalanceService.update u a c f db = (Ok tt, db2) ->
  find (BalanceService.whereKey u a c) db.(balanceCache) <> None
  /\ db2 = set_balanceCache
             (updateWhere (BalanceService.whereKey u a c) f
                db.(balanceCache)) db.
Proof.
  unfold BalanceService.update, BalanceService.findUnique.
  rewrite bind_run. unfold gets.
  destruct (find _ (balanceCache db)) eqn:Hfind.
  - unfold modify. intro H. injection H as <-. split; [discriminate|].
    reflexivity.
  - discriminate.
Qed.

Lemma balance_upsert_run u a c create f db :
  BalanceService.upsert u a c create f db =
  (Ok tt,
   match find (BalanceService.whereKey u a c) db.(balanceCache) with
   | Some _ =>
       set_balanceCache
         (updateWhere (BalanceService.whereKey u a c) f db.(balanceCache)) db
   | None => set_balanceCache (db.(balanceCache) ++ [create]) db
   end).
Proof.
  unfold BalanceService.upsert, BalanceService.findUnique.
  rewrite bind_run. unfold gets.
  destruct (find _ (balanceCache db)); reflexivity.
Qed.








(* ================================================================= *)
(** ** Reserving funds *)



(* ================================================================= *)
(** ** A withdrawal request and its rejection *)

Ltac tables :=
  cbn [ledgerEntry balanceCache withdrawalRequest payoutTx notification
       stakePosition pool aprSchedule asset chain user twoFactorSecret
       recoveryCode session addressWhitelist depositAddress deposit
       systemConfig set_ledgerEntry set_balanceCache set_withdrawalRequest
       set_payoutTx set_notification set_stakePosition set_pool set_user
       set_recoveryCode set_session set_addressWhitelist set_deposit
       set_systemConfig].

Ltac tables_in H :=
  cbn [ledgerEntry balanceCache withdrawalRequest payoutTx notification
       stakePosition pool aprSchedule asset chain user twoFactorSecret
       recoveryCode session addressWhitelist depositAddress deposit
       systemConfig set_ledgerEntry set_balanceCache set_withdrawalRequest
       set_payoutTx set_notification set_stakePosition set_pool set_user
       set_recoveryCode set_session set_addressWhitelist set_deposit
       set_systemConfig] in H.





Lemma withdrawalRequest_update_run id data row db :
  find (fun r => String.eqb r.(WithdrawalRequest.id) id)
       db.(withdrawalRequest) = Some row ->
  WithdrawalsService.update id data db =
  (Ok (data row),
   set_withdrawalRequest
     (updateWhere (fun r => String.eqb r.(WithdrawalRequest.id) id) data
        db.(withdrawalRequest)) db).
Proof.
  intro H. unfold WithdrawalsService.update, WithdrawalsService.findById.
  rewrite bind_run. unfold gets. rewrite H. reflexivity.
Qed.



(* ================================================================= *)
(** ** Reconciliation of the cache: reconcileBalance, checkReconciliation *)

Lemma checkBalance_run u acc b db :
  LedgerReconcile.checkBalance u acc b db =
  (Ok (if negb (Dec.equals b.(BalanceCache.available)
                  (calculatedAvailableOf db u b.(BalanceCache.assetId)
                     b.(BalanceCache.chainId)))
       then acc ++
            [LedgerReconcile.mkDiscrepancy b.(BalanceCache.assetId)
               b.(BalanceCache.chainId) b.(BalanceCache.available)
               (calculatedAvailableOf db u b.(BalanceCache.assetId)
                  b.(BalanceCache.chainId))
               (Dec.sub b.(BalanceCache.available)
                  (calculatedAvailableOf db u b.(BalanceCache.assetId)
                     b.(BalanceCache.chainId)))]
       else acc), db).
Proof.
  unfold LedgerReconcile.checkBalance, calculatedAvailableOf.
  rewrite bind_run. unfold executeInTransaction.
  rewrite calculateBalance_run. rewrite bind_run. unfold gets at 1.
  rewrite bind_run. unfold gets at 1. cbv zeta.
  destruct (negb _); reflexivity.
Qed.

Lemma foldM_checkBalance u l acc db :
  exists ds,
    foldM (LedgerReconcile.checkBalance u) l acc db = (Ok ds, db)
    /\ forall d, In d ds <->
                 In d acc \/ exists b, In b l /\ reportedFor db u d b.
Proof.
  revert acc. induction l as [|b l IH]; intro acc; simpl.
  - exists acc. split; [reflexivity|]. intro d. split; [auto|].
    intros [H|(b & [] & _)]. exact H.
  - rewrite bind_run, checkBalance_run.
    match goal with
    | |- context [foldM _ l ?acc' db] => destruct (IH acc') as (ds & Hrun & Hin)
    end.
    exists ds. split; [exact Hrun|]. intro d. rewrite Hin. clear Hin Hrun.
    unfold reportedFor.
    destruct (Dec.equals _ _) eqn:Heq; simpl.
    + split.
      * intros [H|(x & Hx & Hr)]; [left; exact H|].
        right. exists x. split; [right; exact Hx | exact Hr].
      * intros [H|(x & [->|Hx] & Hr)]; [left; exact H | |].
        -- destruct Hr as [Hr _]. congruence.
        -- right. exists x. split; assumption.
    + rewrite in_app_iff. simpl. split.
      * intros [[H|[H|[]]]|(x & Hx & Hr)].
        -- left. exact H.
        -- right. exists b. split; [left; reflexivity|].
           split; [exact Heq | symmetry; exact H].
        -- right. exists x. split; [right; exact Hx | exact Hr].
      * intros [H|(x & [->|Hx] & Hr)].
        -- left. left. exact H.
        -- left. right. left. symmetry. apply Hr.
        -- right. exists x. split; assumption.
Qed.

Lemma checkReconciliation_run u db :
  exists ds,
    LedgerReconcile.checkReconciliation u db = (Ok ds, db)
    /\ forall d, In d ds <->
                 exists b, In b db.(balanceCache)
                           /\ b.(BalanceCache.userId) = u
                           /\ reportedFor db u d b.
Proof.
  unfold LedgerReconcile.checkReconciliation. rewrite bind_run.
  unfold gets at 1.
  destruct (foldM_checkBalance u
              (filter (fun b => String.eqb b.(BalanceCache.userId) u)
                 db.(balanceCache)) [] db) as (ds & Hrun & Hin).
  exists ds. split; [exact Hrun|]. intro d. rewrite Hin. split.
  - intros [[]|(b & Hb & Hr)]. apply filter_In in Hb as [Hb Hu].
    apply String.eqb_eq in Hu. exists b. auto.
  - intros (b & Hb & Hu & Hr). right. exists b. split; [|exact Hr].
    apply filter_In. split; [exact Hb|]. apply String.eqb_eq, Hu.
Qed.

Lemma In_updateWhere {A} (p : A -> bool) (f : A -> A) l y :
  In y (updateWhere p f l) ->
  (exists x, In x l /\ p x = true /\ y = f x)
  \/ (In y l /\ p y = false).
Proof.
  unfold updateWhere. rewrite in_map_iff. intros (x & Hy & Hx).
  destruct (p x) eqn:Hp.
  - left. exists x. auto.
  - right. subst y. auto.
Qed.

Lemma find_none_all {A} (p : A -> bool) l :
  find p l = None -> forall x, In x l -> p x = false.
Proof. intros H x Hx. exact (find_none p l H x Hx). Qed.

Lemma reconcileBalance_run u a c db :
  let av := calculatedAvailableOf db u a c in
  let st := LedgerReconcile.stakedAmountOf db u a in
  let rw := LedgerReconcile.rewardsAccruedOf db u a in
  let pd := LedgerReconcile.pendingWithdrawalsOf db u a in
  exists row,
    LedgerReconcile.reconcileBalance u a c db =
    (Ok row,
     set_balanceCache
       (match find (BalanceService.whereKey u a c) db.(balanceCache) with
        | Some _ =>
            updateWhere (BalanceService.whereKey u a c)
              (LedgerReconcile.setBuckets av st rw pd) db.(balanceCache)
        | None =>
            db.(balanceCache) ++ [BalanceCache.mk u a c av st rw pd]
        end) db)
    /\ bucketsOf row = ReconcileScript.mkBuckets av st rw pd.
Proof.
  cbv zeta.
  unfold LedgerReconcile.reconcileBalance, executeInTransaction,
    calculatedAvailableOf.
  rewrite bind_run, calculateBalance_run.
  rewrite bind_run. unfold gets at 1.
  rewrite bind_run. unfold gets at 1.
  rewrite bind_run. unfold gets at 1. cbv zeta.
  unfold LedgerReconcile.balanceCache_upsert, BalanceService.findUnique.
  rewrite bind_run. unfold gets at 1.
  destruct (find _ (balanceCache db)) as [b|]; eexists;
    (split; [reflexivity|]); reflexivity.
Qed.

(** X4.  [reconcileBalance] always succeeds; the row it answers holds
    the ledger balance less active stakes and withdrawals in flight as
    available, and the three sums as staked, rewards and pending; it
    writes the cache only; and right afterwards [checkReconciliation]
    for that user changes nothing and reports no discrepancy for the
    reconciled asset and chain. *)
Theorem reconcileBalance_then_check_is_clean
    (u a c : string) (db : PrismaClient) :
  exists row db' ds,
    LedgerReconcile.reconcileBalance u a c db = (Ok row, db')
    /\ bucketsOf row =
       ReconcileScript.mkBuckets (calculatedAvailableOf db u a c)
         (LedgerReconcile.stakedAmountOf db u a)
         (LedgerReconcile.rewardsAccruedOf db u a)
         (LedgerReconcile.pendingWithdrawalsOf db u a)
    /\ balanceOf u a c db' <> None
    /\ set_balanceCache db.(balanceCache) db' = db
    /\ LedgerReconcile.checkReconciliation u db' = (Ok ds, db')
    /\ forall d, In d ds ->
         ~ (d.(LedgerReconcile.assetId) = a
            /\ d.(LedgerReconcile.chainId) = c).
Proof.
  destruct (reconcileBalance_run u a c db) as (row & Hrun & Hrow).
  cbv zeta in Hrun, Hrow.
  match type of Hrun with _ = (_, ?d) => set (db' := d) in * end.
  destruct (checkReconciliation_run u db') as (ds & Hcheck & Hin).
  exists row, db', ds. split; [exact Hrun|]. split; [exact Hrow|].
  split.
  { unfold balanceOf, db'. tables.
    destruct (find _ (balanceCache db)) as [b|] eqn:Hfind.
    - rewrite find_updateWhere by (intro; reflexivity). rewrite Hfind.
      discriminate.
    - rewrite find_snoc, Hfind.
      assert (BalanceService.whereKey u a c
                {| BalanceCache.userId := u; BalanceCache.assetId := a;
                   BalanceCache.chainId := c;
                   BalanceCache.available := calculatedAvailableOf db u a c;
                   BalanceCache.staked :=
                     LedgerReconcile.stakedAmountOf db u a;
                   BalanceCache.rewardsAccrued :=
                     LedgerReconcile.rewardsAccruedOf db u a;
                   BalanceCache.withdrawalsPending :=
                     LedgerReconcile.pendingWithdrawalsOf db u a |} = true)
        as -> by (apply whereKey_eq; auto).
      discriminate. }
  split; [destruct db; reflexivity|].
  split; [exact Hcheck|].
  intros d Hd [Ha Hc]. apply Hin in Hd as (b & Hb & Hu & Hneq & ->).
  simpl in Ha, Hc.
  assert (Hkey : BalanceService.whereKey u a c b = true)
    by (apply whereKey_eq; auto).
  assert (Hav : b.(BalanceCache.available) = calculatedAvailableOf db u a c).
  { unfold db' in Hb. tables.
    simpl in Hb. destruct (find _ (balanceCache db)) eqn:Hfind.
    - apply In_updateWhere in Hb as [(x & _ & _ & ->)|[_ Hno]];
        [reflexivity | congruence].
    - apply in_app_iff in Hb as [Hb|[<-|[]]]; [|reflexivity].
      pose proof (find_none_all _ _ Hfind b Hb). congruence. }
  rewrite Ha, Hc, Hav in Hneq.
  change (calculatedAvailableOf db' u a c)
    with (calculatedAvailableOf db u a c) in Hneq.
  unfold Dec.equals in Hneq.
  assert (Qeq_bool (calculatedAvailableOf db u a c)
            (calculatedAvailableOf db u a c) = true)
    by (apply Qeq_bool_iff; reflexivity).
  congruence.
Qed.




(* ================================================================= *)
(** ** The running balance column of the ledger *)



(* ================================================================= *)
(** ** Review of a withdrawal request: decided once *)

Lemma approveRequest_guard now id adminId notes db row :
  find (fun r => String.eqb r.(WithdrawalRequest.id) id)
       db.(withdrawalRequest) = Some row ->
  row.(WithdrawalRequest.status) <> PENDING_REVIEW ->
  WithdrawalsService.approveRequest now id adminId notes db
  = (Throw (BadRequestException
              ("Cannot approve request in status: "
               ++ WithdrawalsService.statusName
                    row.(WithdrawalRequest.status))%string), db).
Proof.
  intros Hfind Hst.
  unfold WithdrawalsService.approveRequest, executeInTransaction.
  rewrite bind_run. unfold WithdrawalsService.findById, gets.
  rewrite Hfind.
  destruct (WithdrawalRequest.status row); try reflexivity; contradiction.
Qed.

Lemma rejectRequest_guard now id adminId notes db row :
  find (fun r => String.eqb r.(WithdrawalRequest.id) id)
       db.(withdrawalRequest) = Some row ->
  row.(WithdrawalRequest.status) <> PENDING_REVIEW ->
  WithdrawalsService.rejectRequest now id adminId notes db
  = (Throw (BadRequestException
              ("Cannot reject request in status: "
               ++ WithdrawalsService.statusName
                    row.(WithdrawalRequest.status))%string), db).
Proof.
  intros Hfind Hst.
  unfold WithdrawalsService.rejectRequest, executeInTransaction.
  rewrite bind_run. unfold WithdrawalsService.findById, gets.
  rewrite Hfind.
  destruct (WithdrawalRequest.status row); try reflexivity; contradiction.
Qed.

Lemma keepsRequests_release u a c amount id :
  keeps withdrawalRequest
    (BalanceService.releaseReservedFunds u a c amount id).
Proof.
  unfold BalanceService.releaseReservedFunds, BalanceService.update,
    BalanceService.findUnique.
  repeat first [ apply keepsRequests_createEntry | progress keeps_table ].
Qed.

Lemma approveRequest_ok now id adminId notes db r db1 :
  WithdrawalsService.approveRequest now id adminId notes db = (Ok r, db1) ->
  exists row,
    find (fun r => String.eqb r.(WithdrawalRequest.id) id)
         db.(withdrawalRequest) = Some row
    /\ row.(WithdrawalRequest.status) = PENDING_REVIEW
    /\ r = WithdrawalsService.setReview APPROVED adminId now notes row
    /\ db1 = set_withdrawalRequest
               (updateWhere (fun r => String.eqb r.(WithdrawalRequest.id) id)
                  (WithdrawalsService.setReview APPROVED adminId now notes)
                  db.(withdrawalRequest)) db.
Proof.
  unfold WithdrawalsService.approveRequest, executeInTransaction.
  rewrite bind_run. unfold WithdrawalsService.findById at 1, gets at 1.
  destruct (find _ (withdrawalRequest db)) as [row|] eqn:Hfind;
    [|discriminate].
  destruct (WithdrawalRequest.status row) eqn:Hst; try discriminate.
  rewrite (withdrawalRequest_update_run _ _ row) by exact Hfind.
  intro H. injection H as <- <-. exists row. auto.
Qed.

Lemma rejectRequest_ok now id adminId notes db r db1 :
  WithdrawalsService.rejectRequest now id adminId notes db = (Ok r, db1) ->
  exists row,
    find (fun r => String.eqb r.(WithdrawalRequest.id) id)
         db.(withdrawalRequest) = Some row
    /\ row.(WithdrawalRequest.status) = PENDING_REVIEW
    /\ r = WithdrawalsService.setReview REJECTED adminId now (Some notes) row
    /\ db1.(withdrawalRequest)
       = updateWhere (fun r => String.eqb r.(WithdrawalRequest.id) id)
           (WithdrawalsService.setReview REJECTED adminId now (Some notes))
           db.(withdrawalRequest).
Proof.
  unfold WithdrawalsService.rejectRequest, executeInTransaction.
  rewrite bind_run. unfold WithdrawalsService.findById at 1, gets at 1.
  destruct (find _ (withdrawalRequest db)) as [row|] eqn:Hfind;
    [|discriminate].
  destruct (WithdrawalRequest.status row) eqn:Hst; try discriminate.
  rewrite bind_run.
  rewrite (withdrawalRequest_update_run _ _ row) by exact Hfind.
  rewrite bind_run.
  match goal with
  | |- context [BalanceService.releaseReservedFunds ?u ?a ?c ?x ?i ?d] =>
      pose proof (keepsRequests_release u a c x i d) as Hk;
      destruct (BalanceService.releaseReservedFunds u a c x i d)
        as [[[]|ex] db2]
  end; [|discriminate].
  unfold ret. intro H. injection H as <- <-. exists row.
  repeat split; auto.
Qed.

(** X7.  A withdrawal request is decided once.  After [approveRequest]
    or [rejectRequest] has succeeded on a request, the request is no
    longer PENDING_REVIEW, and every further [approveRequest] or
    [rejectRequest] on it throws BadRequest naming the status and
    leaves every table as it was: reserved funds are released at most
    once. *)
Theorem request_is_decided_once
    now now' id adminId adminId' notesA notesR notesA' notesR' db r db1
    (Hdecided :
       WithdrawalsService.approveRequest now id adminId notesA db
       = (Ok r, db1)
       \/ WithdrawalsService.rejectRequest now id adminId notesR db
          = (Ok r, db1)) :
  statusOf id db = Some PENDING_REVIEW
  /\ exists st,
       statusOf id db1 = Some st /\ (st = APPROVED \/ st = REJECTED)
       /\ WithdrawalsService.approveRequest now' id adminId' notesA' db1
          = (Throw (BadRequestException
                      ("Cannot approve request in status: "
                       ++ WithdrawalsService.statusName st)%string), db1)
       /\ WithdrawalsService.rejectRequest now' id adminId' notesR' db1
          = (Throw (BadRequestException
                      ("Cannot reject request in status: "
                       ++ WithdrawalsService.statusName st)%string), db1).
Proof.
  assert (exists row st,
            find (fun r => String.eqb r.(WithdrawalRequest.id) id)
                 db.(withdrawalRequest) = Some row
            /\ row.(WithdrawalRequest.status) = PENDING_REVIEW
            /\ (st = APPROVED \/ st = REJECTED)
            /\ exists row1,
                 find (fun r => String.eqb r.(WithdrawalRequest.id) id)
                      db1.(withdrawalRequest) = Some row1
                 /\ row1.(WithdrawalRequest.status) = st)
    as (row & st & Hfind & Hpending & Hst & row1 & Hfind1 & Hst1).
  { destruct Hdecided as [H|H].
    - apply approveRequest_ok in H as (row & Hfind & Hp & _ & ->).
      exists row, APPROVED. repeat split; auto.
      eexists. split.
      + tables. rewrite find_updateWhere by (intro; reflexivity).
        rewrite Hfind. reflexivity.
      + reflexivity.
    - apply rejectRequest_ok in H as (row & Hfind & Hp & _ & Hrows).
      exists row, REJECTED. repeat split; auto.
      eexists. split.
      + rewrite Hrows. rewrite find_updateWhere by (intro; reflexivity).
        rewrite Hfind. reflexivity.
      + reflexivity. }
  split; [unfold statusOf; rewrite Hfind; simpl; congruence|].
  exists st. split; [unfold statusOf; rewrite Hfind1; simpl; congruence|].
  split; [exact Hst|].
  assert (WithdrawalRequest.status row1 <> PENDING_REVIEW)
    by (rewrite Hst1; destruct Hst; subst; discriminate).
  rewrite <- Hst1. split.
  - apply approveRequest_guard; assumption.
  - apply rejectRequest_guard; assumption.
Qed.

Lemma request_is_decided_once_witness :
  statusOf "wr-1" Scenario.requested = Some PENDING_REVIEW
  /\ exists st,
       statusOf "wr-1" Scenario.approved = Some st
       /\ (st = APPROVED \/ st = REJECTED)
       /\ WithdrawalsService.approveRequest (Scenario.t0 + 5) "wr-1"
            "admin-2" None Scenario.approved
          = (Throw (BadRequestException
                      ("Cannot approve request in status: "
                       ++ WithdrawalsService.statusName st)%string),
             Scenario.approved)
       /\ WithdrawalsService.rejectRequest (Scenario.t0 + 5) "wr-1"
            "admin-2" "changed my mind" Scenario.approved
          = (Throw (BadRequestException
                      ("Cannot reject request in status: "
                       ++ WithdrawalsService.statusName st)%string),
             Scenario.approved).
Proof.
  eapply (request_is_decided_once (Scenario.t0 + 1) (Scenario.t0 + 5) "wr-1"
            "admin-1" "admin-2" None "no" None "changed my mind"
            Scenario.requested).
  left. vm_compute. reflexivity.
Defined.

(* ================================================================= *)
(** ** The payout worker: each step acts once *)

Lemma find_exists {A} (p : A -> bool) l x :
  In x l -> p x = true -> exists y, find p l = Some y.
Proof.
  intros Hin Hp. destruct (find p l) as [y|] eqn:Hfind.
  - exists y. reflexivity.
  - pose proof (find_none p l Hfind x Hin). congruence.
Qed.

Lemma statusOf_find id db st :
  statusOf id db = Some st ->
  exists row,
    find (fun r => String.eqb r.(WithdrawalRequest.id) id)
         db.(withdrawalRequest) = Some row
    /\ row.(WithdrawalRequest.status) = st.
Proof.
  unfold statusOf.
  destruct (find _ (withdrawalRequest db)) as [row|]; [|discriminate].
  simpl. intro H. injection H as <-. exists row. auto.
Qed.

Lemma processPayout_skips now newId id outcome db st :
  statusOf id db = Some st -> st <> APPROVED ->
  PayoutProcessor.processPayout now newId id outcome db = (Ok None, db).
Proof.
  intros Hst Hne. apply statusOf_find in Hst as (row & Hfind & <-).
  unfold PayoutProcessor.processPayout. rewrite bind_run.
  unfold WithdrawalsService.findById at 1, gets at 1. rewrite Hfind.
  destruct (WithdrawalRequest.status row); try reflexivity; contradiction.
Qed.

(** The [catch] block of [processPayout]: it records the failure on the
    payout row of the request, sets the request FAILED and rethrows. *)
Lemma processPayout_catch id newId error message row db :
  find (fun r => String.eqb r.(WithdrawalRequest.id) id)
       db.(withdrawalRequest) = Some row ->
  exists payouts,
    (existing <- PayoutProcessor.findPayoutByRequest id ;;
     match existing with
     | None =>
         modify (fun db =>
           set_payoutTx
             (db.(payoutTx)
              ++ [PayoutTx.mk newId id None None None PayoutFAILED 0
                    (Some message) None None 1]) db)
     | Some p =>
         PayoutProcessor.updatePayout p.(PayoutTx.id)
           (PayoutProcessor.setFailed message)
     end ;;;
     WithdrawalsService.update id (WithdrawalsService.setStatus FAILED) ;;;
     throw error) db
    = (@Throw (option string) error,
       set_withdrawalRequest
         (updateWhere (fun r => String.eqb r.(WithdrawalRequest.id) id)
            (WithdrawalsService.setStatus FAILED) db.(withdrawalRequest))
         (set_payoutTx payouts db)).
Proof.
  intro Hfind. rewrite bind_run.
  unfold PayoutProcessor.findPayoutByRequest at 1, gets at 1.
  destruct (find _ (payoutTx db)) as [p|] eqn:Hp; rewrite bind_run.
  - apply find_some in Hp as [Hin _].
    destruct (find_exists (fun q => String.eqb q.(PayoutTx.id) p.(PayoutTx.id))
                _ p Hin (String.eqb_refl _)) as (y & Hy).
    unfold PayoutProcessor.updatePayout. rewrite bind_run.
    unfold gets at 1. rewrite Hy. unfold modify at 1.
    rewrite bind_run.
    erewrite withdrawalRequest_update_run by (tables; exact Hfind).
    eexists. reflexivity.
  - unfold modify at 1. rewrite bind_run.
    erewrite withdrawalRequest_update_run by (tables; exact Hfind).
    eexists. reflexivity.
Qed.

(** X8.  [processPayout] acts once on an approved request.  Run on an
    APPROVED request it never answers "skipped": it either answers the
    hash of the broadcast transaction with the request SENT, or throws
    with the request FAILED; it writes neither the ledger nor the
    balance cache.  Whatever the first run did, any later run on that
    request (a queue retry included) skips: it answers nothing and
    leaves every table as it is. *)
Theorem processPayout_acts_once
    now newId id outcome db
    (Happroved : statusOf id db = Some APPROVED) :
  let r := fst (PayoutProcessor.processPayout now newId id outcome db) in
  let db1 := snd (PayoutProcessor.processPayout now newId id outcome db) in
  match r with
  | Ok (Some txHash) =>
      (exists nonce, outcome = PayoutProcessor.Sent txHash nonce)
      /\ statusOf id db1 = Some SENT
  | Ok None => False
  | Throw _ => statusOf id db1 = Some FAILED
  end
  /\ db1.(ledgerEntry) = db.(ledgerEntry)
  /\ db1.(balanceCache) = db.(balanceCache)
  /\ forall now' newId' outcome',
       PayoutProcessor.processPayout now' newId' id outcome' db1
       = (Ok None, db1).
Proof.
  cbv zeta.
  assert (Hgoal :
    exists r db1 st,
      PayoutProcessor.processPayout now newId id outcome db = (r, db1)
      /\ statusOf id db1 = Some st
      /\ match r with
         | Ok (Some txHash) =>
             (exists nonce, outcome = PayoutProcessor.Sent txHash nonce)
             /\ st = SENT
         | Ok None => False
         | Throw _ => st = FAILED
         end
      /\ db1.(ledgerEntry) = db.(ledgerEntry)
      /\ db1.(balanceCache) = db.(balanceCache)).
  { apply statusOf_find in Happroved as (row & Hfind & Hst).
    unfold PayoutProcessor.processPayout. rewrite bind_run.
    unfold WithdrawalsService.findById at 1, gets at 1. rewrite Hfind, Hst.
    rewrite bind_run.
    rewrite (withdrawalRequest_update_run _ _ row) by exact Hfind.
    set (byId := fun r : WithdrawalRequest.t =>
                   String.eqb r.(WithdrawalRequest.id) id) in *.
    set (db' := set_withdrawalRequest _ db).
    assert (Hfind' : find byId db'.(withdrawalRequest)
                     = Some (WithdrawalsService.setStatus PROCESSING row)).
    { unfold db'. tables. rewrite find_updateWhere by (intro; reflexivity).
      rewrite Hfind. reflexivity. }
    assert (Hstatus : forall s payouts rows,
      find byId rows = Some (WithdrawalsService.setStatus PROCESSING row) ->
      statusOf id
        (set_withdrawalRequest
           (updateWhere byId (WithdrawalsService.setStatus s) rows)
           (set_payoutTx payouts db')) = Some s).
    { intros s payouts rows Hrows. unfold statusOf. tables. fold byId.
      rewrite find_updateWhere by (intro; reflexivity).
      rewrite Hrows. reflexivity. }
    unfold try_catch.
    destruct outcome as [txHash nonce|message].
    - rewrite bind_run. unfold PayoutProcessor.createPayout.
      rewrite bind_run.
      unfold PayoutProcessor.findPayoutByRequest at 1, gets at 1.
      destruct (find _ (payoutTx db')) as [p|] eqn:Hp.
      + unfold throw at 1.
        destruct (processPayout_catch id newId
                    (Error "Unique constraint failed")
                    "Unique constraint failed" _ db' Hfind')
          as (payouts & Hcatch).
        cbv beta iota zeta. rewrite Hcatch.
        do 2 eexists. exists FAILED. split; [reflexivity|].
        split; [apply Hstatus; exact Hfind'|]. auto.
      + unfold modify at 1. rewrite bind_run.
        erewrite withdrawalRequest_update_run by (tables; exact Hfind').
        unfold ret. do 2 eexists. exists SENT. split; [reflexivity|].
        split.
        { tables. apply (Hstatus SENT). exact Hfind'. }
        split; [split; [exists nonce; reflexivity | reflexivity]|]. auto.
    - unfold throw at 1.
      destruct (processPayout_catch id newId (Error message) message _ db'
                  Hfind') as (payouts & Hcatch).
      cbv beta iota zeta. rewrite Hcatch.
      do 2 eexists. exists FAILED. split; [reflexivity|].
      split; [apply Hstatus; exact Hfind'|]. auto. }
  destruct Hgoal as (r & db1 & st & Hrun & Hst & Hr & Hl & Hb).
  rewrite Hrun. cbn [fst snd].
  split.
  { destruct r as [[h|]|ex]; [| exact Hr |]; rewrite Hst.
    - destruct Hr as [Hn ->]. auto.
    - rewrite Hr. reflexivity. }
  split; [exact Hl|]. split; [exact Hb|].
  intros now' newId' outcome'.
  apply (processPayout_skips _ _ _ _ _ st Hst).
  destruct r as [[h|]|ex]; [destruct Hr as [_ ->] | contradiction | subst st];
    discriminate.
Qed.

Lemma processPayout_acts_once_witness :
  fst (PayoutProcessor.processPayout (Scenario.t0 + 2) "ptx-1" "wr-1"
         (PayoutProcessor.Sent "0xabc" 7) Scenario.approved)
  = Ok (Some "0xabc")
  /\ statusOf "wr-1" Scenario.sent = Some SENT
  /\ PayoutProcessor.processPayout (Scenario.t0 + 9) "ptx-2" "wr-1"
       (PayoutProcessor.Sent "0xdef" 8) Scenario.sent
     = (Ok None, Scenario.sent).
Proof.
  pose proof (processPayout_acts_once (Scenario.t0 + 2) "ptx-1" "wr-1"
                (PayoutProcessor.Sent "0xabc" 7) Scenario.approved) as H.
  cbv zeta in H.
  assert (Hrun : fst (PayoutProcessor.processPayout (Scenario.t0 + 2) "ptx-1"
                        "wr-1" (PayoutProcessor.Sent "0xabc" 7)
                        Scenario.approved) = Ok (Some "0xabc"))
    by (vm_compute; reflexivity).
  rewrite Hrun in H.
  destruct H as ((_ & Hsent) & _ & _ & Hagain);
    [vm_compute; reflexivity|].
  split; [reflexivity|]. split; [exact Hsent|]. apply Hagain.
Defined.

Lemma find_updateWhere_hit {A} (p q : A -> bool) (f : A -> A) l x :
  (forall y, q (f y) = q y) ->
  find q l = Some x -> p x = true ->
  find q (updateWhere p f l) = Some (f x).
Proof.
  intros Hq. unfold updateWhere. induction l as [|y l IH]; simpl.
  - discriminate.
  - destruct (q y) eqn:Hy.
    + intros H Hp. injection H as ->. rewrite Hp, Hq, Hy. reflexivity.
    + intros H Hp. assert (q (if p y then f y else y) = false) as ->
        by (destruct (p y); [rewrite Hq|]; exact Hy).
      apply IH; assumption.
Qed.

Lemma transaction_ok {A} (m : M A) db a db1 :
  executeInTransaction m db = (Ok a, db1) -> m db = (Ok a, db1).
Proof.
  unfold executeInTransaction. destruct (m db) as [[a'|e] db'];
    [auto | discriminate].
Qed.

Lemma updatePayout_ok id f db db1 :
  PayoutProcessor.updatePayout id f db = (Ok tt, db1) ->
  db1 = set_payoutTx
          (updateWhere (fun p => String.eqb p.(PayoutTx.id) id) f
             db.(payoutTx)) db.
Proof.
  unfold PayoutProcessor.updatePayout. rewrite bind_run. unfold gets at 1.
  destruct (find _ (payoutTx db)); [|discriminate].
  unfold modify. intro H. injection H as <-. reflexivity.
Qed.

Lemma keepsPayouts_withdrawal_update id data :
  keeps payoutTx (WithdrawalsService.update id data).
Proof.
  unfold WithdrawalsService.update, WithdrawalsService.findById.
  keeps_table.
Qed.

Lemma keepsPayouts_balance_update u a c data :
  keeps payoutTx (BalanceService.update u a c data).
Proof.
  unfold BalanceService.update, BalanceService.findUnique. keeps_table.
Qed.

Lemma keepsPayouts_notification_create n :
  keeps payoutTx (PayoutProcessor.notification_create n).
Proof. unfold PayoutProcessor.notification_create. keeps_table. Qed.

(** A successful [checkPayoutStatus] found the payout already final, or
    has just made it final. *)
Lemma checkPayoutStatus_ok now txHash receipt currentBlock db db1 :
  PayoutProcessor.checkPayoutStatus now txHash receipt currentBlock db
  = (Ok tt, db1) ->
  exists payout,
    find (fun p => option_eqb String.eqb p.(PayoutTx.txHash) (Some txHash))
         db1.(payoutTx) = Some payout
    /\ (payout.(PayoutTx.status) = PayoutCONFIRMED
        \/ payout.(PayoutTx.status) = PayoutFAILED).
Proof.
  unfold PayoutProcessor.checkPayoutStatus. intro Hrun.
  apply bind_ok_inv in Hrun as (payout & db0 & Hfind & Hrun).
  unfold PayoutProcessor.findPayoutByTxHash, gets in Hfind.
  injection Hfind as Hfind <-.
  destruct payout as [payout|]; [|discriminate].
  assert (Hmove :
    forall f,
      (forall y, (f y).(PayoutTx.txHash) = y.(PayoutTx.txHash)) ->
      find (fun p => option_eqb String.eqb p.(PayoutTx.txHash) (Some txHash))
           (updateWhere
              (fun p => String.eqb p.(PayoutTx.id) payout.(PayoutTx.id)) f
              db.(payoutTx)) = Some (f payout)).
  { intros f Hf. apply find_updateWhere_hit; [|exact Hfind|].
    - intro y. rewrite Hf. reflexivity.
    - apply String.eqb_refl. }
  assert (Hlive :
    (req <- WithdrawalsService.findById
              payout.(PayoutTx.withdrawalRequestId) ;;
     match req with
     | None => throw (Error "foreign key: withdrawalRequest")
     | Some req =>
     chainRow <- gets (fun db =>
       find (fun c => String.eqb c.(Chain.id)
                        req.(WithdrawalRequest.chainId)) db.(chain)) ;;
     match chainRow with
     | None => throw (Error "foreign key: chain")
     | Some chainRow =>
     match receipt with
     | None => throw (Error "Transaction not yet mined")
     | Some receipt =>
         let confirmations :=
           currentBlock - receipt.(PayoutProcessor.blockNumber) + 1 in
         if receipt.(PayoutProcessor.status) =? 0 then
           executeInTransaction (
             PayoutProcessor.updatePayout payout.(PayoutTx.id)
               (PayoutProcessor.setReverted confirmations) ;;;
             WithdrawalsService.update
               payout.(PayoutTx.withdrawalRequestId)
               (WithdrawalsService.setStatus FAILED) ;;;
             ret tt)
         else if chainRow.(Chain.confirmationsRequired) <=? confirmations
         then
           executeInTransaction (
             PayoutProcessor.updatePayout payout.(PayoutTx.id)
               (PayoutProcessor.setConfirmed now confirmations
                  receipt.(PayoutProcessor.gasUsed)) ;;;
             WithdrawalsService.update
               payout.(PayoutTx.withdrawalRequestId)
               (WithdrawalsService.setStatus COMPLETED) ;;;
             BalanceService.update req.(WithdrawalRequest.userId)
               req.(WithdrawalRequest.assetId)
               req.(WithdrawalRequest.chainId)
               (BalanceService.decWithdrawalsPending
                  req.(WithdrawalRequest.amount)) ;;;
             PayoutProcessor.notification_create
               (Notification.mk req.(WithdrawalRequest.userId)
                  "withdrawal_completed" "Withdrawal Completed"
                  (match payout.(PayoutTx.txHash) with
                   | Some h => [("txHash", JString h)]
                   | None => []
                   end
                   ++ [("withdrawalRequestId",
                        JString payout.(PayoutTx.withdrawalRequestId))])))
         else
           PayoutProcessor.updatePayout payout.(PayoutTx.id)
             (PayoutProcessor.setPayoutStatus PayoutCONFIRMING confirmations)
           ;;;
           WithdrawalsService.update
             payout.(PayoutTx.withdrawalRequestId)
             (WithdrawalsService.setStatus CONFIRMING) ;;;
           throw (Error "Waiting for confirmations")
     end end end) db = (Ok tt, db1) ->
    exists payout',
      find (fun p => option_eqb String.eqb p.(PayoutTx.txHash) (Some txHash))
           db1.(payoutTx) = Some payout'
      /\ (payout'.(PayoutTx.status) = PayoutCONFIRMED
          \/ payout'.(PayoutTx.status) = PayoutFAILED)).
  { clear Hrun. intro Hrun.
    apply bind_ok_inv in Hrun as (req & db0 & Hreq & Hrun).
    unfold WithdrawalsService.findById, gets in Hreq.
    injection Hreq as _ <-.
    destruct req as [req|]; [|discriminate].
    apply bind_ok_inv in Hrun as (chainRow & db0 & Hchain & Hrun).
    unfold gets in Hchain. injection Hchain as _ <-.
    destruct chainRow as [chainRow|]; [|discriminate].
    destruct receipt as [receipt|]; [|discriminate].
    cbv zeta in Hrun.
    destruct (PayoutProcessor.status receipt =? 0).
    - apply transaction_ok in Hrun.
      apply bind_ok_inv in Hrun as ([] & dbP & HP & Hrun).
      apply updatePayout_ok in HP. subst dbP.
      apply bind_ok_inv in Hrun as (w & dbW & HW & Hrun).
      apply (keeps_run payoutTx _ _ _ _
               (keepsPayouts_withdrawal_update _ _)) in HW.
      unfold ret in Hrun. injection Hrun as <-.
      eexists. split.
      + rewrite HW. tables. apply Hmove. intro y. reflexivity.
      + right. reflexivity.
    - destruct (Chain.confirmationsRequired chainRow <=? _).
      + apply transaction_ok in Hrun.
        apply bind_ok_inv in Hrun as ([] & dbP & HP & Hrun).
        apply updatePayout_ok in HP. subst dbP.
        apply bind_ok_inv in Hrun as (w & dbW & HW & Hrun).
        apply (keeps_run payoutTx _ _ _ _
                 (keepsPayouts_withdrawal_update _ _)) in HW.
        apply bind_ok_inv in Hrun as (u & dbB & HB & Hrun).
        apply (keeps_run payoutTx _ _ _ _
                 (keepsPayouts_balance_update _ _ _ _)) in HB.
        apply (keeps_run payoutTx _ _ _ _
                 (keepsPayouts_notification_create _)) in Hrun.
        eexists. split.
        * rewrite Hrun, HB, HW. tables. apply Hmove. intro y. reflexivity.
        * left. reflexivity.
      + apply bind_ok_inv in Hrun as (u & dbP & _ & Hrun).
        apply bind_ok_inv in Hrun as (w & dbW & _ & Hrun).
        discriminate. }
  destruct (PayoutTx.status payout) eqn:Hst;
    try (apply Hlive; exact Hrun);
    unfold ret in Hrun; injection Hrun as <-;
    exists payout; split; auto.
Qed.

(** X9.  A payout is settled once.  After [checkPayoutStatus] has
    returned normally for a transaction hash, the payout it finds under
    that hash is CONFIRMED or FAILED, and every later check of the same
    hash, whatever the receipt and block height, returns at once and
    leaves every table as it is: the pending bucket is decremented and
    the completion notice is sent at most once. *)
Theorem checkPayoutStatus_settles_once
    now txHash receipt currentBlock db db1
    (Hrun : PayoutProcessor.checkPayoutStatus now txHash receipt currentBlock
              db = (Ok tt, db1)) :
  forall now' receipt' currentBlock',
    PayoutProcessor.checkPayoutStatus now' txHash receipt' currentBlock' db1
    = (Ok tt, db1).
Proof.
  apply checkPayoutStatus_ok in Hrun as (payout & Hfind & Hfinal).
  intros now' receipt' currentBlock'.
  unfold PayoutProcessor.checkPayoutStatus. rewrite bind_run.
  unfold PayoutProcessor.findPayoutByTxHash, gets. rewrite Hfind.
  destruct Hfinal as [-> | ->]; reflexivity.
Qed.

Lemma checkPayoutStatus_settles_once_witness :
  PayoutProcessor.checkPayoutStatus (Scenario.t0 + 3) "0xabc"
    (Some Scenario.minedReceipt) 111 Scenario.sent
  = (Ok tt, Scenario.confirmed)
  /\ PayoutProcessor.checkPayoutStatus (Scenario.t0 + 4) "0xabc"
       (Some Scenario.minedReceipt) 200 Scenario.confirmed
     = (Ok tt, Scenario.confirmed).
Proof.
  assert (Hrun : PayoutProcessor.checkPayoutStatus (Scenario.t0 + 3) "0xabc"
                   (Some Scenario.minedReceipt) 111 Scenario.sent
                 = (Ok tt, Scenario.confirmed)) by (vm_compute; reflexivity).
  split; [exact Hrun|].
  exact (checkPayoutStatus_settles_once _ _ _ _ _ _ Hrun (Scenario.t0 + 4)
           (Some Scenario.minedReceipt) 200).
Defined.

(* ================================================================= *)
(** ** What a fresh withdrawal request stores and reserves *)



(* ================================================================= *)
(** ** Staking: claiming rewards, starting a cooldown *)

Lemma getEffectiveApr_same_tables poolId date db db' :
  db'.(aprSchedule) = db.(aprSchedule) -> db'.(pool) = db.(pool) ->
  exists apr,
    PoolsService.getEffectiveApr poolId date db = (Ok apr, db)
    /\ PoolsService.getEffectiveApr poolId date db' = (Ok apr, db').
Proof.
  intros Hs Hp.
  unfold PoolsService.getEffectiveApr, PoolsService.findSchedule,
    PoolsService.findPool.
  rewrite !bind_run. unfold gets. rewrite Hs.
  destruct (PoolsService.firstByEffectiveFromDesc _) as [r|].
  - eexists. split; reflexivity.
  - rewrite !bind_run, Hp.
    destruct (find _ (pool db)); eexists; split; reflexivity.
Qed.

Lemma calculateAccruedRewards_run now stake db :
  exists apr,
    PoolsService.getEffectiveApr stake.(StakePosition.poolId) now db
    = (Ok apr, db)
    /\ StakesService.calculateAccruedRewards now stake db
       = (Ok (Dec.add stake.(StakePosition.rewardsAccrued)
                (newRewards stake.(StakePosition.amount) apr
                   (timeDiffSeconds now
                      stake.(StakePosition.lastRewardCalculation)))), db).
Proof.
  destruct (getEffectiveApr_same_tables stake.(StakePosition.poolId) now db db
              eq_refl eq_refl) as (apr & Hapr & _).
  exists apr. split; [exact Hapr|].
  unfold StakesService.calculateAccruedRewards. cbv zeta.
  rewrite bind_run, Hapr. reflexivity.
Qed.

(** X11.  Claiming rewards.  A successful [claimRewards] is on an ACTIVE
    position of the caller; the amount claimed is positive and is the
    position's accrued rewards plus the reward earned since its last
    calculation at the effective APR; the position is left with zero
    accrued rewards, its claimed total raised by the amount and its
    clock at [now]; the amount moves from the rewards bucket of the
    owner's cache row to the available bucket; and claiming again at the
    same instant is refused with "No rewards to claim", every table
    unchanged. *)
Theorem claimRewards_pays_once
    now userId stakeId db res db1
    (Hrun : StakesClaim.claimRewards now userId stakeId db = (Ok res, db1)) :
  exists stake apr poolRow assetRow b b1,
    stakeOf stakeId db = Some stake
    /\ stake.(StakePosition.userId) = userId
    /\ stake.(StakePosition.status) = StakeACTIVE
    /\ PoolsService.getEffectiveApr stake.(StakePosition.poolId) now db
       = (Ok apr, db)
    /\ res.(StakesClaim.claimedAmount)
       = Dec.add stake.(StakePosition.rewardsAccrued)
           (newRewards stake.(StakePosition.amount) apr
              (timeDiffSeconds now
                 stake.(StakePosition.lastRewardCalculation)))
    /\ (0 < res.(StakesClaim.claimedAmount))%Q
    /\ stakeOf stakeId db1
       = Some (StakesClaim.setClaimed now res.(StakesClaim.claimedAmount)
                 stake)
    /\ find (fun p => String.eqb p.(Pool.id) stake.(StakePosition.poolId))
            db.(pool) = Some poolRow
    /\ find (fun x => String.eqb x.(Asset.id) poolRow.(Pool.assetId))
            db.(asset) = Some assetRow
    /\ balanceOf userId poolRow.(Pool.assetId) assetRow.(Asset.chainId) db
       = Some b
    /\ balanceOf userId poolRow.(Pool.assetId) assetRow.(Asset.chainId) db1
       = Some b1
    /\ (b1.(BalanceCache.available)
        == b.(BalanceCache.available) + res.(StakesClaim.claimedAmount))%Q
    /\ (b1.(BalanceCache.rewardsAccrued)
        == b.(BalanceCache.rewardsAccrued)
           - res.(StakesClaim.claimedAmount))%Q
    /\ StakesClaim.claimRewards now userId stakeId db1
       = (Throw (BadRequestException "No rewards to claim"), db1).
Proof.
  unfold StakesClaim.claimRewards in Hrun. apply transaction_ok in Hrun.
  apply bind_ok_inv in Hrun as (stake & db0 & Hstake & Hrun).
  unfold StakesService.findStake, gets in Hstake.
  injection Hstake as Hstake <-.
  destruct stake as [stake|]; [|discriminate].
  apply bind_ok_inv in Hrun as (poolRow & db0 & Hpool & Hrun).
  unfold PoolsService.findPool, gets in Hpool. injection Hpool as Hpool <-.
  destruct poolRow as [poolRow|]; [|discriminate].
  apply bind_ok_inv in Hrun as (assetRow & db0 & Hasset & Hrun).
  unfold FraudService.findAsset, gets in Hasset.
  injection Hasset as Hasset <-.
  destruct assetRow as [assetRow|]; [|discriminate].
  destruct (negb (String.eqb _ userId)) eqn:Huser; [discriminate|].
  apply negb_false_iff, String.eqb_eq in Huser.
  destruct (negb (StakeStatus_eqb _ StakeACTIVE)) eqn:Hactive;
    [discriminate|].
  apply negb_false_iff in Hactive.
  assert (Hst : stake.(StakePosition.status) = StakeACTIVE)
    by (destruct (StakePosition.status stake); try discriminate; reflexivity).
  destruct (calculateAccruedRewards_run now stake db) as (apr & Hapr & Hcalc).
  rewrite bind_run, Hcalc in Hrun.
  set (x := Dec.add _ _) in *.
  destruct (Dec.lessThanOrEqualTo x 0) eqn:Hpos; [discriminate|].
  apply lessThanOrEqualTo_false in Hpos.
  rewrite bind_run in Hrun.
  rewrite (stake_update_found _ _ stake) in Hrun by exact Hstake.
  rewrite bind_run in Hrun.
  match type of Hrun with
  | match BalanceOps.claimRewards ?u ?a ?c ?amt ?i ?d with _ => _ end = _ =>
      destruct (BalanceOps.claimRewards u a c amt i d) as [[[]|ex] db2]
        eqn:Hclaim; [|discriminate]
  end.
  unfold ret in Hrun. injection Hrun as <- <-.
  unfold BalanceOps.claimRewards in Hclaim.
  apply bind_ok_inv in Hclaim as (e & dbE & He & Hupd).
  apply createEntry_ok in He as (-> & _).
  apply balance_update_ok in Hupd as [Hrow ->].
  tables_in Hrow.
  destruct (find _ (balanceCache db)) as [b|] eqn:Hb;
    [clear Hrow | contradiction].
  exists stake, apr, poolRow, assetRow, b. eexists.
  split; [exact Hstake|]. split; [exact Huser|]. split; [exact Hst|].
  split; [exact Hapr|]. split; [reflexivity|]. split; [exact Hpos|].
  split.
  { unfold stakeOf. tables.
    rewrite find_updateWhere by (intro; reflexivity).
    rewrite Hstake. reflexivity. }
  split; [exact Hpool|]. split; [exact Hasset|].
  split; [exact Hb|].
  split.
  { unfold balanceOf. tables.
    rewrite find_updateWhere by (intro; reflexivity).
    rewrite Hb. reflexivity. }
  cbn [StakesClaim.claimedAmount BalanceCache.available
       BalanceCache.rewardsAccrued BalanceService.incAvailable
       BalanceService.decRewardsAccrued].
  split; [reflexivity|]. split; [reflexivity|].
  (* the second claim *)
  match goal with |- _ ?d = _ => set (db1 := d) end.
  unfold StakesClaim.claimRewards, executeInTransaction.
  rewrite bind_run. unfold StakesService.findStake at 1, gets at 1.
  assert (Hstake1 :
    find (fun s => String.eqb s.(StakePosition.id) stakeId)
         db1.(stakePosition) = Some (StakesClaim.setClaimed now x stake)).
  { unfold db1. tables. rewrite find_updateWhere by (intro; reflexivity).
    rewrite Hstake. reflexivity. }
  rewrite Hstake1. rewrite bind_run.
  unfold PoolsService.findPool at 1, gets at 1.
  change (pool db1) with (pool db).
  change (StakePosition.poolId (StakesClaim.setClaimed now x stake))
    with (StakePosition.poolId stake).
  rewrite Hpool. rewrite bind_run.
  unfold FraudService.findAsset at 1, gets at 1.
  change (asset db1) with (asset db). rewrite Hasset.
  change (StakePosition.userId (StakesClaim.setClaimed now x stake))
    with (StakePosition.userId stake).
  change (StakePosition.status (StakesClaim.setClaimed now x stake))
    with (StakePosition.status stake).
  rewrite Huser, String.eqb_refl, Hst. cbn [negb StakeStatus_eqb].
  destruct (calculateAccruedRewards_run now
              (StakesClaim.setClaimed now x stake) db1)
    as (apr1 & _ & Hcalc1).
  rewrite bind_run, Hcalc1.
  assert (Hzero :
    Dec.lessThanOrEqualTo
      (Dec.add
         (StakePosition.rewardsAccrued (StakesClaim.setClaimed now x stake))
         (newRewards
            (StakePosition.amount (StakesClaim.setClaimed now x stake)) apr1
            (timeDiffSeconds now
               (StakePosition.lastRewardCalculation
                  (StakesClaim.setClaimed now x stake))))) 0 = true).
  { apply lessThanOrEqualTo_spec. cbn [StakesClaim.setClaimed
      StakePosition.rewardsAccrued StakePosition.amount
      StakePosition.lastRewardCalculation].
    unfold timeDiffSeconds. rewrite Z.sub_diag.
    rewrite newRewards_formula. unfold Dec.add.
    change (inject_Z 0) with 0%Q. apply Qle_lteq. right. field. }
  rewrite Hzero. reflexivity.
Qed.

Lemma claimRewards_pays_once_witness :
  exists res db1,
    StakesClaim.claimRewards StakeScenario.t0 "bob" "sp-1"
      StakeScenario.active = (Ok res, db1)
    /\ Qred res.(StakesClaim.claimedAmount) = 6%Q
    /\ StakesClaim.claimRewards StakeScenario.t0 "bob" "sp-1" db1
       = (Throw (BadRequestException "No rewards to claim"), db1).
Proof.
  destruct (StakesClaim.claimRewards StakeScenario.t0 "bob" "sp-1"
              StakeScenario.active) as [[res|ex] db1] eqn:Hrun;
    [|vm_compute in Hrun; discriminate].
  exists res, db1. split; [reflexivity|].
  destruct (claimRewards_pays_once _ _ _ _ _ _ Hrun)
    as (stake & apr & poolRow & assetRow & b & b1 & H).
  split; [|apply H].
  vm_compute in Hrun. injection Hrun as <- _. reflexivity.
Defined.

Lemma unstake_guard_not_active now userId stakeId db stake poolRow assetRow :
  find (fun s => String.eqb s.(StakePosition.id) stakeId) db.(stakePosition)
  = Some stake ->
  find (fun p => String.eqb p.(Pool.id) stake.(StakePosition.poolId))
       db.(pool) = Some poolRow ->
  find (fun x => String.eqb x.(Asset.id) poolRow.(Pool.assetId)) db.(asset)
  = Some assetRow ->
  stake.(StakePosition.userId) = userId ->
  stake.(StakePosition.status) <> StakeACTIVE ->
  StakesService.unstake now userId stakeId db
  = (Throw (BadRequestException "Stake is not active"), db)
  /\ StakesClaim.claimRewards now userId stakeId db
     = (Throw (BadRequestException "Can only claim from active stakes"), db).
Proof.
  intros Hstake Hpool Hasset Huser Hst.
  unfold StakesService.unstake, StakesClaim.claimRewards,
    executeInTransaction.
  rewrite !bind_run. unfold StakesService.findStake, gets. rewrite Hstake.
  rewrite !bind_run. unfold PoolsService.findPool, gets. rewrite Hpool.
  rewrite !bind_run. unfold FraudService.findAsset, gets. rewrite Hasset.
  rewrite Huser, String.eqb_refl. cbn [negb].
  destruct (StakePosition.status stake); try contradiction;
    split; reflexivity.
Qed.

(** X12.  Starting a cooldown moves no money.  When [unstake] answers
    that the cooldown has started, the position was ACTIVE and the
    caller's, its pool has a positive cooldown, the cooldown ends
    [cooldownHours] hours after [now], and the only write is the
    position itself, now UNSTAKING with that end date: ledger, balance
    cache and pool totals are untouched.  From then on the service
    refuses both [unstake] ("Stake is not active") and [claimRewards]
    on it and changes nothing; the worker's sweep selects the position
    exactly from the end of the cooldown on. *)
Theorem unstake_cooldown_moves_nothing
    now userId stakeId db cooldownEndsAt db1
    (Hrun : StakesService.unstake now userId stakeId db
            = (Ok (StakesService.UNSTAKING_started cooldownEndsAt), db1)) :
  exists stake poolRow,
    stakeOf stakeId db = Some stake
    /\ stake.(StakePosition.userId) = userId
    /\ stake.(StakePosition.status) = StakeACTIVE
    /\ find (fun p => String.eqb p.(Pool.id) stake.(StakePosition.poolId))
            db.(pool) = Some poolRow
    /\ 0 < poolRow.(Pool.cooldownHours)
    /\ cooldownEndsAt = now + poolRow.(Pool.cooldownHours) * 60 * 60 * 1000
    /\ db1 = set_stakePosition
               (updateWhere
                  (fun s => String.eqb s.(StakePosition.id) stakeId)
                  (StakesService.setUnstaking now cooldownEndsAt)
                  db.(stakePosition)) db
    /\ stakeOf stakeId db1
       = Some (StakesService.setUnstaking now cooldownEndsAt stake)
    /\ (forall now',
          StakesService.unstake now' userId stakeId db1
          = (Throw (BadRequestException "Stake is not active"), db1)
          /\ StakesClaim.claimRewards now' userId stakeId db1
             = (Throw (BadRequestException
                         "Can only claim from active stakes"), db1))
    /\ (forall now',
          RewardCalculator.whereCooldownCompleted now'
            (StakesService.setUnstaking now cooldownEndsAt stake) = true
          <-> cooldownEndsAt <= now').
Proof.
  unfold StakesService.unstake in Hrun. apply transaction_ok in Hrun.
  apply bind_ok_inv in Hrun as (stake & db0 & Hstake & Hrun).
  unfold StakesService.findStake, gets in Hstake.
  injection Hstake as Hstake <-.
  destruct stake as [stake|]; [|discriminate].
  apply bind_ok_inv in Hrun as (poolRow & db0 & Hpool & Hrun).
  unfold PoolsService.findPool, gets in Hpool. injection Hpool as Hpool <-.
  destruct poolRow as [poolRow|]; [|discriminate].
  apply bind_ok_inv in Hrun as (assetRow & db0 & Hasset & Hrun).
  unfold FraudService.findAsset, gets in Hasset.
  injection Hasset as Hasset <-.
  destruct assetRow as [assetRow|]; [|discriminate].
  destruct (negb (String.eqb _ userId)) eqn:Huser; [discriminate|].
  apply negb_false_iff, String.eqb_eq in Huser.
  destruct (negb (StakeStatus_eqb _ StakeACTIVE)) eqn:Hactive;
    [discriminate|].
  apply negb_false_iff in Hactive.
  assert (Hst : stake.(StakePosition.status) = StakeACTIVE)
    by (destruct (StakePosition.status stake); try discriminate; reflexivity).
  destruct (match StakePosition.lockedUntil stake with
            | Some lockedUntil => now <? lockedUntil
            | None => false
            end); [discriminate|].
  destruct ((0 <? Pool.cooldownHours poolRow) && _) eqn:Hcool.
  - apply andb_true_iff in Hcool as [Hhours _].
    apply Z.ltb_lt in Hhours. cbv zeta in Hrun.
    rewrite bind_run in Hrun.
    rewrite (stake_update_found _ _ stake) in Hrun by exact Hstake.
    unfold ret in Hrun. injection Hrun as <- <-.
    exists stake, poolRow.
    split; [exact Hstake|]. split; [exact Huser|]. split; [exact Hst|].
    split; [exact Hpool|]. split; [exact Hhours|]. split; [reflexivity|].
    split; [reflexivity|].
    assert (Hstake1 :
      find (fun s => String.eqb s.(StakePosition.id) stakeId)
        (updateWhere (fun s => String.eqb s.(StakePosition.id) stakeId)
           (StakesService.setUnstaking now
              (now + Pool.cooldownHours poolRow * 60 * 60 * 1000))
           db.(stakePosition))
      = Some (StakesService.setUnstaking now
                (now + Pool.cooldownHours poolRow * 60 * 60 * 1000) stake)).
    { rewrite find_updateWhere by (intro; reflexivity).
      rewrite Hstake. reflexivity. }
    split; [exact Hstake1|].
    split.
    + intro now'.
      apply (unstake_guard_not_active now' userId stakeId _
               (StakesService.setUnstaking now
                  (now + Pool.cooldownHours poolRow * 60 * 60 * 1000) stake)
               poolRow assetRow); tables; auto; discriminate.
    + intro now'. unfold RewardCalculator.whereCooldownCompleted.
      cbn [StakesService.setUnstaking StakePosition.status
           StakePosition.cooldownEndsAt StakeStatus_eqb andb].
      apply Z.leb_le.
  - apply bind_ok_inv in Hrun as (x1 & d1 & _ & Hrun).
    apply bind_ok_inv in Hrun as (x2 & d2 & _ & Hrun).
    apply bind_ok_inv in Hrun as (x3 & d3 & _ & Hrun).
    apply bind_ok_inv in Hrun as (x4 & d4 & _ & Hrun).
    discriminate.
Qed.

Lemma unstake_cooldown_moves_nothing_witness :
  exists db1,
    StakesService.unstake StakeScenario.t0 "bob" "sp-1"
      (StakeScenario.world 24 StakeACTIVE None)
    = (Ok (StakesService.UNSTAKING_started
             (StakeScenario.t0 + 24 * 60 * 60 * 1000)), db1)
    /\ db1.(ledgerEntry)
       = (StakeScenario.world 24 StakeACTIVE None).(ledgerEntry)
    /\ db1.(balanceCache)
       = (StakeScenario.world 24 StakeACTIVE None).(balanceCache)
    /\ StakesService.unstake (StakeScenario.t0 + 5) "bob" "sp-1" db1
       = (Throw (BadRequestException "Stake is not active"), db1).
Proof.
  eexists. split; [vm_compute; reflexivity|].
  match goal with
  | |- ledgerEntry ?d = _ /\ _ =>
      destruct (unstake_cooldown_moves_nothing StakeScenario.t0 "bob" "sp-1"
                  (StakeScenario.world 24 StakeACTIVE None)
                  (StakeScenario.t0 + 24 * 60 * 60 * 1000) d)
        as (stake & poolRow & _ & _ & _ & _ & _ & _ & Hdb & _ & Hagain & _)
  end.
  - vm_compute. reflexivity.
  - split; [reflexivity|]. split; [reflexivity|].
    apply (Hagain (StakeScenario.t0 + 5)).
Defined.

(* ================================================================= *)
(** ** Auth: what a login implies, and what a failed one leaves *)

Lemma verifyToken_readonly deps now userId token db :
  snd (TwoFactorService.verifyToken deps now userId token db) = db.
Proof.
  unfold TwoFactorService.verifyToken. rewrite bind_run. unfold gets.
  destruct (find _ (twoFactorSecret db)) as [s|]; [|reflexivity].
  destruct (negb _); [reflexivity|].
  destruct (decrypt deps _); reflexivity.
Qed.

(** X13.  [login] is sound and leaves no trace when it fails.  Whenever
    it throws, every table is as before: no session, no lastLoginAt.
    Whenever it answers tokens, the e-mail (lower-cased) is that of a
    stored, active user whose password hash argon2 accepts; an ADMIN or
    SUPER_ADMIN has two-factor enabled; a user with two-factor enabled
    and a verified secret presented a non-empty code that [verifyToken]
    accepted; the tokens are the given refresh token and the JWT signed
    for that user and session; and the writes are exactly the user's
    lastLoginAt and one new, unrevoked session holding the hash of the
    refresh token. *)
Theorem login_sound_and_traceless
    deps now sessionId refreshToken
    (dto : AuthService.LoginDto) ip userAgent db :
  match AuthService.login deps now sessionId refreshToken dto ip userAgent db
  with
  | (Throw _, db') => db' = db
  | (Ok tokens, db') =>
      exists u,
        find (fun x => String.eqb x.(User.email)
                         (toLowerCase dto.(AuthService.email)))
             db.(user) = Some u
        /\ u.(User.isActive) = true
        /\ deps.(argon2_verify) u.(User.passwordHash)
             dto.(AuthService.password) = true
        /\ (u.(User.role) = ADMIN \/ u.(User.role) = SUPER_ADMIN ->
            u.(User.twoFactorEnabled) = true)
        /\ (u.(User.twoFactorEnabled) = true ->
            (exists s,
               find (fun x => String.eqb x.(TwoFactorSecret.userId)
                                u.(User.id)) db.(twoFactorSecret) = Some s
               /\ s.(TwoFactorSecret.isVerified) = true) ->
            exists code,
              dto.(AuthService.totpCode) = Some code /\ code <> ""
              /\ TwoFactorService.verifyToken deps now u.(User.id) code db
                 = (Ok true, db))
        /\ tokens
           = AuthService.mkTokens
               (deps.(jwt_sign) u.(User.id) u.(User.email) u.(User.role)
                  sessionId)
               refreshToken deps.(accessExpiresIn)
        /\ db' = set_session
                   (db.(session)
                    ++ [Session.mk sessionId u.(User.id)
                          (deps.(hash) refreshToken) ip userAgent
                          (now + deps.(refreshExpiresIn) * 1000) false])
                   (set_user
                      (updateWhere
                         (fun x => String.eqb x.(User.id) u.(User.id))
                         (AuthService.setLastLoginAt now) db.(user)) db)
  end.
Proof.
  unfold AuthService.login. rewrite bind_run. unfold gets at 1.
  destruct (find _ (user db)) as [u|] eqn:Huser; [|reflexivity].
  rewrite bind_run. unfold gets at 1.
  destruct (negb (User.isActive u)) eqn:Hactive; [reflexivity|].
  apply negb_false_iff in Hactive.
  destruct (negb (argon2_verify deps _ _)) eqn:Hpw; [reflexivity|].
  apply negb_false_iff in Hpw.
  rewrite bind_run.
  set (secretRow := find _ (twoFactorSecret db)).
  assert (Htail : forall (P : Prop),
    P ->
    match
      (if match User.role u with
          | ADMIN | SUPER_ADMIN => negb (User.twoFactorEnabled u)
          | _ => false
          end
       then throw (ForbiddenException
                     "Admin accounts require 2FA to be enabled")
       else
         modify (fun db0 =>
           set_user
             (updateWhere (fun x => String.eqb x.(User.id) u.(User.id))
                (AuthService.setLastLoginAt now) db0.(user)) db0) ;;;
         AuthService.createAuthTokens deps now sessionId refreshToken
           u.(User.id) u.(User.email) u.(User.role) ip userAgent) db
    with
    | (Throw _, db') => db' = db
    | (Ok tokens, db') =>
        (User.role u = ADMIN \/ User.role u = SUPER_ADMIN ->
         User.twoFactorEnabled u = true)
        /\ P
        /\ tokens
           = AuthService.mkTokens
               (deps.(jwt_sign) u.(User.id) u.(User.email) u.(User.role)
                  sessionId)
               refreshToken deps.(accessExpiresIn)
        /\ db' = set_session
                   (db.(session)
                    ++ [Session.mk sessionId u.(User.id)
                          (deps.(hash) refreshToken) ip userAgent
                          (now + deps.(refreshExpiresIn) * 1000) false])
                   (set_user
                      (updateWhere
                         (fun x => String.eqb x.(User.id) u.(User.id))
                         (AuthService.setLastLoginAt now) db.(user)) db)
    end).
  { intros P HP.
    destruct (User.role u) eqn:Hrole;
      try destruct (User.twoFactorEnabled u) eqn:H2fa; cbn [negb];
      try reflexivity;
      (split; [intros [?|?]; congruence || reflexivity|]);
      (split; [exact HP|]); split; reflexivity. }
  assert (Hwrap : forall (P : Prop) r,
    match r with
    | (Throw _, db') => db' = db
    | (Ok tokens, db') =>
        (User.role u = ADMIN \/ User.role u = SUPER_ADMIN ->
         User.twoFactorEnabled u = true)
        /\ P
        /\ tokens
           = AuthService.mkTokens
               (deps.(jwt_sign) u.(User.id) u.(User.email) u.(User.role)
                  sessionId)
               refreshToken deps.(accessExpiresIn)
        /\ db' = set_session
                   (db.(session)
                    ++ [Session.mk sessionId u.(User.id)
                          (deps.(hash) refreshToken) ip userAgent
                          (now + deps.(refreshExpiresIn) * 1000) false])
                   (set_user
                      (updateWhere
                         (fun x => String.eqb x.(User.id) u.(User.id))
                         (AuthService.setLastLoginAt now) db.(user)) db)
    end ->
    (P ->
     User.twoFactorEnabled u = true ->
     (exists s, secretRow = Some s /\ TwoFactorSecret.isVerified s = true) ->
     exists code,
       dto.(AuthService.totpCode) = Some code /\ code <> ""
       /\ TwoFactorService.verifyToken deps now u.(User.id) code db
          = (Ok true, db)) ->
    match r with
    | (Throw _, db') => db' = db
    | (Ok tokens, db') =>
        exists u0,
          Some u = Some u0
          /\ User.isActive u0 = true
          /\ argon2_verify deps (User.passwordHash u0)
               (AuthService.password dto) = true
          /\ (User.role u0 = ADMIN \/ User.role u0 = SUPER_ADMIN ->
              User.twoFactorEnabled u0 = true)
          /\ (User.twoFactorEnabled u0 = true ->
              (exists s,
                 find (fun x => String.eqb x.(TwoFactorSecret.userId)
                                  u0.(User.id)) db.(twoFactorSecret) = Some s
                 /\ TwoFactorSecret.isVerified s = true) ->
              exists code,
                dto.(AuthService.totpCode) = Some code /\ code <> ""
                /\ TwoFactorService.verifyToken deps now u0.(User.id) code db
                   = (Ok true, db))
          /\ tokens
             = AuthService.mkTokens
                 (deps.(jwt_sign) u0.(User.id) u0.(User.email)
                    u0.(User.role) sessionId)
                 refreshToken deps.(accessExpiresIn)
          /\ db' = set_session
                     (db.(session)
                      ++ [Session.mk sessionId u0.(User.id)
                            (deps.(hash) refreshToken) ip userAgent
                            (now + deps.(refreshExpiresIn) * 1000) false])
                     (set_user
                        (updateWhere
                           (fun x => String.eqb x.(User.id) u0.(User.id))
                           (AuthService.setLastLoginAt now) db.(user)) db)
    end).
  { intros P [[tokens|ex] db'] Hr Hcode; [|exact Hr].
    destruct Hr as (Hadmin & HP & Htok & Hdb).
    exists u. repeat split; auto. }
  destruct (User.twoFactorEnabled u
            && match secretRow with
               | Some s => TwoFactorSecret.isVerified s
               | None => false
               end) eqn:Hneeds.
  - destruct (AuthService.missing (AuthService.totpCode dto)) eqn:Hmiss;
      [reflexivity|].
    rewrite bind_run.
    pose proof (verifyToken_readonly deps now u.(User.id)
                  (AuthService.codeOf dto.(AuthService.totpCode)) db) as Hro.
    destruct (TwoFactorService.verifyToken deps now _ _ db)
      as [[valid|ex] dbV] eqn:Hverify; simpl in Hro; subst dbV;
      [|reflexivity].
    destruct valid; cbn [negb]; [|reflexivity].
    unfold ret at 1.
    apply (Hwrap (TwoFactorService.verifyToken deps now u.(User.id)
                    (AuthService.codeOf dto.(AuthService.totpCode)) db
                  = (Ok true, db))).
    + apply Htail. exact Hverify.
    + intros Hv _ _. unfold AuthService.missing in Hmiss.
      destruct (AuthService.totpCode dto) as [code|]; [|discriminate].
      exists code. split; [reflexivity|].
      split; [apply String.eqb_neq; exact Hmiss | exact Hv].
  - unfold ret at 1.
    apply (Hwrap True).
    + apply Htail. exact I.
    + intros _ H2fa (s & Hs & Hv). rewrite H2fa, Hs, Hv in Hneeds.
      discriminate.
Qed.

(* ================================================================= *)
(** ** Recovery codes are spent *)

Lemma filter_map_le {A} (p : A -> bool) (g : A -> A) l :
  (forall x, p (g x) = true -> p x = true) ->
  (List.length (filter p (map g l)) <= List.length (filter p l))%nat.
Proof.
  intro Hg. induction l as [|x l IH]; simpl; [lia|].
  destruct (p (g x)) eqn:Hgx.
  - rewrite (Hg x Hgx). simpl. lia.
  - destruct (p x); simpl; lia.
Qed.

Lemma filter_map_lt {A} (p : A -> bool) (g : A -> A) l x :
  (forall y, p (g y) = true -> p y = true) ->
  In x l -> p x = true -> p (g x) = false ->
  (List.length (filter p (map g l)) < List.length (filter p l))%nat.
Proof.
  intros Hg. induction l as [|y l IH]; simpl; [intros []|].
  intros [->|Hin] Hx Hgx.
  - rewrite Hgx, Hx. simpl.
    pose proof (filter_map_le p g l Hg). lia.
  - specialize (IH Hin Hx Hgx).
    destruct (p (g y)) eqn:Hgy.
    + rewrite (Hg y Hgy). simpl. lia.
    + destruct (p y); simpl; lia.
Qed.

Lemma find_filter_nil {A} (p : A -> bool) l :
  filter p l = [] -> find p l = None.
Proof.
  induction l as [|x l IH]; simpl; [reflexivity|].
  destruct (p x); [discriminate | exact IH].
Qed.

(** X14.  A recovery code is spent by its use.  [verifyRecoveryCode]
    never throws.  When it answers false it has written nothing and the
    user holds no unused code with that hash.  When it answers true it
    has written the recovery codes only, and the user holds strictly
    fewer unused codes with that hash than before; so a code the user
    held once is refused, without any write, on every later
    presentation. *)
Theorem verifyRecoveryCode_spends_the_code
    deps now userId code db :
  let unused := fun d : PrismaClient =>
    filter (TwoFactorService.whereUnusedCode userId (deps.(hash) code))
           d.(recoveryCode) in
  match TwoFactorService.verifyRecoveryCode deps now userId code db with
  | (Ok true, db1) =>
      (List.length (unused db1) < List.length (unused db))%nat
      /\ set_recoveryCode db.(recoveryCode) db1 = db
      /\ (List.length (unused db) = 1%nat ->
          forall now',
            TwoFactorService.verifyRecoveryCode deps now' userId code db1
            = (Ok false, db1))
  | (Ok false, db1) => db1 = db /\ unused db = []
  | (Throw _, _) => False
  end.
Proof.
  cbv zeta. unfold TwoFactorService.verifyRecoveryCode.
  rewrite bind_run. unfold gets at 1.
  set (p := TwoFactorService.whereUnusedCode userId (hash deps code)).
  destruct (find p (recoveryCode db)) as [c|] eqn:Hfind.
  - rewrite bind_run. unfold modify at 1, ret at 1. tables.
    apply find_some in Hfind as [Hin Hp].
    assert (Hlt :
      (List.length
         (filter p
            (updateWhere
               (fun c0 => String.eqb c0.(RecoveryCode.id) c.(RecoveryCode.id))
               (TwoFactorService.markUsed now) (recoveryCode db)))
       < List.length (filter p (recoveryCode db)))%nat).
    { unfold updateWhere. apply (filter_map_lt p _ _ c).
      - intros y. destruct (String.eqb _ _); [|auto].
        unfold p, TwoFactorService.whereUnusedCode. simpl.
        rewrite andb_false_r. discriminate.
      - exact Hin.
      - exact Hp.
      - rewrite String.eqb_refl.
        unfold p, TwoFactorService.whereUnusedCode. simpl.
        apply andb_false_r. }
    split; [exact Hlt|]. split; [destruct db; reflexivity|].
    intros Hone now'.
    assert (Hnil :
      filter p
        (updateWhere
           (fun c0 => String.eqb c0.(RecoveryCode.id) c.(RecoveryCode.id))
           (TwoFactorService.markUsed now) (recoveryCode db)) = []).
    { apply length_zero_iff_nil. lia. }
    rewrite bind_run. unfold gets at 1. tables.
    rewrite (find_filter_nil _ _ Hnil). reflexivity.
  - unfold ret. split; [reflexivity|].
    induction (recoveryCode db) as [|x l IH]; simpl in *; [reflexivity|].
    destruct (p x); [discriminate | apply IH, Hfind].
Qed.

(* ================================================================= *)
(** ** Sessions: rotation, logout, cleaning *)

Lemma find_app_some {A} (q : A -> bool) l1 l2 x :
  find q l1 = Some x -> find q (l1 ++ l2) = Some x.
Proof.
  induction l1 as [|y l1 IH]; simpl; [discriminate|].
  destruct (q y); [auto | exact IH].
Qed.

Lemma find_updateWhere_map {A} (p q : A -> bool) (f : A -> A) l :
  (forall y, q (f y) = q y) ->
  find q (updateWhere p f l)
  = option_map (fun x => if p x then f x else x) (find q l).
Proof.
  intro Hq. unfold updateWhere. induction l as [|y l IH]; simpl.
  - reflexivity.
  - assert (q (if p y then f y else y) = q y) as ->
      by (destruct (p y); [apply Hq | reflexivity]).
    destruct (q y); [reflexivity | exact IH].
Qed.

Lemma revokeSession_ok sessionId db db1 :
  SessionService.revokeSession sessionId db = (Ok tt, db1) ->
  db1 = set_session
          (updateWhere (fun s => String.eqb s.(Session.id) sessionId)
             SessionService.setRevoked db.(session)) db.
Proof.
  unfold SessionService.revokeSession, SessionService.findById.
  rewrite bind_run. unfold gets at 1.
  destruct (find _ (session db)); [|discriminate].
  unfold modify. intro H. injection H as <-. reflexivity.
Qed.

Lemma validate_run payload db :
  JwtStrategy.validate payload db =
  (match find (fun u => String.eqb u.(User.id) payload.(JwtStrategy.sub))
              db.(user) with
   | None => Throw (UnauthorizedException "User not found or disabled")
   | Some u =>
       if negb u.(User.isActive) then
         Throw (UnauthorizedException "User not found or disabled")
       else
         match find (fun x => String.eqb x.(Session.id)
                                payload.(JwtStrategy.sessionId))
                    db.(session) with
         | None => Throw (UnauthorizedException "Session expired")
         | Some s =>
             if s.(Session.isRevoked) then
               Throw (UnauthorizedException "Session expired")
             else
               Ok (JwtStrategy.mkRequestUser u.(User.id) u.(User.email)
                     u.(User.role) payload.(JwtStrategy.sessionId)
                     u.(User.twoFactorEnabled))
         end
   end, db).
Proof.
  unfold JwtStrategy.validate. rewrite bind_run.
  unfold AuthSessions.findUserById, gets at 1.
  destruct (find _ (user db)) as [u|]; [|reflexivity].
  destruct (negb (User.isActive u)); [reflexivity|].
  rewrite bind_run. unfold SessionService.findById, gets at 1.
  destruct (find _ (session db)) as [s|]; [|reflexivity].
  destruct (Session.isRevoked s); reflexivity.
Qed.

Lemma validate_revoked payload db s :
  find (fun x => String.eqb x.(Session.id) payload.(JwtStrategy.sessionId))
       db.(session) = Some s ->
  s.(Session.isRevoked) = true ->
  exists e, JwtStrategy.validate payload db = (Throw e, db).
Proof.
  intros Hs Hr. unfold JwtStrategy.validate.
  rewrite bind_run. unfold AuthSessions.findUserById, gets at 1.
  destruct (find _ (user db)) as [u|]; [|eexists; reflexivity].
  destruct (negb (User.isActive u)); [eexists; reflexivity|].
  rewrite bind_run. unfold SessionService.findById, gets at 1.
  rewrite Hs, Hr. eexists. reflexivity.
Qed.

(** X15.  Refresh rotates the token.  After a successful [refresh] the
    presented refresh token was that of a live (unrevoked, unexpired)
    session of an active user; the answer carries the new refresh token
    and a JWT for that user and the new session id; the old session is
    revoked: presenting the old refresh token again, at any time, is
    refused with "Invalid refresh token" and writes nothing, and an
    access token of the old session no longer validates. *)
Theorem refresh_rotates_the_token
    deps now sessionId refreshToken oldRefreshToken ip userAgent db tokens db1
    (Hrun : AuthSessions.refresh deps now sessionId refreshToken
              oldRefreshToken ip userAgent db = (Ok tokens, db1)) :
  exists s u,
    SessionService.validateRefreshToken deps now oldRefreshToken db
    = (Ok (Some s), db)
    /\ s.(Session.isRevoked) = false /\ now <= s.(Session.expiresAt)
    /\ find (fun x => String.eqb x.(User.id) s.(Session.userId)) db.(user)
       = Some u
    /\ u.(User.isActive) = true
    /\ tokens
       = AuthService.mkTokens
           (deps.(jwt_sign) u.(User.id) u.(User.email) u.(User.role)
              sessionId)
           refreshToken deps.(accessExpiresIn)
    /\ (forall now' sessionId' refreshToken' ip' userAgent',
          AuthSessions.refresh deps now' sessionId' refreshToken'
            oldRefreshToken ip' userAgent' db1
          = (Throw (UnauthorizedException "Invalid refresh token"), db1))
    /\ (forall payload,
          payload.(JwtStrategy.sessionId) = s.(Session.id) ->
          exists e, JwtStrategy.validate payload db1 = (Throw e, db1)).
Proof.
  unfold AuthSessions.refresh in Hrun.
  apply bind_ok_inv in Hrun as (found & db0 & Hval & Hrun).
  assert (Hval' := Hval).
  unfold SessionService.validateRefreshToken in Hval. cbv zeta in Hval.
  rewrite bind_run in Hval. unfold gets at 1 in Hval.
  destruct (find _ (session db)) as [s|] eqn:Hfind.
  2:{ injection Hval as <- <-. discriminate. }
  destruct (Session.isRevoked s) eqn:Hrev.
  { injection Hval as <- <-. discriminate. }
  destruct (Session.expiresAt s <? now) eqn:Hexp.
  { injection Hval as <- <-. discriminate. }
  apply Z.ltb_ge in Hexp.
  unfold ret in Hval. injection Hval as <- <-.
  apply bind_ok_inv in Hrun as (userRow & db0 & Huser & Hrun).
  unfold AuthSessions.findUserById, gets in Huser.
  injection Huser as Huser <-.
  destruct userRow as [u|]; [|discriminate].
  destruct (negb (User.isActive u)) eqn:Hact; [discriminate|].
  apply negb_false_iff in Hact.
  apply bind_ok_inv in Hrun as ([] & dbR & Hrevoke & Hrun).
  apply revokeSession_ok in Hrevoke. subst dbR.
  unfold AuthService.createAuthTokens in Hrun.
  rewrite bind_run in Hrun. unfold modify at 1, ret in Hrun.
  injection Hrun as <- <-. tables.
  exists s, u. split; [exact Hval'|]. split; [exact Hrev|].
  split; [exact Hexp|]. split; [exact Huser|]. split; [exact Hact|].
  split; [reflexivity|].
  set (rows := updateWhere _ SessionService.setRevoked (session db)).
  assert (Hbyhash :
    find (fun x => String.eqb x.(Session.refreshToken)
                     (deps.(hash) oldRefreshToken)) rows
    = Some (SessionService.setRevoked s)).
  { unfold rows. rewrite find_updateWhere_map by (intro; reflexivity).
    rewrite Hfind. simpl. rewrite String.eqb_refl. reflexivity. }
  assert (Hbyid :
    exists s', find (fun x => String.eqb x.(Session.id) s.(Session.id)) rows
               = Some s' /\ s'.(Session.isRevoked) = true).
  { apply find_some in Hfind as [Hin _].
    destruct (find_exists (fun x => String.eqb x.(Session.id) s.(Session.id))
                _ s Hin (String.eqb_refl _)) as (y & Hy).
    exists (SessionService.setRevoked y). split; [|reflexivity].
    unfold rows. rewrite find_updateWhere_map by (intro; reflexivity).
    rewrite Hy. simpl. apply find_some in Hy as [_ Hy]. rewrite Hy.
    reflexivity. }
  split.
  - intros now' sessionId' refreshToken' ip' userAgent'.
    unfold AuthSessions.refresh. rewrite bind_run.
    unfold SessionService.validateRefreshToken. cbv zeta.
    rewrite bind_run. unfold gets at 1. tables.
    rewrite (find_app_some _ _ _ _ Hbyhash). reflexivity.
  - intros payload Hpayload. destruct Hbyid as (s' & Hs' & Hrev').
    apply (validate_revoked payload _ s'); [|exact Hrev'].
    tables. rewrite Hpayload. apply find_app_some. exact Hs'.
Qed.

Lemma refresh_rotates_the_token_witness :
  exists tokens db1,
    AuthSessions.refresh AuthScenario.deps (AuthScenario.now + 1000)
      "sess-2" "refresh-2" "refresh-1" "10.0.0.1" "curl"
      SessionScenario.loggedIn = (Ok tokens, db1)
    /\ tokens.(AuthService.refreshToken) = "refresh-2"
    /\ AuthSessions.refresh AuthScenario.deps (AuthScenario.now + 2000)
         "sess-3" "refresh-3" "refresh-1" "10.0.0.1" "curl" db1
       = (Throw (UnauthorizedException "Invalid refresh token"), db1).
Proof.
  destruct (AuthSessions.refresh AuthScenario.deps (AuthScenario.now + 1000)
              "sess-2" "refresh-2" "refresh-1" "10.0.0.1" "curl"
              SessionScenario.loggedIn) as [[tokens|ex] db1] eqn:Hrun;
    [|vm_compute in Hrun; discriminate].
  exists tokens, db1. split; [reflexivity|].
  destruct (refresh_rotates_the_token _ _ _ _ _ _ _ _ _ _ Hrun)
    as (s & u & _ & _ & _ & _ & _ & -> & Hagain & _).
  split; [reflexivity | apply Hagain].
Defined.

Lemma validate_other_session payload sessionId db :
  payload.(JwtStrategy.sessionId) <> sessionId ->
  JwtStrategy.validate payload
    (set_session
       (updateWhere (fun s => String.eqb s.(Session.id) sessionId)
          SessionService.setRevoked db.(session)) db)
  = (fst (JwtStrategy.validate payload db),
     set_session
       (updateWhere (fun s => String.eqb s.(Session.id) sessionId)
          SessionService.setRevoked db.(session)) db).
Proof.
  intro Hne. rewrite !validate_run. tables. cbn [fst].
  rewrite find_updateWhere_map by (intro; reflexivity).
  destruct (find _ (session db)) as [s|] eqn:Hs; [|reflexivity].
  cbn [option_map]. apply find_some in Hs as [_ Hid].
  apply String.eqb_eq in Hid.
  assert (String.eqb (Session.id s) sessionId = false) as ->
    by (apply String.eqb_neq; congruence).
  reflexivity.
Qed.

(** X16.  Logout ends one session, and only that one.  After a
    successful [logout] of a session id, [JwtStrategy.validate] throws,
    without writing, for every token payload carrying that session id;
    for a payload carrying any other session id it answers exactly what
    it answered before the logout. *)
Theorem logout_ends_that_session_only
    sessionId db db1
    (Hrun : AuthSessions.logout sessionId db = (Ok tt, db1)) :
  (forall payload,
     payload.(JwtStrategy.sessionId) = sessionId ->
     exists e, JwtStrategy.validate payload db1 = (Throw e, db1))
  /\ (forall payload,
        payload.(JwtStrategy.sessionId) <> sessionId ->
        JwtStrategy.validate payload db1
        = (fst (JwtStrategy.validate payload db), db1)).
Proof.
  unfold AuthSessions.logout in Hrun.
  assert (Hfound : exists s0,
            find (fun s => String.eqb s.(Session.id) sessionId) db.(session)
            = Some s0).
  { unfold SessionService.revokeSession, SessionService.findById in Hrun.
    rewrite bind_run in Hrun. unfold gets at 1 in Hrun.
    destruct (find _ (session db)) as [s0|]; [|discriminate].
    exists s0. reflexivity. }
  apply revokeSession_ok in Hrun. subst db1. destruct Hfound as (s0 & Hs0).
  split.
  - intros payload <-.
    apply (validate_revoked payload _ (SessionService.setRevoked s0));
      [|reflexivity].
    tables. rewrite find_updateWhere by (intro; reflexivity).
    rewrite Hs0. reflexivity.
  - intros payload Hne. apply validate_other_session. exact Hne.
Qed.

Lemma logout_ends_that_session_only_witness :
  exists db1,
    AuthSessions.logout "sess-1" SessionScenario.twice = (Ok tt, db1)
    /\ (exists e,
          JwtStrategy.validate (SessionScenario.payloadOf "sess-1") db1
          = (Throw e, db1))
    /\ fst (JwtStrategy.validate (SessionScenario.payloadOf "sess-2") db1)
       = Ok (JwtStrategy.mkRequestUser "dave" "dave@example.com" USER
               "sess-2" true).
Proof.
  eexists. split; [vm_compute; reflexivity|].
  match goal with
  | |- (exists e, JwtStrategy.validate _ ?d = _) /\ _ =>
      destruct (logout_ends_that_session_only "sess-1" SessionScenario.twice
                  d) as [Hdead Hlive]
  end.
  - vm_compute. reflexivity.
  - split; [apply Hdead; reflexivity|].
    rewrite Hlive by discriminate. vm_compute. reflexivity.
Defined.

(** X17.  [logoutAllDevices] always succeeds and writes sessions only.
    Afterwards [JwtStrategy.validate] throws for every payload whose
    session belongs to the user and is not the excepted one, and
    answers what it answered before for the excepted session and for
    the sessions of every other user. *)
Theorem logoutAllDevices_spares_the_exception_only
    userId exceptSessionId db :
  exists db1,
    AuthSessions.logoutAllDevices userId exceptSessionId db = (Ok tt, db1)
    /\ set_session db.(session) db1 = db
    /\ forall payload s,
         find (fun x => String.eqb x.(Session.id)
                          payload.(JwtStrategy.sessionId)) db.(session)
         = Some s ->
         if String.eqb s.(Session.userId) userId
            && negb (option_eqb String.eqb (Some s.(Session.id))
                       exceptSessionId)
         then exists e, JwtStrategy.validate payload db1 = (Throw e, db1)
         else JwtStrategy.validate payload db1
              = (fst (JwtStrategy.validate payload db), db1).
Proof.
  eexists. split; [reflexivity|]. split; [destruct db; reflexivity|].
  intros payload s Hs.
  set (p := SessionService.whereOtherLive userId exceptSessionId).
  assert (Hs1 :
    find (fun x => String.eqb x.(Session.id) payload.(JwtStrategy.sessionId))
         (updateWhere p SessionService.setRevoked db.(session))
    = Some (if p s then SessionService.setRevoked s else s)).
  { rewrite find_updateWhere_map by (intro; reflexivity).
    rewrite Hs. reflexivity. }
  destruct (String.eqb (Session.userId s) userId
            && negb (option_eqb String.eqb (Some (Session.id s))
                       exceptSessionId)) eqn:Hmine.
  - apply (validate_revoked payload _
             (if p s then SessionService.setRevoked s else s)).
    + tables. exact Hs1.
    + apply andb_true_iff in Hmine as [Hu Hex].
      unfold p, SessionService.whereOtherLive. rewrite Hu.
      destruct (Session.isRevoked s) eqn:Hr; simpl; [exact Hr|].
      destruct exceptSessionId as [ex|]; simpl in *;
        [rewrite Hex|]; reflexivity.
  - assert (Hp : p s = true -> False).
    { unfold p, SessionService.whereOtherLive. intro Hp.
      apply andb_true_iff in Hp as [Hp Hex].
      apply andb_true_iff in Hp as [Hu _]. rewrite Hu in Hmine.
      destruct exceptSessionId as [ex|]; simpl in *;
        [rewrite Hex in Hmine|]; discriminate. }
    destruct (p s) eqn:Hps; [exfalso; auto|].
    rewrite !validate_run. tables. cbn [fst]. fold p.
    rewrite Hs1, Hs. reflexivity.
Qed.

(* ================================================================= *)
(** ** Role guard *)

(** X18.  The role guard is monotone in the hierarchy USER < SUPPORT <
    ADMIN < SUPER_ADMIN: a route that admits a user admits every user of
    the same or a higher role, a SUPER_ADMIN is admitted everywhere,
    and a route with required roles admits a user exactly when the
    user's role is at or above one of them. *)
Theorem rolesGuard_is_monotone
    (requiredRoles : option (list Role)) (u1 u2 : JwtStrategy.RequestUser) :
  (RolesGuard.indexOf u1.(JwtStrategy.userRole)
   <= RolesGuard.indexOf u2.(JwtStrategy.userRole) ->
   RolesGuard.canActivate requiredRoles (Some u1) = Ok true ->
   RolesGuard.canActivate requiredRoles (Some u2) = Ok true)
  /\ (u2.(JwtStrategy.userRole) = SUPER_ADMIN ->
      RolesGuard.canActivate requiredRoles (Some u2) = Ok true)
  /\ (forall r rest,
        requiredRoles = Some (r :: rest) ->
        (RolesGuard.canActivate requiredRoles (Some u1) = Ok true
         <-> exists r', In r' (r :: rest)
                        /\ RolesGuard.indexOf r'
                           <= RolesGuard.indexOf u1.(JwtStrategy.userRole))
        /\ (RolesGuard.canActivate requiredRoles (Some u1) <> Ok true ->
            RolesGuard.canActivate requiredRoles (Some u1)
            = Throw (ForbiddenException "Insufficient permissions"))).
Proof.
  assert (Hchar : forall (u : JwtStrategy.RequestUser) r rest,
    RolesGuard.canActivate (Some (r :: rest)) (Some u) = Ok true
    <-> exists r', In r' (r :: rest)
                   /\ RolesGuard.indexOf r'
                      <= RolesGuard.indexOf u.(JwtStrategy.userRole)).
  { intros u r rest. unfold RolesGuard.canActivate. cbv zeta.
    destruct (existsb _ (r :: rest)) eqn:Hex; cbn [negb].
    - split; [intros _|reflexivity].
      apply existsb_exists in Hex as (r' & Hin & Hle).
      exists r'. split; [exact Hin | apply Z.leb_le, Hle].
    - split; [discriminate|]. intros (r' & Hin & Hle).
      assert (existsb (fun role => RolesGuard.indexOf role
                                   <=? RolesGuard.indexOf
                                         u.(JwtStrategy.userRole))
                (r :: rest) = true)
        by (apply existsb_exists; exists r'; split;
            [exact Hin | apply Z.leb_le, Hle]).
      congruence. }
  split; [|split].
  - intros Hle H1. destruct requiredRoles as [[|r rest]|]; try reflexivity.
    apply Hchar. apply Hchar in H1 as (r' & Hin & Hr'). exists r'.
    split; [exact Hin | lia].
  - intro Hsuper. destruct requiredRoles as [[|r rest]|]; try reflexivity.
    apply Hchar. exists r. split; [left; reflexivity|].
    rewrite Hsuper. destruct r; simpl; lia.
  - intros r rest ->. split; [apply Hchar|].
    unfold RolesGuard.canActivate. cbv zeta.
    destruct (existsb _ (r :: rest)); cbn [negb]; [contradiction|reflexivity].
Qed.

(* ================================================================= *)
(** ** Cleaning dead sessions *)

Lemma filter_split_length {A} (p : A -> bool) l :
  (List.length (filter p l)
   + List.length (filter (fun x => negb (p x)) l) = List.length l)%nat.
Proof.
  induction l as [|x l IH]; simpl; [reflexivity|].
  destruct (p x); simpl; lia.
Qed.

Lemma find_filter_unique {A} (k : A -> string) (h : string)
    (live : A -> bool) l :
  NoDup (map k l) ->
  find (fun s => String.eqb (k s) h) (filter live l)
  = match find (fun s => String.eqb (k s) h) l with
    | Some s => if live s then Some s else None
    | None => None
    end.
Proof.
  induction l as [|x l IH]; simpl; [reflexivity|].
  intro Hnd. inversion Hnd as [|? ? Hnotin Hnd']; subst.
  specialize (IH Hnd').
  destruct (String.eqb (k x) h) eqn:Hx.
  - apply String.eqb_eq in Hx.
    destruct (live x); simpl.
    + rewrite (proj2 (String.eqb_eq _ _) Hx). reflexivity.
    + rewrite IH.
      destruct (find (fun s => String.eqb (k s) h) l) as [y|] eqn:Hy;
        [|reflexivity].
      apply find_some in Hy as [Hin Hky]. apply String.eqb_eq in Hky.
      exfalso. apply Hnotin. rewrite Hx, <- Hky. apply in_map, Hin.
  - destruct (live x); simpl; [rewrite Hx|]; exact IH.
Qed.

(** X19.  Cleaning dead sessions is invisible to token refresh.  With
    refresh-token hashes unique among the stored sessions (the column
    is unique), [cleanExpiredSessions] answers the number of rows it
    deleted, keeps exactly the sessions that are neither revoked nor
    expired at [now], and [validateRefreshToken] at [now] answers for
    every token what it answered before the cleaning. *)
Theorem cleanExpiredSessions_is_invisible_to_refresh
    deps now db
    (Hunique : NoDup (map Session.refreshToken db.(session))) :
  exists n db1,
    SessionService.cleanExpiredSessions now db = (Ok n, db1)
    /\ n = Z.of_nat (List.length db.(session))
           - Z.of_nat (List.length db1.(session))
    /\ (forall s, In s db1.(session) <->
                  In s db.(session) /\ s.(Session.isRevoked) = false
                  /\ now <= s.(Session.expiresAt))
    /\ forall token,
         SessionService.validateRefreshToken deps now token db1
         = (fst (SessionService.validateRefreshToken deps now token db), db1).
Proof.
  eexists. eexists. split; [reflexivity|]. tables. split; [|split].
  - pose proof (filter_split_length (SessionService.whereDead now)
                  db.(session)). lia.
  - intro s. rewrite filter_In. unfold SessionService.whereDead.
    rewrite negb_true_iff, orb_false_iff, Z.ltb_ge. tauto.
  - intro token. unfold SessionService.validateRefreshToken. cbv zeta.
    rewrite !bind_run. unfold gets. tables. cbn [fst].
    rewrite (find_filter_unique Session.refreshToken (deps.(hash) token)
               (fun s => negb (SessionService.whereDead now s)) _ Hunique).
    destruct (find _ (session db)) as [s|]; [|reflexivity].
    unfold SessionService.whereDead.
    destruct (Session.isRevoked s) eqn:Hr;
      [rewrite orb_true_r; reflexivity|].
    rewrite orb_false_r.
    destruct (Session.expiresAt s <? now) eqn:He; cbn [negb];
      [reflexivity|].
    rewrite Hr, He. reflexivity.
Qed.

Lemma cleanExpiredSessions_is_invisible_to_refresh_witness :
  exists db1,
    SessionService.cleanExpiredSessions (AuthScenario.now + 120000)
      loggedOutOnce = (Ok 1, db1)
    /\ map Session.id loggedOutOnce.(session) = ["sess-1"; "sess-2"]
    /\ map Session.id db1.(session) = ["sess-2"]
    /\ SessionService.validateRefreshToken AuthScenario.deps
         (AuthScenario.now + 120000) "refresh-2" db1
       = (fst (SessionService.validateRefreshToken AuthScenario.deps
                 (AuthScenario.now + 120000) "refresh-2" loggedOutOnce),
          db1).
Proof.
  destruct (cleanExpiredSessions_is_invisible_to_refresh AuthScenario.deps
              (AuthScenario.now + 120000) loggedOutOnce)
    as (n & db1 & Hrun & _ & _ & Hsame).
  - vm_compute. repeat constructor; simpl; intuition discriminate.
  - exists db1.
    assert (Hn : (Ok n, db1)
                 = (Ok 1, snd (SessionService.cleanExpiredSessions
                                 (AuthScenario.now + 120000) loggedOutOnce))).
    { rewrite <- Hrun. vm_compute. reflexivity. }
    injection Hn as -> Hdb.
    split; [exact Hrun|]. split; [reflexivity|].
    split; [rewrite Hdb; vm_compute; reflexivity|]. apply Hsame.
Defined.

(* ================================================================= *)
(** ** Deposits: a confirmed deposit is credited once *)

Lemma createEntry_refs params db e db1 :
  LedgerService.createEntry params db = (Ok e, db1) ->
  e.(LedgerEntry.referenceType) = params.(LedgerService.referenceType)
  /\ e.(LedgerEntry.referenceId) = params.(LedgerService.referenceId).
Proof.
  rewrite createEntry_run.
  destruct (Dec.lessThanOrEqualTo _ 0); [discriminate|].
  destruct (LedgerService.userId params) as [uid|];
    destruct (LedgerService.direction params); cbv zeta;
    try (destruct (Dec.lessThan _ 0); [discriminate|]);
    intro H; injection H as <- <-; simpl; auto.
Qed.

Lemma deposit_update_run id data row db :
  find (fun d => String.eqb d.(Deposit.id) id) db.(deposit) = Some row ->
  DepositsService.update id data db =
  (Ok (data row),
   set_deposit
     (updateWhere (fun d => String.eqb d.(Deposit.id) id) data db.(deposit))
     db).
Proof.
  intro H. unfold DepositsService.update, DepositsService.findDeposit.
  rewrite bind_run. unfold gets. rewrite H. reflexivity.
Qed.

Lemma updateConfirmations_confirmed now depositId confirmations db d chainRow :
  find (fun x => String.eqb x.(Deposit.id) depositId) db.(deposit) = Some d ->
  find (fun c => String.eqb c.(Chain.id) d.(Deposit.chainId)) db.(chain)
  = Some chainRow ->
  d.(Deposit.status) = DepositCONFIRMED ->
  DepositsService.updateConfirmations now depositId confirmations db
  = (Ok d, db).
Proof.
  intros Hd Hc Hst. unfold DepositsService.updateConfirmations.
  rewrite bind_run. unfold DepositsService.findDeposit, gets at 1.
  rewrite Hd. rewrite bind_run. unfold gets at 1. rewrite Hc, Hst.
  reflexivity.
Qed.

(** X20.  A deposit is credited once.  A successful
    [updateConfirmations] on a deposit that is already CONFIRMED writes
    nothing; below the chain's required confirmations it writes the
    deposit's confirmation count only; at or above them it marks the
    deposit CONFIRMED, appends exactly one ledger entry, a
    DEPOSIT_CONFIRMED credit of the deposit's (positive) amount to its
    owner, and raises the owner's available balance by that amount.
    Once the answer is a CONFIRMED deposit, every later call on it, with
    any count, answers that row and writes nothing. *)
Theorem updateConfirmations_credits_once
    now depositId confirmations db r db1
    (Hrun : DepositsService.updateConfirmations now depositId confirmations db
            = (Ok r, db1)) :
  exists d chainRow,
    depositOf depositId db = Some d
    /\ find (fun c => String.eqb c.(Chain.id) d.(Deposit.chainId)) db.(chain)
       = Some chainRow
    /\ (d.(Deposit.status) = DepositCONFIRMED -> r = d /\ db1 = db)
    /\ (d.(Deposit.status) <> DepositCONFIRMED ->
        confirmations < chainRow.(Chain.confirmationsRequired) ->
        r = DepositMonitor.setConfirmations confirmations d
        /\ db1 = set_deposit
                   (updateWhere
                      (fun x => String.eqb x.(Deposit.id) depositId)
                      (DepositMonitor.setConfirmations confirmations)
                      db.(deposit)) db)
    /\ (d.(Deposit.status) <> DepositCONFIRMED ->
        chainRow.(Chain.confirmationsRequired) <= confirmations ->
        r = DepositMonitor.setDepositConfirmed now confirmations d
        /\ (0 < d.(Deposit.amount))%Q
        /\ (exists e,
              db1.(ledgerEntry) = db.(ledgerEntry) ++ [e]
              /\ depositCredits depositId [e] = [e]
              /\ e.(LedgerEntry.userId) = Some d.(Deposit.userId)
              /\ e.(LedgerEntry.assetId) = d.(Deposit.assetId)
              /\ e.(LedgerEntry.chainId) = d.(Deposit.chainId)
              /\ e.(LedgerEntry.direction) = CREDIT
              /\ e.(LedgerEntry.amount) = d.(Deposit.amount))
        /\ exists b1,
             balanceOf d.(Deposit.userId) d.(Deposit.assetId)
               d.(Deposit.chainId) db1 = Some b1
             /\ (b1.(BalanceCache.available)
                 == match balanceOf d.(Deposit.userId) d.(Deposit.assetId)
                            d.(Deposit.chainId) db with
                    | Some b => b.(BalanceCache.available)
                    | None => 0
                    end + d.(Deposit.amount))%Q)
    /\ (r.(Deposit.status) = DepositCONFIRMED ->
        forall now' confirmations',
          DepositsService.updateConfirmations now' depositId confirmations'
            db1 = (Ok r, db1)).
Proof.
  unfold DepositsService.updateConfirmations in Hrun.
  apply bind_ok_inv in Hrun as (found & db0 & Hfound & Hrun).
  unfold DepositsService.findDeposit, gets in Hfound.
  injection Hfound as Hd <-.
  destruct found as [d|]; [|discriminate].
  apply bind_ok_inv in Hrun as (chainRow & db0 & Hchain & Hrun).
  unfold gets in Hchain. injection Hchain as Hc <-.
  destruct chainRow as [chainRow|]; [|discriminate].
  exists d, chainRow. split; [exact Hd|]. split; [exact Hc|].
  destruct (DepositStatus_eqb (Deposit.status d) DepositCONFIRMED) eqn:Hst.
  - assert (Hconf : Deposit.status d = DepositCONFIRMED)
      by (destruct (Deposit.status d); try discriminate; reflexivity).
    unfold ret in Hrun. injection Hrun as <- <-.
    split; [auto|]. split; [intro; contradiction|].
    split; [intro; contradiction|].
    intros _ now' confirmations'.
    apply (updateConfirmations_confirmed _ _ _ _ _ chainRow); assumption.
  - assert (Hnot : Deposit.status d <> DepositCONFIRMED)
      by (intro E; rewrite E in Hst; discriminate).
    split; [intro; contradiction|].
    cbv zeta in Hrun.
    destruct (Chain.confirmationsRequired chainRow <=? confirmations) eqn:Hge.
    + apply Z.leb_le in Hge. split; [intros _ Hlt; lia|].
      apply transaction_ok in Hrun.
      rewrite bind_run, (deposit_update_run _ _ d) in Hrun by exact Hd.
      rewrite bind_run in Hrun.
      match type of Hrun with
      | match BalanceOps.creditBalance ?u ?a ?c ?x ?t ?rt ?ri ?m ?dd with
        | _ => _ end = _ =>
          destruct (BalanceOps.creditBalance u a c x t rt ri m dd)
            as [[[]|ex] db2] eqn:Hcredit; [|discriminate]
      end.
      unfold ret in Hrun. injection Hrun as <- <-.
      unfold BalanceOps.creditBalance in Hcredit.
      apply bind_ok_inv in Hcredit as (e & dbE & He & Hup).
      pose proof (createEntry_refs _ _ _ _ He) as Hrefs.
      apply createEntry_ok in He
        as (-> & Eu & Ea & Ec & Et & Ed & Eamt & Hpos).
      cbn [LedgerService.userId LedgerService.assetId LedgerService.chainId
           LedgerService.entryType LedgerService.direction
           LedgerService.amount LedgerService.referenceType
           LedgerService.referenceId] in *.
      rewrite balance_upsert_run in Hup. injection Hup as <-.
      tables. destruct Hrefs as [Hrt Hri].
      assert (Hcredit1 : depositCredits depositId [e] = [e]).
      { unfold depositCredits. cbn [filter].
        rewrite Et, Hrt, Hri, !String.eqb_refl. reflexivity. }
      destruct (find _ (balanceCache db)) as [b|] eqn:Hb.
      * split.
        -- intros _ _. split; [reflexivity|]. split; [exact Hpos|].
           split; [exists e; tables; repeat split; auto|].
           unfold balanceOf. tables. rewrite Hb. eexists. split.
           ++ rewrite find_updateWhere by (intro; reflexivity).
              rewrite Hb. reflexivity.
           ++ simpl. unfold Dec.add. reflexivity.
        -- intros _ now' confirmations'.
           apply (updateConfirmations_confirmed _ _ _ _ _ chainRow).
           ++ tables. rewrite find_updateWhere by (intro; reflexivity).
              rewrite Hd. reflexivity.
           ++ exact Hc.
           ++ reflexivity.
      * split.
        -- intros _ _. split; [reflexivity|]. split; [exact Hpos|].
           split; [exists e; tables; repeat split; auto|].
           unfold balanceOf. tables. rewrite Hb. eexists. split.
           ++ rewrite find_snoc, Hb.
              unfold BalanceService.whereKey. simpl.
              rewrite !String.eqb_refl. reflexivity.
           ++ simpl. ring.
        -- intros _ now' confirmations'.
           apply (updateConfirmations_confirmed _ _ _ _ _ chainRow).
           ++ tables. rewrite find_updateWhere by (intro; reflexivity).
              rewrite Hd. reflexivity.
           ++ exact Hc.
           ++ reflexivity.
    + apply Z.leb_gt in Hge.
      rewrite (deposit_update_run _ _ d) in Hrun by exact Hd.
      injection Hrun as <- <-.
      split; [intros _ _; split; reflexivity|].
      split; [intros _ Hle; lia|].
      intros Hr. simpl in Hr. contradiction.
Qed.

Lemma updateConfirmations_credits_once_witness :
  exists r db1,
    DepositsService.updateConfirmations Scenario.t0 "dep-1" 12 depositPending
    = (Ok r, db1)
    /\ r.(Deposit.status) = DepositCONFIRMED
    /\ List.length (depositCredits "dep-1" db1.(ledgerEntry)) = 1%nat
    /\ DepositsService.updateConfirmations (Scenario.t0 + 1) "dep-1" 50 db1
       = (Ok r, db1).
Proof.
  destruct (DepositsService.updateConfirmations Scenario.t0 "dep-1" 12
              depositPending) as [[r|ex] db1] eqn:Hrun;
    [|vm_compute in Hrun; discriminate].
  destruct (updateConfirmations_credits_once _ _ _ _ _ _ Hrun)
    as (d & chainRow & _ & _ & _ & _ & _ & Hagain).
  assert (Hr : r.(Deposit.status) = DepositCONFIRMED
               /\ List.length (depositCredits "dep-1" db1.(ledgerEntry))
                  = 1%nat).
  { vm_compute in Hrun. injection Hrun as <- <-. split; reflexivity. }
  exists r, db1. split; [reflexivity|]. split; [apply Hr|].
  split; [apply Hr|]. apply Hagain, Hr.
Defined.

(* ================================================================= *)
(** ** Deposit scanner: the block ranges of one pass *)

(** X21.  The ranges one scanning pass queries partition the blocks
    from [fromBlock] to [currentBlock]: every range lies within those
    bounds and spans at most 2000 blocks, and every block between the
    bounds lies in exactly one range, so no block is skipped or queried
    twice. *)
Theorem chunks_partition_the_blocks
    (fromBlock currentBlock : Z) :
  (forall r, In r (DepositMonitor.chunks fromBlock currentBlock) ->
     fromBlock <= fst r /\ fst r <= snd r /\ snd r <= currentBlock
     /\ snd r - fst r + 1 <= 2000)
  /\ (forall b, fromBlock <= b <= currentBlock ->
        exists r,
          In r (DepositMonitor.chunks fromBlock currentBlock)
          /\ fst r <= b <= snd r
          /\ forall r',
               In r' (DepositMonitor.chunks fromBlock currentBlock) ->
               fst r' <= b <= snd r' -> r' = r).
Proof.
  unfold DepositMonitor.chunks, DepositMonitor.chunkSize.
  split.
  - intros r Hr.
    pose proof (chunks_bounds fromBlock currentBlock r) as Hb.
    unfold DepositMonitor.chunks, DepositMonitor.chunkSize in Hb.
    specialize (Hb Hr).
    destruct (currentBlock <? fromBlock); [destruct Hr|].
    apply in_map_iff in Hr as (i & <- & _). cbv zeta in *.
    cbn [fst snd] in *. lia.
  - intros b Hb.
    assert (Hlt : (currentBlock <? fromBlock) = false)
      by (apply Z.ltb_ge; lia).
    rewrite Hlt.
    set (n := Z.to_nat ((currentBlock - fromBlock) / 2000 + 1)).
    assert (Hdiv : 0 <= (b - fromBlock) / 2000
                   <= (currentBlock - fromBlock) / 2000).
    { split; [apply Z.div_pos; lia|].
      apply Z.div_le_mono; lia. }
    pose proof (Z.mul_div_le (b - fromBlock) 2000 ltac:(lia)) as Hlo.
    pose proof (Z.mul_succ_div_gt (b - fromBlock) 2000 ltac:(lia)) as Hhi.
    set (q := (b - fromBlock) / 2000) in *.
    exists (fromBlock + 2000 * q,
            Z.min (fromBlock + 2000 * q + 2000 - 1) currentBlock).
    split; [|split].
    + apply in_map_iff. exists (Z.to_nat q). cbv zeta.
      rewrite Z2Nat.id by lia. split; [reflexivity|].
      apply in_seq. unfold n. lia.
    + cbn [fst snd]. lia.
    + intros r' Hr' Hin'. apply in_map_iff in Hr' as (i & <- & Hi).
      cbv zeta in *. cbn [fst snd] in Hin'.
      assert (Z.of_nat i = q) as -> by nia.
      reflexivity.
Qed.

(* ================================================================= *)
(** ** Deposit scanner: a transfer is recorded once *)

Lemma forEach_inv {A} (I : PrismaClient -> Prop) (l : list A)
    (body : A -> M unit) :
  (forall x db, I db -> I (snd (body x db))) ->
  forall db, I db -> I (snd (forEach l body db)).
Proof.
  intro Hbody. induction l as [|x l IH]; intros db Hdb; simpl.
  - exact Hdb.
  - rewrite bind_run. specialize (Hbody x db Hdb).
    destruct (body x db) as [[[]|e] db']; simpl in *.
    + apply IH, Hbody.
    + exact Hbody.
Qed.

Lemma whereDepositKey_key txHash logIndex chainId d :
  DepositMonitor.whereDepositKey txHash logIndex chainId d = true
  <-> depositKey d = (txHash, logIndex, chainId).
Proof.
  unfold DepositMonitor.whereDepositKey, depositKey.
  rewrite !andb_true_iff, !String.eqb_eq, Z.eqb_eq.
  split; [intros [[-> ->] ->]; reflexivity | intro H; injection H; auto].
Qed.

Lemma recordEvent_recordedSince provider chainRow assetRow addresses
    currentBlock event db0 db :
  recordedSince chainRow assetRow db0 db ->
  recordedSince chainRow assetRow db0
    (snd (DepositMonitor.recordEvent provider chainRow assetRow addresses
            currentBlock event db)).
Proof.
  intro Hinv. unfold DepositMonitor.recordEvent.
  destruct (DepositMonitor.args event) as [[[from to] value]|];
    [|exact Hinv].
  destruct (DepositMonitor.addressMap_get addresses _) as [da|];
    [|exact Hinv].
  rewrite bind_run. unfold gets at 1.
  destruct (find _ (deposit db)) as [existing|] eqn:Hfind; [exact Hinv|].
  unfold modify. cbn [snd].
  destruct Hinv as (Hnd & Hframe & new & Hnew & Hall).
  split; [|split].
  - tables. rewrite map_app. cbn [map].
    apply NoDup_app; [exact Hnd | |].
    + repeat constructor. intros [].
    + intros k Hk [Hk'|[]]. subst k.
      apply in_map_iff in Hk as (x & Hx & Hin).
      pose proof (find_none _ _ Hfind x Hin) as Hno.
      assert (DepositMonitor.whereDepositKey
                (DepositMonitor.transactionHash event)
                (DepositMonitor.index event) (Chain.id chainRow) x = true)
        by (apply whereDepositKey_key; exact Hx).
      congruence.
  - rewrite <- Hframe. destruct db; reflexivity.
  - tables. eexists (new ++ [_]). split.
    + rewrite Hnew, app_assoc. reflexivity.
    + intros d Hd. apply in_app_iff in Hd as [Hd|[<-|[]]].
      * apply Hall, Hd.
      * repeat split.
Qed.

(** X22.  The scanner records a transfer once.  Starting from deposits
    with pairwise distinct keys (transaction hash, log index, chain),
    the scan of one asset, whatever the provider answers and even when
    its log queries throw, only appends deposits: every stored row
    stays as it was, no other table is written, every new row is
    CONFIRMING on the scanned chain and asset, and keys stay pairwise
    distinct, so a transfer seen again is not recorded again. *)
Theorem scanAsset_records_each_transfer_once
    provider chainRow addresses fromBlock currentBlock assetRow db
    (Hunique : NoDup (map depositKey db.(deposit))) :
  fst (DepositMonitor.scanAsset provider chainRow addresses fromBlock
         currentBlock assetRow db) = Ok tt
  /\ recordedSince chainRow assetRow db
       (snd (DepositMonitor.scanAsset provider chainRow addresses fromBlock
               currentBlock assetRow db)).
Proof.
  assert (Hstart : recordedSince chainRow assetRow db db).
  { split; [exact Hunique|]. split; [destruct db; reflexivity|].
    exists []. split; [rewrite app_nil_r; reflexivity | intros d []]. }
  unfold DepositMonitor.scanAsset.
  destruct (Asset.contractAddress assetRow) as [contractAddress|];
    [|split; [reflexivity | exact Hstart]].
  destruct (Asset.isNative assetRow || String.eqb contractAddress "");
    [split; [reflexivity | exact Hstart]|].
  rewrite try_catch_log_run. cbn [fst snd]. split; [reflexivity|].
  apply (forEach_inv (recordedSince chainRow assetRow db)); [|exact Hstart].
  intros range db' Hdb'. unfold DepositMonitor.scanChunk.
  destruct (DepositMonitor.queryFilter provider _ _ _) as [events|e];
    [|exact Hdb'].
  apply (forEach_inv (recordedSince chainRow assetRow db)); [|exact Hdb'].
  intros event db'' Hdb''. apply recordEvent_recordedSince, Hdb''.
Qed.

Lemma scanAsset_records_each_transfer_once_witness :
  map Deposit.txHash scannedOnce.(deposit) = ["0xfeed"]
  /\ recordedSince Scenario.eth Scenario.usdt scannedOnce
       (snd (DepositMonitor.scanAsset (ScanScenario.healthy 10030)
               Scenario.eth [ScanScenario.erinAddress] 9001 10030
               Scenario.usdt scannedOnce))
  /\ map Deposit.txHash
       (snd (DepositMonitor.scanAsset (ScanScenario.healthy 10030)
               Scenario.eth [ScanScenario.erinAddress] 9001 10030
               Scenario.usdt scannedOnce)).(deposit) = ["0xfeed"].
Proof.
  split; [vm_compute; reflexivity|]. split.
  - apply (scanAsset_records_each_transfer_once (ScanScenario.healthy 10030)
             Scenario.eth [ScanScenario.erinAddress] 9001 10030
             Scenario.usdt scannedOnce).
    vm_compute. repeat constructor. intros [].
  - vm_compute. reflexivity.
Defined.

(* ================================================================= *)
(** ** Withdrawal addresses: the cooldown of a new address *)

(** X23.  The cooldown of a withdrawal address runs once.  For an
    address the user has not whitelisted (compared in lower case) the
    address check answers NEW_ADDRESS / MEDIUM / 30; [addToWhitelist]
    then always succeeds, and afterwards the check answers NEW_ADDRESS /
    HIGH / 50 strictly before [now] plus the configured cooldown hours
    and nothing from then on.  For an address already whitelisted,
    [addToWhitelist] does not move the end of the cooldown: the check
    answers what it answered before. *)
Theorem whitelist_cooldown_runs_once
    cfg now userId chainId address label db now' address'
    (Hsame : toLowerCase address' = toLowerCase address) :
  let listed :=
    find (FraudService.whereWhitelist userId chainId (toLowerCase address))
         db.(addressWhitelist) in
  let db1 :=
    snd (FraudService.addToWhitelist cfg now userId chainId address label db)
  in
  fst (FraudService.addToWhitelist cfg now userId chainId address label db)
  = Ok tt
  /\ (listed = None ->
      FraudService.checkNewAddress now' userId address' chainId db
      = (Ok (Some (FraudIndicator.mk NEW_ADDRESS MEDIUM 30)), db)
      /\ FraudService.checkNewAddress now' userId address' chainId db1
         = (Ok (if now' <? now
                            + cfg.(FraudService.newAddressCooldownHours)
                              * 60 * 60 * 1000
                then Some (FraudIndicator.mk NEW_ADDRESS HIGH 50)
                else None), db1))
  /\ (listed <> None ->
      FraudService.checkNewAddress now' userId address' chainId db1
      = (fst (FraudService.checkNewAddress now' userId address' chainId db),
         db1)).
Proof.
  cbv zeta. unfold FraudService.addToWhitelist. cbv zeta.
  rewrite bind_run. unfold gets at 1.
  unfold FraudService.checkNewAddress. rewrite !bind_run. unfold gets.
  rewrite Hsame.
  set (p := FraudService.whereWhitelist userId chainId (toLowerCase address)).
  destruct (find p (addressWhitelist db)) as [w|] eqn:Hfind;
    unfold modify; cbn [fst snd]; tables.
  - split; [reflexivity|]. split; [discriminate|]. intros _.
    rewrite find_updateWhere by (intro; reflexivity).
    rewrite Hfind. cbn [option_map AddressWhitelist.cooldownEndsAt].
    destruct (now' <? AddressWhitelist.cooldownEndsAt w); reflexivity.
  - split; [reflexivity|]. split; [|intro H; contradiction].
    intros _. split; [reflexivity|].
    rewrite find_snoc, Hfind.
    assert (p (AddressWhitelist.mk userId chainId (toLowerCase address) label
                 (now + FraudService.newAddressCooldownHours cfg
                        * 60 * 60 * 1000)) = true) as ->.
    { unfold p, FraudService.whereWhitelist. simpl.
      rewrite !String.eqb_refl. reflexivity. }
    cbn [AddressWhitelist.cooldownEndsAt].
    destruct (now' <? _); reflexivity.
Qed.

Lemma whitelist_cooldown_runs_once_witness :
  FraudService.checkNewAddress (Scenario.t0 + 3600000) "alice"
    "0x00000000000000000000000000000000000000AA" "eth" Scenario.funded
  = (Ok (Some (FraudIndicator.mk NEW_ADDRESS MEDIUM 30)), Scenario.funded)
  /\ fst (FraudService.checkNewAddress (Scenario.t0 + 3600000) "alice"
            "0x00000000000000000000000000000000000000AA" "eth"
            Scenario.requested)
     = Ok (Some (FraudIndicator.mk NEW_ADDRESS HIGH 50)).
Proof.
  pose proof (whitelist_cooldown_runs_once FraudService.defaultConfig
                Scenario.t0 "alice" "eth"
                "0x00000000000000000000000000000000000000aa" None
                Scenario.funded (Scenario.t0 + 3600000)
                "0x00000000000000000000000000000000000000AA" eq_refl)
    as (_ & Hnew & _).
  destruct (Hnew eq_refl) as [Hbefore _].
  split; [exact Hbefore | vm_compute; reflexivity].
Defined.

(* ================================================================= *)
(** ** The reward job reports what it wrote *)









(* ================================================================= *)
(** ** The reward estimate and the accrual *)



(* ================================================================= *)
(** ** Audit data *)

Lemma redactField_keys field fields :
  map fst (AuditService.redactField field fields) = map fst fields.
Proof.
  unfold AuditService.redactField. rewrite map_map. apply map_ext.
  intros [k v]. simpl. destruct (String.eqb k field); reflexivity.
Qed.

Lemma stringifyDecimal_keys render fields :
  map fst (map (AuditService.stringifyDecimal render) fields)
  = map fst fields.
Proof.
  rewrite map_map. apply map_ext. intros [k v].
  unfold AuditService.stringifyDecimal. simpl. destruct v; reflexivity.
Qed.




(* ================================================================= *)
(** ** A decided withdrawal and the user's funds *)

Lemma keeps_try_catch {T A} (table : PrismaClient -> T) (m : M A) handler :
  keeps table m -> (forall e, keeps table (handler e)) ->
  keeps table (try_catch m handler).
Proof.
  intros Hm Hh db. unfold try_catch. specialize (Hm db).
  destruct (m db) as [[a|e] db']; simpl in *; [exact Hm|].
  rewrite Hh. exact Hm.
Qed.

Lemma keepsBalances_updatePayout id data :
  keeps balanceCache (PayoutProcessor.updatePayout id data).
Proof. unfold PayoutProcessor.updatePayout. keeps_table. Qed.

Lemma keepsBalances_withdrawal_update id data :
  keeps balanceCache (WithdrawalsService.update id data).
Proof.
  unfold WithdrawalsService.update, WithdrawalsService.findById. keeps_table.
Qed.

Ltac keeps_payout_tables :=
  repeat first
    [ apply keepsLedger_updatePayout
    | apply keepsLedger_withdrawal_update
    | apply keepsBalances_updatePayout
    | apply keepsBalances_withdrawal_update
    | apply keeps_try_catch; [|intro]
    | progress keeps_table ].

Lemma keepsLedger_processPayout now newId id outcome :
  keeps ledgerEntry (PayoutProcessor.processPayout now newId id outcome).
Proof.
  unfold PayoutProcessor.processPayout, PayoutProcessor.createPayout,
    PayoutProcessor.findPayoutByRequest, WithdrawalsService.findById.
  keeps_payout_tables.
Qed.

Lemma keepsBalances_processPayout now newId id outcome :
  keeps balanceCache (PayoutProcessor.processPayout now newId id outcome).
Proof.
  unfold PayoutProcessor.processPayout, PayoutProcessor.createPayout,
    PayoutProcessor.findPayoutByRequest, WithdrawalsService.findById.
  keeps_payout_tables.
Qed.

Lemma keeps_finalizeWithdrawal {T} (table : PrismaClient -> T) u a c amt id tx :
  keeps table (BalanceService.finalizeWithdrawal u a c amt id tx).
Proof. intro db. rewrite finalizeWithdrawal_throws. reflexivity. Qed.

Lemma keepsLedger_updatePayoutStatus now newId id params :
  keeps ledgerEntry
    (PayoutStatusUpdate.updatePayoutStatus now newId id params).
Proof.
  unfold PayoutStatusUpdate.updatePayoutStatus,
    PayoutProcessor.findPayoutByRequest, WithdrawalsService.findById.
  repeat first [ apply keeps_finalizeWithdrawal | progress keeps_payout_tables ].
Qed.

Lemma keepsBalances_updatePayoutStatus now newId id params :
  keeps balanceCache
    (PayoutStatusUpdate.updatePayoutStatus now newId id params).
Proof.
  unfold PayoutStatusUpdate.updatePayoutStatus,
    PayoutProcessor.findPayoutByRequest, WithdrawalsService.findById.
  repeat first [ apply keeps_finalizeWithdrawal | progress keeps_payout_tables ].
Qed.

(** X27.  Once a withdrawal request has left PENDING_REVIEW, none of
    the withdrawal service's operations addressed to it, nor the payout
    sender, changes what the user owns: approval, rejection, manual
    payment, sending the payout and reporting any payout status, failure
    included, all leave the ledger and the balance cache exactly as they
    were.  In particular the amount reserved for a request whose payout
    failed stays in withdrawalsPending. *)
Theorem decided_request_keeps_the_funds now newId id adminId approveNotes
    rejectNotes proofUrl paidNotes outcome params db st
    (Hst : statusOf id db = Some st) (Hne : st <> PENDING_REVIEW) :
  fundsOf (snd (WithdrawalsService.approveRequest now id adminId
                  approveNotes db)) = fundsOf db
  /\ fundsOf (snd (WithdrawalsService.rejectRequest now id adminId
                     rejectNotes db)) = fundsOf db
  /\ fundsOf (snd (WithdrawalsService.markPaidManually now id adminId
                     proofUrl paidNotes db)) = fundsOf db
  /\ fundsOf (snd (PayoutProcessor.processPayout now newId id outcome db))
     = fundsOf db
  /\ fundsOf (snd (PayoutStatusUpdate.updatePayoutStatus now newId id
                     params db)) = fundsOf db.
Proof.
  apply statusOf_find in Hst as (row & Hfind & <-).
  split. { rewrite (approveRequest_guard _ _ _ _ _ row Hfind Hne).
           reflexivity. }
  split. { rewrite (rejectRequest_guard _ _ _ _ _ row Hfind Hne).
           reflexivity. }
  split. { destruct (markPaidManually_never_succeeds now id adminId proofUrl
                       paidNotes db) as [e ->]. reflexivity. }
  unfold fundsOf. split.
  - rewrite keepsLedger_processPayout, keepsBalances_processPayout.
    reflexivity.
  - rewrite keepsLedger_updatePayoutStatus, keepsBalances_updatePayoutStatus.
    reflexivity.
Qed.

Lemma decided_request_keeps_the_funds_witness :
  statusOf "wr-1" payoutFailed = Some FAILED
  /\ option_map BalanceCache.withdrawalsPending
       (balanceOf "alice" "usdt" "eth" payoutFailed) = Some 1%Q
  /\ fundsOf (snd (WithdrawalsService.markPaidManually (Scenario.t0 + 3)
                     "wr-1" "admin-1" None "paid by wire" payoutFailed))
     = fundsOf payoutFailed
  /\ fundsOf (snd (PayoutStatusUpdate.updatePayoutStatus (Scenario.t0 + 3)
                     "ptx-2" "wr-1"
                     (PayoutStatusUpdate.mkParams PayoutFAILED None None
                        (Some "gave up")) payoutFailed))
     = fundsOf payoutFailed.
Proof.
  split; [vm_compute; reflexivity|]. split; [vm_compute; reflexivity|].
  destruct (decided_request_keeps_the_funds (Scenario.t0 + 3) "ptx-2" "wr-1"
              "admin-1" None "no" None "paid by wire"
              (PayoutProcessor.SendError "x")
              (PayoutStatusUpdate.mkParams PayoutFAILED None None
                 (Some "gave up")) payoutFailed FAILED)
    as (_ & _ & Hpaid & _ & Hstatus).
  - vm_compute. reflexivity.
  - discriminate.
  - split; [exact Hpaid | exact Hstatus].
Defined.

(* ================================================================= *)
(** ** The sweep and the positions that are not due *)

Lemma filter_updateWhere_other {A} (p q : A -> bool) (f : A -> A) l :
  (forall x, p x = true -> q x = false /\ q (f x) = false) ->
  filter q (updateWhere p f l) = filter q l.
Proof.
  intro H. unfold updateWhere. induction l as [|x l IH]; simpl.
  - reflexivity.
  - destruct (p x) eqn:Hp.
    + destruct (H x Hp) as [H1 H2]. rewrite H1, H2. exact IH.
    + destruct (q x); [f_equal|]; exact IH.
Qed.

Lemma keeps_forEach_in {T A} (table : PrismaClient -> T) (l : list A) body :
  (forall x, In x l -> keeps table (body x)) -> keeps table (forEach l body).
Proof.
  induction l as [|x l IH]; intro H; simpl.
  - apply keeps_ret.
  - apply keeps_bind; [apply H; left; reflexivity|].
    intro. apply IH. intros y Hy. apply H. right. exact Hy.
Qed.

Lemma keepsPosition_finalizeUnstaking now stake sid :
  stake.(StakePosition.id) <> sid ->
  keeps (positionRows sid) (RewardCalculator.finalizeUnstaking now stake).
Proof.
  intro Hne.
  unfold RewardCalculator.finalizeUnstaking,
    RewardCalculator.getEffectiveApr, PoolsService.findSchedule,
    PoolsService.findPool, FraudService.findAsset,
    StakesService.updateStake, StakesService.findStake,
    StakesService.updatePool, PoolsService.findPool, BalanceService.update,
    BalanceService.findUnique, RewardCalculator.ledgerEntry_create,
    PayoutProcessor.notification_create.
  cbv zeta.
  repeat first
    [ apply keeps_modify; intro; unfold positionRows; tables;
      first [ reflexivity
            | apply filter_updateWhere_other; intros x Hx;
              apply String.eqb_eq in Hx;
              cbn [StakesService.setCompleted StakePosition.id];
              rewrite Hx; split; apply String.eqb_neq; exact Hne ]
    | progress keeps_table ].
Qed.

Lemma keepsCompletion_finalizeUnstaking now stake sid :
  stake.(StakePosition.id) <> sid ->
  keeps (completionEntries sid) (RewardCalculator.finalizeUnstaking now stake).
Proof.
  intro Hne.
  unfold RewardCalculator.finalizeUnstaking,
    RewardCalculator.getEffectiveApr, PoolsService.findSchedule,
    PoolsService.findPool, FraudService.findAsset,
    StakesService.updateStake, StakesService.findStake,
    StakesService.updatePool, PoolsService.findPool, BalanceService.update,
    BalanceService.findUnique, RewardCalculator.ledgerEntry_create,
    PayoutProcessor.notification_create.
  cbv zeta.
  repeat first
    [ apply keeps_modify; intro; unfold completionEntries; tables;
      first [ reflexivity
            | rewrite filter_app; cbn [filter LedgerEntry.entryType
                LedgerEntry.referenceId LedgerEntryType_eqb andb];
              apply String.eqb_neq in Hne; rewrite Hne; apply app_nil_r ]
    | progress keeps_table ].
Qed.

(** X28.  The sweep releases nothing early.  [processUnstakingPositions]
    always completes, and for a position none of whose rows is
    UNSTAKING with its cooldown over at that time, it leaves the
    position's rows exactly as they were and writes no
    UNSTAKE_COMPLETED entry for it, whatever it does, or fails to do,
    for the positions that are due. *)
Theorem sweep_releases_nothing_early now sid db
    (Hnot : forall s, In s db.(stakePosition) ->
              s.(StakePosition.id) = sid ->
              RewardCalculator.whereCooldownCompleted now s = false) :
  exists db1,
    RewardCalculator.processUnstakingPositions now db = (Ok tt, db1)
    /\ positionRows sid db1 = positionRows sid db
    /\ completionEntries sid db1 = completionEntries sid db.
Proof.
  unfold RewardCalculator.processUnstakingPositions.
  rewrite bind_run. unfold gets at 1.
  set (l := filter _ (stakePosition db)).
  assert (Hl : forall x, In x l -> x.(StakePosition.id) <> sid).
  { intros x Hx Hid. apply filter_In in Hx as [Hin Hdue].
    rewrite (Hnot x Hin Hid) in Hdue. discriminate. }
  pose proof (forEach_ok l
                (fun stake => try_catch_log
                                (RewardCalculator.finalizeUnstaking now stake))
                db) as Hok.
  pose proof (keeps_forEach_in (positionRows sid) l
                (fun stake => try_catch_log
                                (RewardCalculator.finalizeUnstaking now stake))
                (fun x Hx => keeps_try_catch_log _ _
                   (keepsPosition_finalizeUnstaking now x sid (Hl x Hx))) db)
    as Hrows.
  pose proof (keeps_forEach_in (completionEntries sid) l
                (fun stake => try_catch_log
                                (RewardCalculator.finalizeUnstaking now stake))
                (fun x Hx => keeps_try_catch_log _ _
                   (keepsCompletion_finalizeUnstaking now x sid (Hl x Hx))) db)
    as Hentries.
  destruct (forEach l _ db) as [r db1] eqn:Hrun.
  exists db1. cbn [fst snd] in *. split; [|split; assumption].
  rewrite Hok; [reflexivity|].
  intros x db0. rewrite try_catch_log_run. reflexivity.
Qed.

Lemma sweep_releases_nothing_early_witness :
  exists db1,
    RewardCalculator.processUnstakingPositions StakeScenario.t0
      (StakeScenario.world 24 StakeUNSTAKING (Some (StakeScenario.t0 + 1)))
    = (Ok tt, db1)
    /\ positionRows "sp-1" db1
       = [StakeScenario.position StakeUNSTAKING
            (Some (StakeScenario.t0 + 1))]
    /\ completionEntries "sp-1" db1 = [].
Proof.
  destruct (sweep_releases_nothing_early StakeScenario.t0 "sp-1"
              (StakeScenario.world 24 StakeUNSTAKING
                 (Some (StakeScenario.t0 + 1))))
    as (db1 & Hrun & Hrows & Hentries).
  - intros s Hin _. destruct Hin as [<-|[]]. vm_compute. reflexivity.
  - exists db1. split; [exact Hrun|]. split.
    + rewrite Hrows. vm_compute. reflexivity.
    + rewrite Hentries. vm_compute. reflexivity.
Defined.
